(** * CryEngine compute render pass: dirty tracking and compile-on-demand

    Shallow embedding of
    [Code/CryEngine/RenderDll/XRenderD3D9/GraphicsPipeline/Common/ComputeRenderPass.cpp]
    and of the resource-binding part of
    [Code/CryEngine/RenderDll/XRenderD3D9/DeviceManager/DeviceObjects.inl].

    The pass is a record of its member variables.  Member functions are
    computations in a small monad that threads the pass, records every call
    made to a collaborator (device factory, resource set, constant manager,
    command list, scheduler) in a trace, and faults on a null dereference.
    The collaborators themselves are not part of the sources; their answers
    are taken from an arbitrary [Device] record, and the enumerators of the
    absent header [ComputeRenderPass.h] from an arbitrary [Header] record. *)

From Stdlib Require Import NArith ZArith List Bool Lia.
Import ListNotations.
Local Open Scope N_scope.

(** ** Data model *)

(** Engine objects held by pointer are identified by an address-like handle. *)
Definition Handle : Type := N.

(** [SResourceBinding]: one constructor per C++ constructor in
    DeviceObjects.inl. *)
Inductive EResourceType : Type :=
| InvalidType
| ConstantBuffer
| Texture
| Buffer
| Sampler.

Inductive SResourceBinding : Type :=
| Binding_Default
| Binding_Texture (pTexture : Handle) (view : N)
| Binding_Buffer (pBuffer : Handle) (view : N)
| Binding_Sampler (samplerState : N)
| Binding_ConstantBuffer (pConstantBuffer : Handle).

Definition binding_type (r : SResourceBinding) : EResourceType :=
  match r with
  | Binding_Default => InvalidType
  | Binding_Texture _ _ => Texture
  | Binding_Buffer _ _ => Buffer
  | Binding_Sampler _ => Sampler
  | Binding_ConstantBuffer _ => ConstantBuffer
  end.

(** Modelled from the spec: the constructor of [SResourceBindPoint] is in an
    absent header; the spec gives the key as (slot, shader-stage mask,
    resource type). *)
Record SResourceBindPoint : Type := {
  slotNumber : Z;
  stages : N;
  slotType : EResourceType
}.

(** Modelled from the spec: the [SResourceBindPoint(resource, slot, stages)]
    constructor of the absent header; the resource type of the key is the
    type of the binding. *)
Definition mkBindPoint (resource : SResourceBinding) (shaderSlot : Z)
    (shaderStages : N) : SResourceBindPoint :=
  {| slotNumber := shaderSlot; stages := shaderStages;
     slotType := binding_type resource |}.

(** [CDeviceResourceSetDesc]: the callback registration written by the
    constructor in DeviceObjects.inl, and the queued bindings. *)
Record CDeviceResourceSetDesc : Type := {
  m_invalidateCallbackOwner : option Handle;
  m_invalidateCallback : option Handle;
  m_resources : list (SResourceBindPoint * SResourceBinding)
}.

Definition newResourceSetDesc (pInvalidateCallbackOwner : Handle)
    (invalidateCallback : Handle) : CDeviceResourceSetDesc :=
  {| m_invalidateCallbackOwner := Some pInvalidateCallbackOwner;
     m_invalidateCallback := Some invalidateCallback;
     m_resources := [] |}.

(** Opaque device objects: an identity and whatever the backend keeps. *)
Record CDeviceResourceSet : Type := {
  rs_flags : N;
  rs_contents : N
}.

Definition CDeviceResourceLayout : Type := Handle.

Record CDeviceComputePSO : Type := {
  pso_id : Handle;
  IsValid : bool;
  GetUpdateCount : N
}.

(** Modelled from the spec: [SDeviceResourceLayoutDesc] and its
    [SetResourceSet] / [SetConstantBuffer] are declared in an absent header.
    The spec describes it as an ordered list of (bindSlot, resource-set
    description) plus a list of (bindSlot, constant-buffer shaderSlot,
    shaderStages) for inline constant buffers. *)
Record SDeviceResourceLayoutDesc : Type := {
  m_resourceSetBindings : list (Z * CDeviceResourceSetDesc);
  m_constantBufferBindings : list (Z * N * N)
}.

Module LayoutDesc.

(** Modelled from the spec: a default-constructed [SDeviceResourceLayoutDesc]
    of the absent header, with no slot set. *)
Definition empty : SDeviceResourceLayoutDesc :=
  {| m_resourceSetBindings := []; m_constantBufferBindings := [] |}.

(** Modelled from the spec: [SDeviceResourceLayoutDesc::SetResourceSet] of
    the absent header; the spec keeps the (bindSlot, description) entries in
    order. *)
Definition SetResourceSet (bindSlot : Z) (desc : CDeviceResourceSetDesc)
    (d : SDeviceResourceLayoutDesc) : SDeviceResourceLayoutDesc :=
  {| m_resourceSetBindings := m_resourceSetBindings d ++ [(bindSlot, desc)];
     m_constantBufferBindings := m_constantBufferBindings d |}.

(** Modelled from the spec: [SDeviceResourceLayoutDesc::SetConstantBuffer]
    of the absent header; the spec keeps the (bindSlot, shaderSlot,
    shaderStages) entries of the inline constant buffers in order. *)
Definition SetConstantBuffer (bindSlot : Z) (shaderSlot shaderStages : N)
    (d : SDeviceResourceLayoutDesc) : SDeviceResourceLayoutDesc :=
  {| m_resourceSetBindings := m_resourceSetBindings d;
     m_constantBufferBindings :=
       m_constantBufferBindings d ++ [(bindSlot, shaderSlot, shaderStages)] |}.

End LayoutDesc.

(** The arguments of the [CDeviceComputePSODesc] constructor, as Compile
    passes them. *)
Record CDeviceComputePSODesc : Type := {
  pso_pResourceLayout : option CDeviceResourceLayout;
  pso_pShader : option Handle;
  pso_technique : N;
  pso_rtFlags : N;
  pso_mdFlags : N;
  pso_mdvFlags : N
}.

(** One reflected inline constant buffer, with the three members the pass
    reads ([cb.pBuffer], [cb.shaderSlot], [cb.shaderStages]). *)
Record SConstantBufferBindInfo : Type := {
  pBuffer : Handle;
  shaderSlot : N;
  shaderStages : N
}.

(** The constant manager: the buffer list returned by [GetBuffers()] and an
    opaque rest. *)
Record CShaderConstantManager : Type := {
  GetBuffers : list SConstantBufferBindInfo;
  cm_reflection : N
}.

(** The member variables of [CComputeRenderPass]. *)
Record CComputeRenderPass : Type := {
  m_flags : N;
  m_dirtyMask : N;
  m_bResourcesInvalidated : bool;
  m_pShader : option Handle;
  m_techniqueName : N;
  m_rtMask : N;
  m_dispatchSizeX : N;
  m_dispatchSizeY : N;
  m_dispatchSizeZ : N;
  m_currentPsoUpdateCount : N;
  m_bPendingConstantUpdate : bool;
  m_bCompiled : bool;
  m_inputVars : list N;
  m_resourceDesc : CDeviceResourceSetDesc;
  m_pResourceSet : option CDeviceResourceSet;
  m_pResourceLayout : option CDeviceResourceLayout;
  m_pPipelineState : option CDeviceComputePSO;
  m_constantManager : CShaderConstantManager;
  m_profilingStats : N
}.

(** Assignments to single members. *)
Definition set_m_dirtyMask (v : N) (p : CComputeRenderPass) : CComputeRenderPass :=
  {| m_flags := m_flags p; m_dirtyMask := v;
     m_bResourcesInvalidated := m_bResourcesInvalidated p;
     m_pShader := m_pShader p; m_techniqueName := m_techniqueName p;
     m_rtMask := m_rtMask p; m_dispatchSizeX := m_dispatchSizeX p;
     m_dispatchSizeY := m_dispatchSizeY p; m_dispatchSizeZ := m_dispatchSizeZ p;
     m_currentPsoUpdateCount := m_currentPsoUpdateCount p;
     m_bPendingConstantUpdate := m_bPendingConstantUpdate p;
     m_bCompiled := m_bCompiled p; m_inputVars := m_inputVars p;
     m_resourceDesc := m_resourceDesc p; m_pResourceSet := m_pResourceSet p;
     m_pResourceLayout := m_pResourceLayout p;
     m_pPipelineState := m_pPipelineState p;
     m_constantManager := m_constantManager p;
     m_profilingStats := m_profilingStats p |}.

Definition set_m_bResourcesInvalidated (v : bool) (p : CComputeRenderPass) : CComputeRenderPass :=
  {| m_flags := m_flags p; m_dirtyMask := m_dirtyMask p;
     m_bResourcesInvalidated := v;
     m_pShader := m_pShader p; m_techniqueName := m_techniqueName p;
     m_rtMask := m_rtMask p; m_dispatchSizeX := m_dispatchSizeX p;
     m_dispatchSizeY := m_dispatchSizeY p; m_dispatchSizeZ := m_dispatchSizeZ p;
     m_currentPsoUpdateCount := m_currentPsoUpdateCount p;
     m_bPendingConstantUpdate := m_bPendingConstantUpdate p;
     m_bCompiled := m_bCompiled p; m_inputVars := m_inputVars p;
     m_resourceDesc := m_resourceDesc p; m_pResourceSet := m_pResourceSet p;
     m_pResourceLayout := m_pResourceLayout p;
     m_pPipelineState := m_pPipelineState p;
     m_constantManager := m_constantManager p;
     m_profilingStats := m_profilingStats p |}.

Definition set_m_bCompiled (v : bool) (p : CComputeRenderPass) : CComputeRenderPass :=
  {| m_flags := m_flags p; m_dirtyMask := m_dirtyMask p;
     m_bResourcesInvalidated := m_bResourcesInvalidated p;
     m_pShader := m_pShader p; m_techniqueName := m_techniqueName p;
     m_rtMask := m_rtMask p; m_dispatchSizeX := m_dispatchSizeX p;
     m_dispatchSizeY := m_dispatchSizeY p; m_dispatchSizeZ := m_dispatchSizeZ p;
     m_currentPsoUpdateCount := m_currentPsoUpdateCount p;
     m_bPendingConstantUpdate := m_bPendingConstantUpdate p;
     m_bCompiled := v; m_inputVars := m_inputVars p;
     m_resourceDesc := m_resourceDesc p; m_pResourceSet := m_pResourceSet p;
     m_pResourceLayout := m_pResourceLayout p;
     m_pPipelineState := m_pPipelineState p;
     m_constantManager := m_constantManager p;
     m_profilingStats := m_profilingStats p |}.

Definition set_m_bPendingConstantUpdate (v : bool) (p : CComputeRenderPass) : CComputeRenderPass :=
  {| m_flags := m_flags p; m_dirtyMask := m_dirtyMask p;
     m_bResourcesInvalidated := m_bResourcesInvalidated p;
     m_pShader := m_pShader p; m_techniqueName := m_techniqueName p;
     m_rtMask := m_rtMask p; m_dispatchSizeX := m_dispatchSizeX p;
     m_dispatchSizeY := m_dispatchSizeY p; m_dispatchSizeZ := m_dispatchSizeZ p;
     m_currentPsoUpdateCount := m_currentPsoUpdateCount p;
     m_bPendingConstantUpdate := v;
     m_bCompiled := m_bCompiled p; m_inputVars := m_inputVars p;
     m_resourceDesc := m_resourceDesc p; m_pResourceSet := m_pResourceSet p;
     m_pResourceLayout := m_pResourceLayout p;
     m_pPipelineState := m_pPipelineState p;
     m_constantManager := m_constantManager p;
     m_profilingStats := m_profilingStats p |}.

Definition set_m_currentPsoUpdateCount (v : N) (p : CComputeRenderPass) : CComputeRenderPass :=
  {| m_flags := m_flags p; m_dirtyMask := m_dirtyMask p;
     m_bResourcesInvalidated := m_bResourcesInvalidated p;
     m_pShader := m_pShader p; m_techniqueName := m_techniqueName p;
     m_rtMask := m_rtMask p; m_dispatchSizeX := m_dispatchSizeX p;
     m_dispatchSizeY := m_dispatchSizeY p; m_dispatchSizeZ := m_dispatchSizeZ p;
     m_currentPsoUpdateCount := v;
     m_bPendingConstantUpdate := m_bPendingConstantUpdate p;
     m_bCompiled := m_bCompiled p; m_inputVars := m_inputVars p;
     m_resourceDesc := m_resourceDesc p; m_pResourceSet := m_pResourceSet p;
     m_pResourceLayout := m_pResourceLayout p;
     m_pPipelineState := m_pPipelineState p;
     m_constantManager := m_constantManager p;
     m_profilingStats := m_profilingStats p |}.

Definition set_m_resourceDesc (v : CDeviceResourceSetDesc) (p : CComputeRenderPass) : CComputeRenderPass :=
  {| m_flags := m_flags p; m_dirtyMask := m_dirtyMask p;
     m_bResourcesInvalidated := m_bResourcesInvalidated p;
     m_pShader := m_pShader p; m_techniqueName := m_techniqueName p;
     m_rtMask := m_rtMask p; m_dispatchSizeX := m_dispatchSizeX p;
     m_dispatchSizeY := m_dispatchSizeY p; m_dispatchSizeZ := m_dispatchSizeZ p;
     m_currentPsoUpdateCount := m_currentPsoUpdateCount p;
     m_bPendingConstantUpdate := m_bPendingConstantUpdate p;
     m_bCompiled := m_bCompiled p; m_inputVars := m_inputVars p;
     m_resourceDesc := v; m_pResourceSet := m_pResourceSet p;
     m_pResourceLayout := m_pResourceLayout p;
     m_pPipelineState := m_pPipelineState p;
     m_constantManager := m_constantManager p;
     m_profilingStats := m_profilingStats p |}.

Definition set_m_pResourceSet (v : option CDeviceResourceSet) (p : CComputeRenderPass) : CComputeRenderPass :=
  {| m_flags := m_flags p; m_dirtyMask := m_dirtyMask p;
     m_bResourcesInvalidated := m_bResourcesInvalidated p;
     m_pShader := m_pShader p; m_techniqueName := m_techniqueName p;
     m_rtMask := m_rtMask p; m_dispatchSizeX := m_dispatchSizeX p;
     m_dispatchSizeY := m_dispatchSizeY p; m_dispatchSizeZ := m_dispatchSizeZ p;
     m_currentPsoUpdateCount := m_currentPsoUpdateCount p;
     m_bPendingConstantUpdate := m_bPendingConstantUpdate p;
     m_bCompiled := m_bCompiled p; m_inputVars := m_inputVars p;
     m_resourceDesc := m_resourceDesc p; m_pResourceSet := v;
     m_pResourceLayout := m_pResourceLayout p;
     m_pPipelineState := m_pPipelineState p;
     m_constantManager := m_constantManager p;
     m_profilingStats := m_profilingStats p |}.

Definition set_m_pResourceLayout (v : option CDeviceResourceLayout) (p : CComputeRenderPass) : CComputeRenderPass :=
  {| m_flags := m_flags p; m_dirtyMask := m_dirtyMask p;
     m_bResourcesInvalidated := m_bResourcesInvalidated p;
     m_pShader := m_pShader p; m_techniqueName := m_techniqueName p;
     m_rtMask := m_rtMask p; m_dispatchSizeX := m_dispatchSizeX p;
     m_dispatchSizeY := m_dispatchSizeY p; m_dispatchSizeZ := m_dispatchSizeZ p;
     m_currentPsoUpdateCount := m_currentPsoUpdateCount p;
     m_bPendingConstantUpdate := m_bPendingConstantUpdate p;
     m_bCompiled := m_bCompiled p; m_inputVars := m_inputVars p;
     m_resourceDesc := m_resourceDesc p; m_pResourceSet := m_pResourceSet p;
     m_pResourceLayout := v;
     m_pPipelineState := m_pPipelineState p;
     m_constantManager := m_constantManager p;
     m_profilingStats := m_profilingStats p |}.

Definition set_m_pPipelineState (v : option CDeviceComputePSO) (p : CComputeRenderPass) : CComputeRenderPass :=
  {| m_flags := m_flags p; m_dirtyMask := m_dirtyMask p;
     m_bResourcesInvalidated := m_bResourcesInvalidated p;
     m_pShader := m_pShader p; m_techniqueName := m_techniqueName p;
     m_rtMask := m_rtMask p; m_dispatchSizeX := m_dispatchSizeX p;
     m_dispatchSizeY := m_dispatchSizeY p; m_dispatchSizeZ := m_dispatchSizeZ p;
     m_currentPsoUpdateCount := m_currentPsoUpdateCount p;
     m_bPendingConstantUpdate := m_bPendingConstantUpdate p;
     m_bCompiled := m_bCompiled p; m_inputVars := m_inputVars p;
     m_resourceDesc := m_resourceDesc p; m_pResourceSet := m_pResourceSet p;
     m_pResourceLayout := m_pResourceLayout p;
     m_pPipelineState := v;
     m_constantManager := m_constantManager p;
     m_profilingStats := m_profilingStats p |}.

Definition set_m_constantManager (v : CShaderConstantManager) (p : CComputeRenderPass) : CComputeRenderPass :=
  {| m_flags := m_flags p; m_dirtyMask := m_dirtyMask p;
     m_bResourcesInvalidated := m_bResourcesInvalidated p;
     m_pShader := m_pShader p; m_techniqueName := m_techniqueName p;
     m_rtMask := m_rtMask p; m_dispatchSizeX := m_dispatchSizeX p;
     m_dispatchSizeY := m_dispatchSizeY p; m_dispatchSizeZ := m_dispatchSizeZ p;
     m_currentPsoUpdateCount := m_currentPsoUpdateCount p;
     m_bPendingConstantUpdate := m_bPendingConstantUpdate p;
     m_bCompiled := m_bCompiled p; m_inputVars := m_inputVars p;
     m_resourceDesc := m_resourceDesc p; m_pResourceSet := m_pResourceSet p;
     m_pResourceLayout := m_pResourceLayout p;
     m_pPipelineState := m_pPipelineState p;
     m_constantManager := v;
     m_profilingStats := m_profilingStats p |}.

Definition set_m_profilingStats (v : N) (p : CComputeRenderPass) : CComputeRenderPass :=
  {| m_flags := m_flags p; m_dirtyMask := m_dirtyMask p;
     m_bResourcesInvalidated := m_bResourcesInvalidated p;
     m_pShader := m_pShader p; m_techniqueName := m_techniqueName p;
     m_rtMask := m_rtMask p; m_dispatchSizeX := m_dispatchSizeX p;
     m_dispatchSizeY := m_dispatchSizeY p; m_dispatchSizeZ := m_dispatchSizeZ p;
     m_currentPsoUpdateCount := m_currentPsoUpdateCount p;
     m_bPendingConstantUpdate := m_bPendingConstantUpdate p;
     m_bCompiled := m_bCompiled p; m_inputVars := m_inputVars p;
     m_resourceDesc := m_resourceDesc p; m_pResourceSet := m_pResourceSet p;
     m_pResourceLayout := m_pResourceLayout p;
     m_pPipelineState := m_pPipelineState p;
     m_constantManager := m_constantManager p;
     m_profilingStats := v |}.

(** ** What the sources do not contain *)

(** The enumerators and build switches of the absent headers, as parameters:
    the three dirty bits and the pass flag of [ComputeRenderPass.h], the
    invalidation flag [eResourceDestroyed], the compute stage, the resource-set
    creation flag, and the [ENABLE_PROFILING_CODE] switch. *)
Record Header : Type := {
  eDirty_Resources : N;
  eDirty_Technique : N;
  eDirty_ResourceLayout : N;
  eFlags_ReflectConstantBuffersFromShader : N;
  eResourceDestroyed : N;
  EShaderStage_Compute : N;
  EFlags_ForceSetAllState : N;
  ENABLE_PROFILING_CODE : bool
}.

(** Modelled from the spec: [eDirty_None] and [eDirty_All] are declared in the
    absent [ComputeRenderPass.h]; the spec has None as the fully clear mask
    and All as implying every other bit. *)
Definition eDirty_None : N := 0.

Definition eDirty_All (h : Header) : N :=
  N.lor (eDirty_Resources h) (N.lor (eDirty_Technique h) (eDirty_ResourceLayout h)).

(** Modelled from the spec: [eFlags_None] of the absent header, the empty
    flag set. *)
Definition eFlags_None : N := 0.

(** The answers of the collaborators: the device-object factory, the resource
    set, the shader constant manager, the resource-set description, the pass
    scheduler and the profiling statistics.  [IsDirty] is the pass's own
    predicate, declared in the absent [ComputeRenderPass.h]; it may consult the
    update counter of the pipeline state, so it is taken from here as well.
    Nothing is assumed about any of them. *)
Record Device : Type := {
  CreateResourceSet : N -> option CDeviceResourceSet;
  ResourceSet_Update :
    CDeviceResourceSet -> CDeviceResourceSetDesc -> N -> CDeviceResourceSet * bool;
  CreateResourceLayout : SDeviceResourceLayoutDesc -> option CDeviceResourceLayout;
  CreateComputePSO : CDeviceComputePSODesc -> option CDeviceComputePSO;
  ReleaseShaderReflection : CShaderConstantManager -> CShaderConstantManager;
  AllocateShaderReflection :
    CShaderConstantManager -> option Handle -> N -> N -> N -> CShaderConstantManager;
  InitShaderReflection :
    CShaderConstantManager -> CDeviceComputePSO -> CShaderConstantManager;
  BeginNamedConstantUpdate : CShaderConstantManager -> CShaderConstantManager;
  EndNamedConstantUpdate : CShaderConstantManager -> CShaderConstantManager;
  ConstantManager_Reset : CShaderConstantManager -> CShaderConstantManager;
  UpdateResource :
    EResourceType -> CDeviceResourceSetDesc -> SResourceBindPoint ->
    SResourceBinding -> CDeviceResourceSetDesc * N;
  ResourceSetDesc_Clear : CDeviceResourceSetDesc -> CDeviceResourceSetDesc;
  IsDirty : CComputeRenderPass -> bool;
  Scheduler_IsActive : bool;
  ProfilingStats_Merge : N -> N;
  ProfilingStats_Reset : N -> N
}.

(** ** Calls to collaborators *)

(** Every call the pass makes, with its arguments; calls whose answer decides
    the control flow also carry the answer. *)
Inductive Call : Type :=
| Call_Update (flags : N) (result : bool)
| Call_ReleaseShaderReflection
| Call_AllocateShaderReflection (shader : option Handle) (technique rtMask stage : N)
| Call_CreateResourceLayout (desc : SDeviceResourceLayoutDesc)
    (result : option CDeviceResourceLayout)
| Call_CreateComputePSO (desc : CDeviceComputePSODesc)
    (result : option CDeviceComputePSO)
| Call_InitShaderReflection (pso : CDeviceComputePSO)
| Call_BeginNamedConstantUpdate
| Call_EndNamedConstantUpdate
| Call_AddPass
| Call_ResourceSetDesc_Clear
| Call_ConstantManager_Reset
| Call_ProfilingStats_Merge
| Call_ProfilingStats_Reset
| Cmd_BeginProfilingSection
| Cmd_EndProfilingSection
| Cmd_PrepareResourcesForUse (bindSlot : Z) (pResources : option CDeviceResourceSet)
| Cmd_PrepareInlineConstantBufferForUse (bindSlot : Z) (buffer : Handle)
    (slot : N) (stage : N)
| Cmd_SetResourceLayout (pLayout : option CDeviceResourceLayout)
| Cmd_SetPipelineState (pPso : option CDeviceComputePSO)
| Cmd_SetResources (bindSlot : Z) (pResources : option CDeviceResourceSet)
| Cmd_SetInlineConstantBuffer (bindSlot : Z) (buffer : Handle) (slot : N)
| Cmd_Dispatch (x y z : N).

(** Calls on the compute command interface (the backend). *)
Definition is_backend_call (c : Call) : bool :=
  match c with
  | Cmd_BeginProfilingSection | Cmd_EndProfilingSection
  | Cmd_PrepareResourcesForUse _ _
  | Cmd_PrepareInlineConstantBufferForUse _ _ _ _
  | Cmd_SetResourceLayout _ | Cmd_SetPipelineState _
  | Cmd_SetResources _ _ | Cmd_SetInlineConstantBuffer _ _ _
  | Cmd_Dispatch _ _ _ => true
  | _ => false
  end.

Definition is_dispatch_call (c : Call) : bool :=
  match c with
  | Cmd_Dispatch _ _ _ => true
  | _ => false
  end.

(** Calls of the compile pipeline: device-object creation, resource-set
    update and shader reflection. *)
Definition is_compile_call (c : Call) : bool :=
  match c with
  | Call_Update _ _ | Call_ReleaseShaderReflection
  | Call_AllocateShaderReflection _ _ _ _
  | Call_CreateResourceLayout _ _ | Call_CreateComputePSO _ _
  | Call_InitShaderReflection _ => true
  | _ => false
  end.

(** A call that reported failure: Update returned false, layout creation
    returned null, PSO creation returned null or an invalid object. *)
Definition call_failed (c : Call) : bool :=
  match c with
  | Call_Update _ ok => negb ok
  | Call_CreateResourceLayout _ None => true
  | Call_CreateComputePSO _ None => true
  | Call_CreateComputePSO _ (Some pso) => negb (IsValid pso)
  | _ => false
  end.

(** The block of Compile a call belongs to: 1 for the resource set, 2 for
    shader reflection and the resource layout, 3 for the pipeline state; 0 for
    calls Compile does not make. *)
Definition call_block (c : Call) : nat :=
  match c with
  | Call_Update _ _ => 1
  | Call_ReleaseShaderReflection => 2
  | Call_AllocateShaderReflection _ _ _ _ => 2
  | Call_CreateResourceLayout _ _ => 2
  | Call_CreateComputePSO _ _ => 3
  | Call_InitShaderReflection _ => 3
  | _ => 0
  end.

(** ** The monad of member functions *)

Definition M (A : Type) : Type :=
  CComputeRenderPass -> option (A * CComputeRenderPass * list Call).

Definition ret {A : Type} (a : A) : M A := fun p => Some (a, p, []).

Definition bind {A B : Type} (m : M A) (k : A -> M B) : M B :=
  fun p =>
    match m p with
    | None => None
    | Some (a, p1, t1) =>
        match k a p1 with
        | None => None
        | Some (b, p2, t2) => Some (b, p2, t1 ++ t2)
        end
    end.

Definition this : M CComputeRenderPass := fun p => Some (p, p, []).

Definition assign (f : CComputeRenderPass -> CComputeRenderPass) : M unit :=
  fun p => Some (tt, f p, []).

Definition call (c : Call) : M unit := fun p => Some (tt, p, [c]).

Definition nullDereference {A : Type} : M A := fun _ => None.

Declare Scope pass_scope.
Delimit Scope pass_scope with pass.
Notation "x <- m ;; k" := (bind m (fun x => k))
  (at level 61, m at next level, right associativity) : pass_scope.
Notation "m ;; k" := (bind m (fun _ => k))
  (at level 61, right associativity) : pass_scope.
Local Open Scope pass_scope.

(** [mask & bits] as a C condition. *)
Definition has (mask bits : N) : bool := negb (N.land mask bits =? 0).

(** No bit of [a] is missing from [b]. *)
Definition mask_subset (a b : N) : Prop := N.ldiff a b = 0.

(** ** DeviceObjects.inl: queuing a binding in a resource-set description *)

(** Each setter builds the binding and its bind point and hands both to
    [UpdateResource<type>], whose body is not in the sources; its answer (the
    new description and the dirty-flag delta) comes from the device record. *)
Module ResourceSetDesc.

Definition SetConstantBuffer (dev : Device) (shaderSlot : Z) (pBuffer : Handle)
    (shaderStages : N) (d : CDeviceResourceSetDesc) : CDeviceResourceSetDesc * N :=
  let resource := Binding_ConstantBuffer pBuffer in
  let bindPoint := mkBindPoint resource shaderSlot shaderStages in
  UpdateResource dev ConstantBuffer d bindPoint resource.

Definition SetTexture (dev : Device) (shaderSlot : Z) (pTexture : Handle)
    (hView : N) (shaderStages : N) (d : CDeviceResourceSetDesc)
    : CDeviceResourceSetDesc * N :=
  let resource := Binding_Texture pTexture hView in
  let bindPoint := mkBindPoint resource shaderSlot shaderStages in
  UpdateResource dev Texture d bindPoint resource.

Definition SetSampler (dev : Device) (shaderSlot : Z) (hState : N)
    (shaderStages : N) (d : CDeviceResourceSetDesc) : CDeviceResourceSetDesc * N :=
  let resource := Binding_Sampler hState in
  let bindPoint := mkBindPoint resource shaderSlot shaderStages in
  UpdateResource dev Sampler d bindPoint resource.

Definition SetBuffer (dev : Device) (shaderSlot : Z) (pBuffer : Handle)
    (hView : N) (shaderStages : N) (d : CDeviceResourceSetDesc)
    : CDeviceResourceSetDesc * N :=
  let resource := Binding_Buffer pBuffer hView in
  let bindPoint := mkBindPoint resource shaderSlot shaderStages in
  UpdateResource dev Buffer d bindPoint resource.

End ResourceSetDesc.

(** ** ComputeRenderPass.cpp *)

(** A range-for loop over a container, threading the loop-carried locals. *)
Fixpoint for_each {A S : Type} (xs : list A) (body : A -> S -> M S) (s : S) : M S :=
  match xs with
  | [] => ret s
  | x :: rest => s1 <- body x s ;; for_each rest body s1
  end.

(** What a loop body produces for the buffers, numbered from [bindSlot]. *)
Fixpoint numbered {B : Type} (mk : Z -> SConstantBufferBindInfo -> B)
    (buffers : list SConstantBufferBindInfo) (bindSlot : Z) : list B :=
  match buffers with
  | [] => []
  | cb :: rest => mk bindSlot cb :: numbered mk rest (bindSlot + 1)%Z
  end.

(** Lines 60-65 of Compile: the local [resourceLayoutDesc], filled with the
    resource set at [bindSlot++] and then one constant buffer per entry of
    [GetBuffers()] at [bindSlot++]. *)
Definition buildResourceLayoutDesc (resourceDesc : CDeviceResourceSetDesc)
    (buffers : list SConstantBufferBindInfo) : SDeviceResourceLayoutDesc :=
  let bindSlot := 0%Z in
  let resourceLayoutDesc := LayoutDesc.empty in
  let resourceLayoutDesc :=
    LayoutDesc.SetResourceSet bindSlot resourceDesc resourceLayoutDesc in
  let bindSlot := (bindSlot + 1)%Z in
  snd (fold_left
         (fun (st : Z * SDeviceResourceLayoutDesc) cb =>
            let (bindSlot, d) := st in
            ((bindSlot + 1)%Z,
             LayoutDesc.SetConstantBuffer bindSlot (shaderSlot cb) (shaderStages cb) d))
         buffers (bindSlot, resourceLayoutDesc)).

Section ComputeRenderPass.

Variable h : Header.
Variable dev : Device.

Definition OnResourceInvalidated (flags : N) : M bool :=
  assign (fun p => set_m_dirtyMask (N.lor (m_dirtyMask p) (eDirty_Resources h)) p) ;;
  (* Don't keep the callback when the resource goes out of scope *)
  ret (negb (has flags (eResourceDestroyed h))).

(** The constructor.  [self] stands for [this] and [callback] for the address
    of [OnResourceInvalidated]; the profiling label is not modelled. *)
Definition newComputeRenderPass (self callback : Handle) (flags : N)
    : CComputeRenderPass :=
  {| m_flags := flags;
     m_dirtyMask := eDirty_All h;
     m_bResourcesInvalidated := false;
     m_pShader := None;
     m_techniqueName := 0;
     m_rtMask := 0;
     m_dispatchSizeX := 1;
     m_dispatchSizeY := 1;
     m_dispatchSizeZ := 1;
     m_currentPsoUpdateCount := 0;
     m_bPendingConstantUpdate := false;
     m_bCompiled := false;
     m_inputVars := [0; 0; 0; 0];
     m_resourceDesc := newResourceSetDesc self callback;
     m_pResourceSet := CreateResourceSet dev (EFlags_ForceSetAllState h);
     m_pResourceLayout := None;
     m_pPipelineState := None;
     m_constantManager := {| GetBuffers := []; cm_reflection := 0 |};
     m_profilingStats := 0 |}.

(** The mask Compile works from (lines 38-39). *)
Definition workingMask (p : CComputeRenderPass) : N :=
  N.lor (m_dirtyMask p)
        (if m_bResourcesInvalidated p then eDirty_Resources h else eDirty_None).

(** Compile is written as in the source, with its three conditional blocks
    named: each returns whether the code after it is reached. *)

(** Lines 44-48: [if (dirtyMask & eDirty_Resources)]; false is the early
    [return dirtyMask]. *)
Definition Compile_resourceSet (dirtyMask : N) : M bool :=
  p <- this ;;
  if has dirtyMask (eDirty_Resources h) then
    match m_pResourceSet p with
    | None => nullDereference
    | Some resourceSet =>
        let flags :=
          N.land dirtyMask (N.lor (eDirty_Resources h) (eDirty_ResourceLayout h)) in
        let result := ResourceSet_Update dev resourceSet (m_resourceDesc p) flags in
        call (Call_Update flags (snd result)) ;;
        assign (set_m_pResourceSet (Some (fst result))) ;;
        ret (snd result)
    end
  else ret true.

(** Lines 50-71: [if (dirtyMask & (eDirty_Technique | eDirty_ResourceLayout))],
    the resource layout. *)
Definition Compile_resourceLayout (dirtyMask : N) : M bool :=
  if has dirtyMask (N.lor (eDirty_Technique h) (eDirty_ResourceLayout h)) then
    call Call_ReleaseShaderReflection ;;
    assign (fun p => set_m_constantManager
                       (ReleaseShaderReflection dev (m_constantManager p)) p) ;;
    p <- this ;;
    (if has (m_flags p) (eFlags_ReflectConstantBuffersFromShader h) then
       call (Call_AllocateShaderReflection (m_pShader p) (m_techniqueName p)
               (m_rtMask p) (EShaderStage_Compute h)) ;;
       assign (set_m_constantManager
                 (AllocateShaderReflection dev (m_constantManager p)
                    (m_pShader p) (m_techniqueName p) (m_rtMask p)
                    (EShaderStage_Compute h)))
     else ret tt) ;;
    (* Resource layout *)
    p <- this ;;
    let resourceLayoutDesc :=
      buildResourceLayoutDesc (m_resourceDesc p) (GetBuffers (m_constantManager p)) in
    let pResourceLayout := CreateResourceLayout dev resourceLayoutDesc in
    call (Call_CreateResourceLayout resourceLayoutDesc pResourceLayout) ;;
    assign (set_m_pResourceLayout pResourceLayout) ;;
    ret (match pResourceLayout with Some _ => true | None => false end)
  else ret true.

(** Lines 73-86: the second
    [if (dirtyMask & (eDirty_Technique | eDirty_ResourceLayout))], the pipeline
    state. *)
Definition Compile_pipelineState (dirtyMask : N) : M bool :=
  if has dirtyMask (N.lor (eDirty_Technique h) (eDirty_ResourceLayout h)) then
    (* Pipeline state *)
    p <- this ;;
    let psoDesc :=
      {| pso_pResourceLayout := m_pResourceLayout p;
         pso_pShader := m_pShader p;
         pso_technique := m_techniqueName p;
         pso_rtFlags := m_rtMask p;
         pso_mdFlags := 0;
         pso_mdvFlags := 0 |} in
    let pPipelineState := CreateComputePSO dev psoDesc in
    call (Call_CreateComputePSO psoDesc pPipelineState) ;;
    assign (set_m_pPipelineState pPipelineState) ;;
    match pPipelineState with
    | None => ret false
    | Some pso =>
        if negb (IsValid pso) then ret false else
        assign (set_m_currentPsoUpdateCount (GetUpdateCount pso)) ;;
        (if has (m_flags p) (eFlags_ReflectConstantBuffersFromShader h) then
           call (Call_InitShaderReflection pso) ;;
           assign (fun p => set_m_constantManager
                              (InitShaderReflection dev (m_constantManager p) pso) p)
         else ret tt) ;;
        ret true
    end
  else ret true.

Definition Compile : M N :=
  p <- this ;;
  let dirtyMask := workingMask p in
  assign (set_m_bResourcesInvalidated false) ;;
  assign (set_m_bCompiled false) ;;
  updated <- Compile_resourceSet dirtyMask ;;
  if negb updated then ret dirtyMask else
  layoutCreated <- Compile_resourceLayout dirtyMask ;;
  if negb layoutCreated then ret dirtyMask else
  psoCreated <- Compile_pipelineState dirtyMask ;;
  if negb psoCreated then ret dirtyMask else
  let dirtyMask := eDirty_None in
  assign (set_m_bCompiled true) ;;
  ret dirtyMask.

Definition BeginConstantUpdate : M unit :=
  p <- this ;;
  if has (m_flags p) (eFlags_ReflectConstantBuffersFromShader h) then
    (if IsDirty dev p then
       dirtyMask <- Compile ;; assign (set_m_dirtyMask dirtyMask)
     else ret tt) ;;
    assign (set_m_bPendingConstantUpdate true) ;;
    call Call_BeginNamedConstantUpdate ;;
    assign (fun p => set_m_constantManager
                       (BeginNamedConstantUpdate dev (m_constantManager p)) p)
  else ret tt.

(** PrepareResourcesForUse, in its two parts.  Lines 111-125: close a pending
    constant update, or else compile when dirty.  The
    [CRY_ASSERT(!IsDirty())] under [m_bCompiled] only reports; it changes
    neither the pass nor the control flow and is left out. *)
Definition PrepareResourcesForUse_refresh : M unit :=
  p <- this ;;
  if m_bPendingConstantUpdate p then
    (* Unmap constant buffers and mark as bound *)
    call Call_EndNamedConstantUpdate ;;
    assign (fun p => set_m_constantManager
                       (EndNamedConstantUpdate dev (m_constantManager p)) p) ;;
    assign (set_m_bPendingConstantUpdate false)
  else if IsDirty dev p then
    dirtyMask <- Compile ;; assign (set_m_dirtyMask dirtyMask)
  else ret tt.

(** Lines 127-138: [if (m_dirtyMask == eDirty_None)], the prepare calls. *)
Definition PrepareResourcesForUse_prepare : M unit :=
  p <- this ;;
  if m_dirtyMask p =? eDirty_None then
    let inlineConstantBuffers := GetBuffers (m_constantManager p) in
    (* Prepare resources *)
    let bindSlot := 0%Z in
    call (Cmd_PrepareResourcesForUse bindSlot (m_pResourceSet p)) ;;
    let bindSlot := (bindSlot + 1)%Z in
    _ <- for_each inlineConstantBuffers
           (fun cb bindSlot =>
              call (Cmd_PrepareInlineConstantBufferForUse bindSlot (pBuffer cb)
                      (shaderSlot cb) (EShaderStage_Compute h)) ;;
              ret (bindSlot + 1)%Z)
           bindSlot ;;
    ret tt
  else ret tt.

Definition PrepareResourcesForUse : M unit :=
  PrepareResourcesForUse_refresh ;;
  PrepareResourcesForUse_prepare.

Definition BeginRenderPass : M unit :=
  if ENABLE_PROFILING_CODE h then call Cmd_BeginProfilingSection else ret tt.

Definition EndRenderPass : M unit :=
  if ENABLE_PROFILING_CODE h then
    call Cmd_EndProfilingSection ;;
    call Call_ProfilingStats_Merge ;;
    assign (fun p => set_m_profilingStats
                       (ProfilingStats_Merge dev (m_profilingStats p)) p)
  else ret tt.

Definition Dispatch : M unit :=
  p <- this ;;
  if m_dirtyMask p =? eDirty_None then
    let inlineConstantBuffers := GetBuffers (m_constantManager p) in
    (* Draw to command list *)
    let bindSlot := 0%Z in
    call (Cmd_SetResourceLayout (m_pResourceLayout p)) ;;
    call (Cmd_SetPipelineState (m_pPipelineState p)) ;;
    call (Cmd_SetResources bindSlot (m_pResourceSet p)) ;;
    let bindSlot := (bindSlot + 1)%Z in
    _ <- for_each inlineConstantBuffers
           (fun cb bindSlot =>
              call (Cmd_SetInlineConstantBuffer bindSlot (pBuffer cb) (shaderSlot cb)) ;;
              ret (bindSlot + 1)%Z)
           bindSlot ;;
    call (Cmd_Dispatch (m_dispatchSizeX p) (m_dispatchSizeY p) (m_dispatchSizeZ p))
  else ret tt.

Definition Execute : M unit :=
  if Scheduler_IsActive dev then
    call Call_AddPass
  else
    BeginRenderPass ;;
    Dispatch ;;
    EndRenderPass.

Definition Reset : M unit :=
  call Call_ResourceSetDesc_Clear ;;
  call Call_ConstantManager_Reset ;;
  call Call_ProfilingStats_Reset ;;
  assign (fun p =>
    {| m_flags := eFlags_None;
       m_dirtyMask := eDirty_All h;
       m_bResourcesInvalidated := true;
       m_pShader := None;
       m_techniqueName := 0;
       m_rtMask := 0;
       m_dispatchSizeX := 0;
       m_dispatchSizeY := 0;
       m_dispatchSizeZ := 0;
       m_currentPsoUpdateCount := 0;
       m_bPendingConstantUpdate := true;
       m_bCompiled := false;
       m_inputVars := map (fun _ => 0) (m_inputVars p);
       m_resourceDesc := ResourceSetDesc_Clear dev (m_resourceDesc p);
       m_pResourceSet := None;
       m_pResourceLayout := None;
       m_pPipelineState := None;
       m_constantManager := ConstantManager_Reset dev (m_constantManager p);
       m_profilingStats := ProfilingStats_Reset dev (m_profilingStats p) |}).

End ComputeRenderPass.

(** ** The setters of the pass *)

(** The setters of the pass are inline in the absent [ComputeRenderPass.h].
    The spec has every binding mutation, and every call that changes shader,
    technique or render-target mask, OR the corresponding bit into the dirty
    mask and never clear one. *)
Section Setters.

Variable h : Header.
Variable dev : Device.

(** Modelled from the spec: what every binding setter of the absent header
    does with the answer of the description's setter: keep the new description
    and OR the delta into the dirty mask. *)
Definition queueBinding (r : CDeviceResourceSetDesc * N) : M unit :=
  let (desc, delta) := r in
  assign (set_m_resourceDesc desc) ;;
  assign (fun p => set_m_dirtyMask (N.lor (m_dirtyMask p) delta) p).

(** Modelled from the spec: [CComputeRenderPass::SetConstantBuffer] of the
    absent header, a binding mutation through the description's setter of
    DeviceObjects.inl. *)
Definition SetConstantBuffer (slot : Z) (pBuffer : Handle) (shaderStages : N) : M unit :=
  p <- this ;;
  queueBinding
    (ResourceSetDesc.SetConstantBuffer dev slot pBuffer shaderStages (m_resourceDesc p)).

(** Modelled from the spec: [CComputeRenderPass::SetTexture] of the absent
    header, a binding mutation through the description's setter of
    DeviceObjects.inl. *)
Definition SetTexture (slot : Z) (pTexture : Handle) (hView shaderStages : N) : M unit :=
  p <- this ;;
  queueBinding
    (ResourceSetDesc.SetTexture dev slot pTexture hView shaderStages (m_resourceDesc p)).

(** Modelled from the spec: [CComputeRenderPass::SetSampler] of the absent
    header, a binding mutation through the description's setter of
    DeviceObjects.inl. *)
Definition SetSampler (slot : Z) (hState shaderStages : N) : M unit :=
  p <- this ;;
  queueBinding
    (ResourceSetDesc.SetSampler dev slot hState shaderStages (m_resourceDesc p)).

(** Modelled from the spec: [CComputeRenderPass::SetBuffer] of the absent
    header, a binding mutation through the description's setter of
    DeviceObjects.inl. *)
Definition SetBuffer (slot : Z) (pBuffer : Handle) (hView shaderStages : N) : M unit :=
  p <- this ;;
  queueBinding
    (ResourceSetDesc.SetBuffer dev slot pBuffer hView shaderStages (m_resourceDesc p)).

Definition option_N_eqb (a b : option N) : bool :=
  match a, b with
  | Some x, Some y => x =? y
  | None, None => true
  | _, _ => false
  end.

(** Modelled from the spec: [CComputeRenderPass::SetTechnique] of the absent
    header; a call that changes shader, technique or render-target mask ORs
    Technique into the dirty mask. *)
Definition SetTechnique (pShader : option Handle) (techName rtMask : N) : M unit :=
  p <- this ;;
  (if negb (option_N_eqb (m_pShader p) pShader)
      || negb (m_techniqueName p =? techName)
      || negb (m_rtMask p =? rtMask)
   then assign (fun p => set_m_dirtyMask (N.lor (m_dirtyMask p) (eDirty_Technique h)) p)
   else ret tt) ;;
  assign (fun p =>
    {| m_flags := m_flags p; m_dirtyMask := m_dirtyMask p;
       m_bResourcesInvalidated := m_bResourcesInvalidated p;
       m_pShader := pShader; m_techniqueName := techName; m_rtMask := rtMask;
       m_dispatchSizeX := m_dispatchSizeX p;
       m_dispatchSizeY := m_dispatchSizeY p;
       m_dispatchSizeZ := m_dispatchSizeZ p;
       m_currentPsoUpdateCount := m_currentPsoUpdateCount p;
       m_bPendingConstantUpdate := m_bPendingConstantUpdate p;
       m_bCompiled := m_bCompiled p; m_inputVars := m_inputVars p;
       m_resourceDesc := m_resourceDesc p; m_pResourceSet := m_pResourceSet p;
       m_pResourceLayout := m_pResourceLayout p;
       m_pPipelineState := m_pPipelineState p;
       m_constantManager := m_constantManager p;
       m_profilingStats := m_profilingStats p |}).

(** Modelled from the spec: [CComputeRenderPass::SetDispatchSize] of the
    absent header; the dispatch dimensions are parameters of the pass and no
    dirty bit stands for them. *)
Definition SetDispatchSize (sizeX sizeY sizeZ : N) : M unit :=
  assign (fun p =>
    {| m_flags := m_flags p; m_dirtyMask := m_dirtyMask p;
       m_bResourcesInvalidated := m_bResourcesInvalidated p;
       m_pShader := m_pShader p; m_techniqueName := m_techniqueName p;
       m_rtMask := m_rtMask p;
       m_dispatchSizeX := sizeX; m_dispatchSizeY := sizeY; m_dispatchSizeZ := sizeZ;
       m_currentPsoUpdateCount := m_currentPsoUpdateCount p;
       m_bPendingConstantUpdate := m_bPendingConstantUpdate p;
       m_bCompiled := m_bCompiled p; m_inputVars := m_inputVars p;
       m_resourceDesc := m_resourceDesc p; m_pResourceSet := m_pResourceSet p;
       m_pResourceLayout := m_pResourceLayout p;
       m_pPipelineState := m_pPipelineState p;
       m_constantManager := m_constantManager p;
       m_profilingStats := m_profilingStats p |}).

End Setters.

(** ** Sequences of operations on one pass *)

(** One call on the pass.  The operations that reach a collaborator carry the
    device answering during that call, so that consecutive calls may see
    different answers (a resource becoming available, the scheduler starting). *)
Inductive Op : Type :=
| Op_SetConstantBuffer (dev : Device) (slot : Z) (pBuffer : Handle) (shaderStages : N)
| Op_SetTexture (dev : Device) (slot : Z) (pTexture : Handle) (hView shaderStages : N)
| Op_SetSampler (dev : Device) (slot : Z) (hState shaderStages : N)
| Op_SetBuffer (dev : Device) (slot : Z) (pBuffer : Handle) (hView shaderStages : N)
| Op_SetTechnique (pShader : option Handle) (techName rtMask : N)
| Op_SetDispatchSize (sizeX sizeY sizeZ : N)
| Op_OnResourceInvalidated (flags : N)
| Op_Reset (dev : Device)
| Op_BeginConstantUpdate (dev : Device)
| Op_PrepareResourcesForUse (dev : Device)
| Op_Dispatch
| Op_Execute (dev : Device).

Definition perform (h : Header) (op : Op) : M unit :=
  match op with
  | Op_SetConstantBuffer dev slot pBuffer shaderStages =>
      SetConstantBuffer dev slot pBuffer shaderStages
  | Op_SetTexture dev slot pTexture hView shaderStages =>
      SetTexture dev slot pTexture hView shaderStages
  | Op_SetSampler dev slot hState shaderStages =>
      SetSampler dev slot hState shaderStages
  | Op_SetBuffer dev slot pBuffer hView shaderStages =>
      SetBuffer dev slot pBuffer hView shaderStages
  | Op_SetTechnique pShader techName rtMask => SetTechnique h pShader techName rtMask
  | Op_SetDispatchSize x y z => SetDispatchSize x y z
  | Op_OnResourceInvalidated flags => _ <- OnResourceInvalidated h flags ;; ret tt
  | Op_Reset dev => Reset h dev
  | Op_BeginConstantUpdate dev => BeginConstantUpdate h dev
  | Op_PrepareResourcesForUse dev => PrepareResourcesForUse h dev
  | Op_Dispatch => Dispatch
  | Op_Execute dev => Execute h dev
  end.

(** The pass after an operation, when the operation does not fault. *)
Definition after (h : Header) (op : Op) (p : CComputeRenderPass)
    : option CComputeRenderPass :=
  match perform h op p with
  | Some (_, p', _) => Some p'
  | None => None
  end.

(** The states a pass goes through under a sequence of operations: the start
    state first, then the state after each operation. *)
Fixpoint states (h : Header) (ops : list Op) (p : CComputeRenderPass)
    : option (list CComputeRenderPass) :=
  match ops with
  | [] => Some [p]
  | op :: rest =>
      match after h op p with
      | None => None
      | Some p' =>
          match states h rest p' with
          | None => None
          | Some l => Some (p :: l)
          end
      end
  end.

(** The operation ran Compile on [p] and Compile succeeded. *)
Definition compiled_by (h : Header) (op : Op) (p : CComputeRenderPass) : Prop :=
  exists dev p' t,
    (op = Op_BeginConstantUpdate dev \/ op = Op_PrepareResourcesForUse dev) /\
    Compile h dev p = Some (eDirty_None, p', t) /\
    existsb call_failed t = false.

(** The device only reports dirty-flag deltas made of resource-set bits. *)
Definition delta_within (h : Header) (dev : Device) : Prop :=
  forall ty d bp r, mask_subset (snd (UpdateResource dev ty d bp r)) (eDirty_All h).

Definition op_deltas_within (h : Header) (op : Op) : Prop :=
  match op with
  | Op_SetConstantBuffer dev _ _ _ | Op_SetTexture dev _ _ _ _
  | Op_SetSampler dev _ _ _ | Op_SetBuffer dev _ _ _ _ => delta_within h dev
  | _ => True
  end.

(** Compile dereferences [m_pResourceSet] exactly when the Resources bit is in
    the mask it works from; the pass is ready for Compile when the pointer is
    not null in that case. *)
Definition resourceSetReady (h : Header) (p : CComputeRenderPass) : bool :=
  negb (has (workingMask h p) (eDirty_Resources h))
  || match m_pResourceSet p with Some _ => true | None => false end.

(** The constant manager Compile builds the layout from: reflection released,
    then allocated again when the pass reflects its constant buffers
    (lines 52-57). *)
Definition reflectedManager (h : Header) (dev : Device) (p : CComputeRenderPass)
    : CShaderConstantManager :=
  let released := ReleaseShaderReflection dev (m_constantManager p) in
  if has (m_flags p) (eFlags_ReflectConstantBuffersFromShader h)
  then AllocateShaderReflection dev released (m_pShader p) (m_techniqueName p)
         (m_rtMask p) (EShaderStage_Compute h)
  else released.

(** The reflection calls Compile makes before it creates the layout. *)
Definition reflectionCalls (h : Header) (p : CComputeRenderPass) : list Call :=
  Call_ReleaseShaderReflection
  :: (if has (m_flags p) (eFlags_ReflectConstantBuffersFromShader h)
      then [Call_AllocateShaderReflection (m_pShader p) (m_techniqueName p)
              (m_rtMask p) (EShaderStage_Compute h)]
      else []).

(** The layout description Compile hands to [CreateResourceLayout]. *)
Definition layoutDescOf (h : Header) (dev : Device) (p : CComputeRenderPass)
    : SDeviceResourceLayoutDesc :=
  buildResourceLayoutDesc (m_resourceDesc p) (GetBuffers (reflectedManager h dev p)).

(** The PSO description Compile hands to [CreateComputePSO]. *)
Definition psoDescOf (p : CComputeRenderPass) : CDeviceComputePSODesc :=
  {| pso_pResourceLayout := m_pResourceLayout p;
     pso_pShader := m_pShader p;
     pso_technique := m_techniqueName p;
     pso_rtFlags := m_rtMask p;
     pso_mdFlags := 0;
     pso_mdvFlags := 0 |}.

(** The pass as Compile leaves it right after its first two assignments. *)
Definition onEntry (p : CComputeRenderPass) : CComputeRenderPass :=
  set_m_bCompiled false (set_m_bResourcesInvalidated false p).

(** The resource set Compile leaves in the pass: the one Update answered
    when Resources is in the mask Compile works from (lines 44-48), the one the
    pass had otherwise. *)
Definition updatedResourceSet (h : Header) (dev : Device) (p : CComputeRenderPass)
    : option CDeviceResourceSet :=
  if has (workingMask h p) (eDirty_Resources h) then
    match m_pResourceSet p with
    | Some rs =>
        Some (fst (ResourceSet_Update dev rs (m_resourceDesc p)
                     (N.land (workingMask h p)
                        (N.lor (eDirty_Resources h) (eDirty_ResourceLayout h)))))
    | None => None
    end
  else m_pResourceSet p.

(** The resource set honours the contract of its interface: an Update that
    returns false leaves the object as it was. *)
Definition update_failure_keeps_state (dev : Device) : Prop :=
  forall rs desc flags,
    snd (ResourceSet_Update dev rs desc flags) = false ->
    fst (ResourceSet_Update dev rs desc flags) = rs.

(** The states a pass can be in: the states a constructed pass goes through
    under a sequence of operations. *)
Definition reachable (h : Header) (p : CComputeRenderPass) : Prop :=
  exists dev self callback flags ops sts,
    states h ops (newComputeRenderPass h dev self callback flags) = Some sts /\
    In p sts.

(** While the asynchronous resources-invalidated flag is set, Resources is in
    the dirty mask. *)
Definition invalidationCovered (h : Header) (p : CComputeRenderPass) : Prop :=
  m_bResourcesInvalidated p = true ->
  mask_subset (eDirty_Resources h) (m_dirtyMask p).

(** ** Concrete fixtures *)

(** Bit values in the style of the engine: one bit per enumerator. *)
Definition header0 : Header :=
  {| eDirty_Resources := 2;
     eDirty_Technique := 4;
     eDirty_ResourceLayout := 1;
     eFlags_ReflectConstantBuffersFromShader := 1;
     eResourceDestroyed := 4;
     EShaderStage_Compute := 32;
     EFlags_ForceSetAllState := 1;
     ENABLE_PROFILING_CODE := false |}.

Definition cbPerPass : SConstantBufferBindInfo :=
  {| pBuffer := 100; shaderSlot := 3; shaderStages := 32 |}.

Definition cbPerDraw : SConstantBufferBindInfo :=
  {| pBuffer := 101; shaderSlot := 5; shaderStages := 32 |}.

(** A mock device: Update answers [updateOk] and bumps the contents of the
    resource set when it succeeds, layout and PSO creation answer the given
    objects, shader reflection discovers two constant buffers, and
    [UpdateResource] appends the binding and reports Resources. *)
Definition mockDevice (updateOk : bool) (layout : option CDeviceResourceLayout)
    (pso : option CDeviceComputePSO) : Device :=
  {| CreateResourceSet := fun flags => Some {| rs_flags := flags; rs_contents := 0 |};
     ResourceSet_Update := fun rs _ _ =>
       (if updateOk
        then {| rs_flags := rs_flags rs; rs_contents := rs_contents rs + 1 |}
        else rs, updateOk);
     CreateResourceLayout := fun _ => layout;
     CreateComputePSO := fun _ => pso;
     ReleaseShaderReflection := fun cm =>
       {| GetBuffers := []; cm_reflection := cm_reflection cm |};
     AllocateShaderReflection := fun cm _ _ _ _ =>
       {| GetBuffers := [cbPerPass; cbPerDraw]; cm_reflection := cm_reflection cm |};
     InitShaderReflection := fun cm pso =>
       {| GetBuffers := GetBuffers cm; cm_reflection := pso_id pso |};
     BeginNamedConstantUpdate := fun cm => cm;
     EndNamedConstantUpdate := fun cm => cm;
     ConstantManager_Reset := fun _ => {| GetBuffers := []; cm_reflection := 0 |};
     UpdateResource := fun _ d bp r =>
       ({| m_invalidateCallbackOwner := m_invalidateCallbackOwner d;
           m_invalidateCallback := m_invalidateCallback d;
           m_resources := m_resources d ++ [(bp, r)] |}, 2);
     ResourceSetDesc_Clear := fun _ =>
       {| m_invalidateCallbackOwner := None; m_invalidateCallback := None;
          m_resources := [] |};
     IsDirty := fun p => negb (m_dirtyMask p =? 0);
     Scheduler_IsActive := false;
     ProfilingStats_Merge := fun s => s + 1;
     ProfilingStats_Reset := fun _ => 0 |}.

Definition validPSO : CDeviceComputePSO :=
  {| pso_id := 9; IsValid := true; GetUpdateCount := 3 |}.

Definition invalidPSO : CDeviceComputePSO :=
  {| pso_id := 9; IsValid := false; GetUpdateCount := 3 |}.

Definition deviceOk : Device := mockDevice true (Some 7) (Some validPSO).
Definition deviceUpdateFails : Device := mockDevice false (Some 7) (Some validPSO).
Definition deviceLayoutFails : Device := mockDevice true None (Some validPSO).
Definition devicePsoFails : Device := mockDevice true (Some 7) None.
Definition devicePsoInvalid : Device := mockDevice true (Some 7) (Some invalidPSO).

(** A freshly constructed pass that reflects its constant buffers. *)
Definition pass0 : CComputeRenderPass := newComputeRenderPass header0 deviceOk 1 2 1.

(** [pass0] after a successful compile through PrepareResourcesForUse. *)
Definition passCompiled : CComputeRenderPass :=
  match PrepareResourcesForUse header0 deviceOk pass0 with
  | Some (_, p, _) => p
  | None => pass0
  end.

(** A compiled pass on which the asynchronous invalidation flag has been
    raised while the Resources bit is clear. *)
Definition passFlagOnly : CComputeRenderPass := set_m_bResourcesInvalidated true passCompiled.

(** [passCompiled] after the layout has been marked dirty. *)
Definition passLayoutDirty : CComputeRenderPass := set_m_dirtyMask 1 passCompiled.

(** A session on [pass0]: bind a texture, prepare (which compiles), have the
    texture invalidated, dispatch, reset, prepare again. *)
Definition demoOps : list Op :=
  [Op_SetTexture deviceOk 0 50 0 32;
   Op_PrepareResourcesForUse deviceOk;
   Op_OnResourceInvalidated 0;
   Op_Dispatch;
   Op_Reset deviceOk;
   Op_PrepareResourcesForUse deviceOk].

Definition demoStates : list CComputeRenderPass :=
  match states header0 demoOps pass0 with
  | Some l => l
  | None => []
  end.

(** ** Vocabulary for properties of runs *)

(** A pipeline state a dispatch can use: non-null and valid, the test Compile
    makes at line 79. *)
Definition psoUsable (o : option CDeviceComputePSO) : bool :=
  match o with
  | Some pso => IsValid pso
  | None => false
  end.

(** Every artifact that is missing is accounted for by a dirty bit: a null
    resource set by Resources, a null layout or an unusable pipeline state by
    Technique or ResourceLayout. *)
Definition artifactsTracked (h : Header) (p : CComputeRenderPass) : Prop :=
  (m_pResourceSet p = None -> has (m_dirtyMask p) (eDirty_Resources h) = true) /\
  (m_pResourceLayout p = None ->
   has (m_dirtyMask p) (N.lor (eDirty_Technique h) (eDirty_ResourceLayout h)) = true) /\
  (psoUsable (m_pPipelineState p) = false ->
   has (m_dirtyMask p) (N.lor (eDirty_Technique h) (eDirty_ResourceLayout h)) = true).

(** A device on which no call of the compile pipeline fails. *)
Definition factory_never_fails (dev : Device) : Prop :=
  (forall rs desc flags, snd (ResourceSet_Update dev rs desc flags) = true) /\
  (forall desc, CreateResourceLayout dev desc <> None) /\
  (forall desc, psoUsable (CreateComputePSO dev desc) = true).

(** What a command binds, whether it prepares it or sets it: the resource set
    or an inline constant buffer, at a bind slot. *)
Inductive SlotBinding : Type :=
| ResourceSetAt (bindSlot : Z) (pResources : option CDeviceResourceSet)
| InlineBufferAt (bindSlot : Z) (buffer : Handle) (slot : N).

Definition binding_of (c : Call) : option SlotBinding :=
  match c with
  | Cmd_PrepareResourcesForUse bindSlot pResources => Some (ResourceSetAt bindSlot pResources)
  | Cmd_SetResources bindSlot pResources => Some (ResourceSetAt bindSlot pResources)
  | Cmd_PrepareInlineConstantBufferForUse bindSlot buffer slot _ =>
      Some (InlineBufferAt bindSlot buffer slot)
  | Cmd_SetInlineConstantBuffer bindSlot buffer slot =>
      Some (InlineBufferAt bindSlot buffer slot)
  | _ => None
  end.

Definition bindings (t : list Call) : list SlotBinding :=
  flat_map (fun c => match binding_of c with Some b => [b] | None => [] end) t.

(** The operations whose code is in ComputeRenderPass.cpp; the setters of the
    pass are inline in its header. *)
Definition defined_in_source (op : Op) : bool :=
  match op with
  | Op_OnResourceInvalidated _ | Op_Reset _ | Op_BeginConstantUpdate _
  | Op_PrepareResourcesForUse _ | Op_Dispatch | Op_Execute _ => true
  | _ => false
  end.

Definition is_Reset (op : Op) : bool :=
  match op with
  | Op_Reset _ => true
  | _ => false
  end.

Definition is_begin_update (c : Call) : bool :=
  match c with
  | Call_BeginNamedConstantUpdate => true
  | _ => false
  end.

Definition is_begin_profiling (c : Call) : bool :=
  match c with
  | Cmd_BeginProfilingSection => true
  | _ => false
  end.

Definition is_end_profiling (c : Call) : bool :=
  match c with
  | Cmd_EndProfilingSection => true
  | _ => false
  end.

(** [passCompiled] after its bound resource has been invalidated. *)
Definition passInvalidated : CComputeRenderPass :=
  set_m_dirtyMask (eDirty_Resources header0) passCompiled.

(** A session on [pass0] without setters: prepare (which compiles), have a
    resource invalidated, dispatch, prepare again, execute. *)
Definition sessionOps : list Op :=
  [Op_PrepareResourcesForUse deviceOk;
   Op_OnResourceInvalidated 0;
   Op_Dispatch;
   Op_PrepareResourcesForUse deviceOk;
   Op_Execute deviceOk].

Definition sessionStates : list CComputeRenderPass :=
  match states header0 sessionOps pass0 with
  | Some l => l
  | None => []
  end.


(** ** DeviceObjects.inl: bind points of a resource layout *)

(** [SLayoutBindPoint] is declared in a header that is not in the sources; its
    two members are compared as integers. *)
Module LayoutBindPoint.

Record SLayoutBindPoint : Type := {
  slotType : Z;
  layoutSlot : Z
}.

Definition operator_eq (a other : SLayoutBindPoint) : bool :=
  (slotType a =? slotType other)%Z && (layoutSlot a =? layoutSlot other)%Z.

Definition operator_lt (a other : SLayoutBindPoint) : bool :=
  if negb (slotType a =? slotType other)%Z then (slotType a <? slotType other)%Z
  else (layoutSlot a <? layoutSlot other)%Z.

End LayoutBindPoint.

(** ** DeviceObjects.inl: direct access to buffers *)

Module BufferAccess.

(** The preprocessor symbols the four functions branch on.  A boolean says
    that the symbol evaluates to non-zero in [#if]; [CRY_RENDERER_DIRECT3D] is
    its value (0 when undefined); [CRY_RENDERER_VULKAN] is tested both by value
    and with [defined], so it is [None] when undefined.  The last two say
    whether [assert] and [DX12_ASSERT] are compiled in. *)
Record BuildConfig : Type := {
  BUFFER_ENABLE_DIRECT_ACCESS : bool;
  CRY_RENDERER_GNM : bool;
  CRY_PLATFORM_ORBIS : bool;
  CRY_PLATFORM_DURANGO : bool;
  CRY_RENDERER_DIRECT3D : N;
  CRY_RENDERER_VULKAN : option N;
  ASSERT_ENABLED : bool;
  DX12_ASSERT_ENABLED : bool
}.

(** Constants of the platform headers. *)
Record Platform : Type := {
  D3D11_MAP_READ : N;
  D3D11_MAP_WRITE : N;
  S_OK : Z
}.

(** A pointer; 0 is NULL. *)
Definition Pointer : Type := N.
Definition NULL : Pointer := 0.

(** What the buffer and the factory answer. *)
Record Buffers : Type := {
  GnmGetBaseAddress : Handle -> Pointer;
  GetData : Handle -> Pointer;
  GetPrivateData : Handle -> Z * Pointer;
  Factory_Map : Handle -> N -> N -> N -> N -> Pointer;
  Buffer_Map : Handle -> Pointer
}.

Inductive BufferCall : Type :=
| Call_GnmGetBaseAddress (buffer : Handle)
| Call_GetData (buffer : Handle)
| Call_GetPrivateData (buffer : Handle)
| Call_Factory_Map (buffer : Handle) (subresource offset size mode : N)
| Call_Factory_Unmap (buffer : Handle) (subresource offset size mode : N)
| Call_Buffer_Map (buffer : Handle)
| Call_Buffer_Unmap (buffer : Handle).

Definition is_map (c : BufferCall) : bool :=
  match c with
  | Call_Factory_Map _ _ _ _ _ | Call_Buffer_Map _ => true
  | _ => false
  end.

Definition is_unmap (c : BufferCall) : bool :=
  match c with
  | Call_Factory_Unmap _ _ _ _ _ | Call_Buffer_Unmap _ => true
  | _ => false
  end.

(** The unmap call that undoes a map call: on the same buffer and, through
    the factory, the same subresource and range. *)
Definition unmap_of (c : BufferCall) : option BufferCall :=
  match c with
  | Call_Factory_Map buffer subresource offset size _ =>
      Some (Call_Factory_Unmap buffer subresource offset size 0)
  | Call_Buffer_Map buffer => Some (Call_Buffer_Unmap buffer)
  | _ => None
  end.

Definition unmaps_for (t : list BufferCall) : list BufferCall :=
  flat_map (fun c => match unmap_of c with Some u => [u] | None => [] end) t.

Definition uint8 (n : N) : N := n mod 256.

(** [#elif CRY_RENDERER_VULKAN]: an undefined symbol counts as 0. *)
Definition vulkan_nonzero (cfg : BuildConfig) : bool :=
  match CRY_RENDERER_VULKAN cfg with
  | Some v => negb (v =? 0)
  | None => false
  end.

(** [#elif defined(CRY_RENDERER_VULKAN)]. *)
Definition vulkan_defined (cfg : BuildConfig) : bool :=
  match CRY_RENDERER_VULKAN cfg with
  | Some _ => true
  | None => false
  end.

Section Functions.

Variable cfg : BuildConfig.
Variable pf : Platform.
Variable bufs : Buffers.

(** [base_ptr] is a reference: the function gets the caller's value and the
    result holds the value it leaves there.  [None] is a failed assertion. *)
Definition ExtractBasePointer (buffer : Handle) (mode : N) (base_ptr : Pointer)
    : option (Pointer * list BufferCall) :=
  if BUFFER_ENABLE_DIRECT_ACCESS cfg then
    let '(base_ptr, t) :=
      if CRY_RENDERER_GNM cfg then
        (GnmGetBaseAddress bufs buffer, [Call_GnmGetBaseAddress buffer])
      else if CRY_PLATFORM_ORBIS cfg then
        (GetData bufs buffer, [Call_GetData buffer])
      else (base_ptr, []) in
    if CRY_PLATFORM_DURANGO cfg && (110 <=? CRY_RENDERER_DIRECT3D cfg)
       && (CRY_RENDERER_DIRECT3D cfg <? 120) then
      let '(hr, data) := GetPrivateData bufs buffer in
      if ASSERT_ENABLED cfg && negb (hr =? S_OK pf)%Z then None
      else Some (data, t ++ [Call_GetPrivateData buffer])
    else if 120 <=? CRY_RENDERER_DIRECT3D cfg then
      Some (Factory_Map bufs buffer 0 0 0 mode,
            t ++ [Call_Factory_Map buffer 0 0 0 mode])
    else if vulkan_nonzero cfg then
      Some (Buffer_Map bufs buffer, t ++ [Call_Buffer_Map buffer])
    else Some (base_ptr, t)
  else Some (NULL, []).

Definition ReleaseBasePointer (buffer : Handle) : list BufferCall :=
  if BUFFER_ENABLE_DIRECT_ACCESS cfg then
    if 120 <=? CRY_RENDERER_DIRECT3D cfg then [Call_Factory_Unmap buffer 0 0 0 0]
    else if vulkan_defined cfg then [Call_Buffer_Unmap buffer]
    else []
  else [].

Definition MarkReadRange (buffer : Handle) (offset size mode : N)
    : option (N * list BufferCall) :=
  if 120 <=? CRY_RENDERER_DIRECT3D cfg then
    if DX12_ASSERT_ENABLED cfg
       && negb ((mode =? D3D11_MAP_READ pf) || (mode =? D3D11_MAP_WRITE pf)) then None
    else
      Some (uint8 mode,
            [Call_Factory_Map buffer 0 offset
               (if has mode (D3D11_MAP_READ pf) then size else 0) 0])
  else Some (uint8 mode, []).

(** The parameter [marker] is a [uint8]: the argument is converted when the
    function is entered. *)
Definition MarkWriteRange (buffer : Handle) (offset size : N) (marker : N)
    : option (N * list BufferCall) :=
  let marker := uint8 marker in
  if 120 <=? CRY_RENDERER_DIRECT3D cfg then
    if DX12_ASSERT_ENABLED cfg
       && negb ((marker =? D3D11_MAP_READ pf) || (marker =? D3D11_MAP_WRITE pf)) then None
    else
      Some (uint8 marker,
            [Call_Factory_Unmap buffer 0 offset
               (if has marker (D3D11_MAP_WRITE pf) then size else 0) 0])
  else Some (uint8 marker, []).

End Functions.

(** A Direct3D 12 build and a Vulkan build, both with assertions; the map
    modes as in d3d11.h. *)
Definition d3d12 : BuildConfig :=
  {| BUFFER_ENABLE_DIRECT_ACCESS := true; CRY_RENDERER_GNM := false;
     CRY_PLATFORM_ORBIS := false; CRY_PLATFORM_DURANGO := false;
     CRY_RENDERER_DIRECT3D := 120; CRY_RENDERER_VULKAN := None;
     ASSERT_ENABLED := true; DX12_ASSERT_ENABLED := true |}.

Definition vulkan : BuildConfig :=
  {| BUFFER_ENABLE_DIRECT_ACCESS := true; CRY_RENDERER_GNM := false;
     CRY_PLATFORM_ORBIS := false; CRY_PLATFORM_DURANGO := false;
     CRY_RENDERER_DIRECT3D := 0; CRY_RENDERER_VULKAN := Some 10;
     ASSERT_ENABLED := true; DX12_ASSERT_ENABLED := true |}.

Definition windows : Platform :=
  {| D3D11_MAP_READ := 1; D3D11_MAP_WRITE := 2; S_OK := 0 |}.

Definition buffers0 : Buffers :=
  {| GnmGetBaseAddress := fun b => b + 1000;
     GetData := fun b => b + 2000;
     GetPrivateData := fun b => (0%Z, b + 3000);
     Factory_Map := fun b _ offset _ _ => b + 4000 + offset;
     Buffer_Map := fun b => b + 5000 |}.

End BufferAccess.
(** * Proofs *)

(** ** Bit masks *)

Lemma mask_subset_refl (a : N) : mask_subset a a.
Proof. unfold mask_subset. apply N.ldiff_diag. Qed.

Lemma mask_subset_bits (a b : N) :
  mask_subset a b <-> forall n, N.testbit a n = true -> N.testbit b n = true.
Proof.
  unfold mask_subset. split.
  - intros H n Ha.
    assert (Hn : N.testbit (N.ldiff a b) n = false) by (rewrite H; apply N.bits_0).
    rewrite N.ldiff_spec, Ha in Hn. destruct (N.testbit b n); [reflexivity | discriminate].
  - intros H. apply N.bits_inj. intros n.
    rewrite N.ldiff_spec, N.bits_0.
    destruct (N.testbit a n) eqn:Ha; [rewrite (H n Ha) | ]; reflexivity.
Qed.

Lemma mask_subset_trans (a b c : N) :
  mask_subset a b -> mask_subset b c -> mask_subset a c.
Proof. rewrite !mask_subset_bits. auto. Qed.

Lemma mask_subset_lor_l (a b : N) : mask_subset a (N.lor a b).
Proof.
  apply mask_subset_bits. intros n Ha. rewrite N.lor_spec, Ha. reflexivity.
Qed.

Lemma mask_subset_lor_r (a b : N) : mask_subset b (N.lor a b).
Proof.
  apply mask_subset_bits. intros n Hb. rewrite N.lor_spec, Hb. apply orb_true_r.
Qed.

Lemma mask_subset_lor_lub (a b c : N) :
  mask_subset a c -> mask_subset b c -> mask_subset (N.lor a b) c.
Proof.
  rewrite !mask_subset_bits. intros Ha Hb n. rewrite N.lor_spec.
  intros H. apply orb_true_iff in H. destruct H; auto.
Qed.

Lemma mask_subset_0_l (a : N) : mask_subset 0 a.
Proof. unfold mask_subset. apply N.ldiff_0_l. Qed.

Lemma mask_subset_lor_absorb (a b : N) : mask_subset b a -> N.lor a b = a.
Proof.
  rewrite mask_subset_bits. intros H. apply N.bits_inj. intros n.
  rewrite N.lor_spec. destruct (N.testbit b n) eqn:Hb.
  - rewrite (H n Hb). reflexivity.
  - apply orb_false_r.
Qed.

Lemma has_true_nonzero (mask bits : N) : has mask bits = true -> mask <> 0.
Proof.
  unfold has. intros H Hm. subst mask. rewrite N.land_0_l in H. discriminate.
Qed.

(** ** The loops over the inline constant buffers *)

Lemma for_each_call (mk : Z -> SConstantBufferBindInfo -> Call)
    (buffers : list SConstantBufferBindInfo) (bindSlot : Z) (p : CComputeRenderPass) :
  for_each buffers (fun cb slot => call (mk slot cb) ;; ret (slot + 1)%Z) bindSlot p
  = Some ((bindSlot + Z.of_nat (length buffers))%Z, p, numbered mk buffers bindSlot).
Proof.
  revert bindSlot. induction buffers as [| cb rest IH]; intros bindSlot.
  - cbn. rewrite Z.add_0_r. reflexivity.
  - cbn [for_each numbered length]. unfold bind at 1. unfold bind at 1.
    cbn [call ret]. rewrite IH. cbn [app].
    replace (bindSlot + 1 + Z.of_nat (length rest))%Z
      with (bindSlot + Z.of_nat (S (length rest)))%Z by lia.
    reflexivity.
Qed.

Lemma numbered_length {B : Type} (mk : Z -> SConstantBufferBindInfo -> B) buffers bindSlot :
  length (numbered mk buffers bindSlot) = length buffers.
Proof.
  revert bindSlot. induction buffers as [| cb rest IH]; intros; cbn; [| rewrite IH]; reflexivity.
Qed.

Lemma numbered_nth {B : Type} (mk : Z -> SConstantBufferBindInfo -> B) buffers bindSlot
    (i : nat) cb :
  nth_error buffers i = Some cb ->
  nth_error (numbered mk buffers bindSlot) i = Some (mk (bindSlot + Z.of_nat i)%Z cb).
Proof.
  revert bindSlot i. induction buffers as [| c rest IH]; intros bindSlot [| i] H; cbn in *;
    try discriminate.
  - inversion H; subst. rewrite Z.add_0_r. reflexivity.
  - rewrite (IH _ _ H). f_equal. f_equal. lia.
Qed.

Lemma numbered_none (P : Call -> bool) mk buffers bindSlot :
  (forall s cb, P (mk s cb) = false) -> filter P (numbered mk buffers bindSlot) = [].
Proof.
  intros H. revert bindSlot. induction buffers as [| c rest IH]; intros; cbn;
    [| rewrite H, IH]; reflexivity.
Qed.

Lemma numbered_all (P : Call -> bool) mk buffers bindSlot :
  (forall s cb, P (mk s cb) = true) -> forallb P (numbered mk buffers bindSlot) = true.
Proof.
  intros H. revert bindSlot. induction buffers as [| c rest IH]; intros; cbn;
    [| rewrite H, IH]; reflexivity.
Qed.

(** The layout description built by Compile, in closed form. *)
Lemma layout_loop_closed buffers (bindSlot : Z) d :
  snd (fold_left
         (fun (st : Z * SDeviceResourceLayoutDesc) cb =>
            let (bindSlot, d) := st in
            ((bindSlot + 1)%Z,
             LayoutDesc.SetConstantBuffer bindSlot (shaderSlot cb) (shaderStages cb) d))
         buffers (bindSlot, d))
  = {| m_resourceSetBindings := m_resourceSetBindings d;
       m_constantBufferBindings :=
         m_constantBufferBindings d ++
         numbered (fun slot cb => (slot, shaderSlot cb, shaderStages cb)) buffers bindSlot |}.
Proof.
  revert bindSlot d. induction buffers as [| cb rest IH]; intros bindSlot d.
  - cbn. rewrite app_nil_r. destruct d; reflexivity.
  - cbn [fold_left numbered]. rewrite IH.
    cbn [LayoutDesc.SetConstantBuffer m_resourceSetBindings m_constantBufferBindings].
    rewrite <- app_assoc. reflexivity.
Qed.

Lemma buildResourceLayoutDesc_closed resourceDesc buffers :
  buildResourceLayoutDesc resourceDesc buffers
  = {| m_resourceSetBindings := [(0%Z, resourceDesc)];
       m_constantBufferBindings :=
         numbered (fun slot cb => (slot, shaderSlot cb, shaderStages cb)) buffers 1%Z |}.
Proof.
  unfold buildResourceLayoutDesc. rewrite layout_loop_closed. reflexivity.
Qed.

(** ** Compile, block by block *)

Arguments has : simpl never.
Arguments workingMask : simpl never.
Arguments buildResourceLayoutDesc : simpl never.

Section CompileBlocks.

Variable h : Header.
Variable dev : Device.

Lemma Compile_resourceSet_run (dirtyMask : N) (p : CComputeRenderPass) :
  Compile_resourceSet h dev dirtyMask p =
  if has dirtyMask (eDirty_Resources h) then
    match m_pResourceSet p with
    | None => None
    | Some rs =>
        let flags :=
          N.land dirtyMask (N.lor (eDirty_Resources h) (eDirty_ResourceLayout h)) in
        let u := ResourceSet_Update dev rs (m_resourceDesc p) flags in
        Some (snd u, set_m_pResourceSet (Some (fst u)) p, [Call_Update flags (snd u)])
    end
  else Some (true, p, []).
Proof.
  unfold Compile_resourceSet, bind, this, assign, call, ret, nullDereference.
  destruct (has dirtyMask (eDirty_Resources h)); [| reflexivity].
  destruct (m_pResourceSet p); reflexivity.
Qed.

Lemma Compile_resourceLayout_run (dirtyMask : N) (p : CComputeRenderPass) :
  Compile_resourceLayout h dev dirtyMask p =
  Some (if has dirtyMask (N.lor (eDirty_Technique h) (eDirty_ResourceLayout h)) then
          let created := CreateResourceLayout dev (layoutDescOf h dev p) in
          (match created with Some _ => true | None => false end,
           set_m_pResourceLayout created
             (set_m_constantManager (reflectedManager h dev p) p),
           reflectionCalls h p
           ++ [Call_CreateResourceLayout (layoutDescOf h dev p) created])
        else (true, p, [])).
Proof.
  unfold Compile_resourceLayout, layoutDescOf, reflectedManager, reflectionCalls,
    bind, this, assign, call, ret.
  destruct (has dirtyMask _); [| reflexivity]. cbn.
  destruct (has (m_flags p) _); reflexivity.
Qed.

Lemma Compile_pipelineState_run (dirtyMask : N) (p : CComputeRenderPass) :
  Compile_pipelineState h dev dirtyMask p =
  Some (if has dirtyMask (N.lor (eDirty_Technique h) (eDirty_ResourceLayout h)) then
          let created := CreateComputePSO dev (psoDescOf p) in
          match created with
          | None =>
              (false, set_m_pPipelineState None p,
               [Call_CreateComputePSO (psoDescOf p) None])
          | Some pso =>
              if IsValid pso then
                if has (m_flags p) (eFlags_ReflectConstantBuffersFromShader h) then
                  (true,
                   set_m_constantManager
                     (InitShaderReflection dev (m_constantManager p) pso)
                     (set_m_currentPsoUpdateCount (GetUpdateCount pso)
                        (set_m_pPipelineState (Some pso) p)),
                   [Call_CreateComputePSO (psoDescOf p) (Some pso);
                    Call_InitShaderReflection pso])
                else
                  (true,
                   set_m_currentPsoUpdateCount (GetUpdateCount pso)
                     (set_m_pPipelineState (Some pso) p),
                   [Call_CreateComputePSO (psoDescOf p) (Some pso)])
              else
                (false, set_m_pPipelineState (Some pso) p,
                 [Call_CreateComputePSO (psoDescOf p) (Some pso)])
          end
        else (true, p, [])).
Proof.
  unfold Compile_pipelineState, psoDescOf, bind, this, assign, call, ret.
  destruct (has dirtyMask _); [| reflexivity]. cbn.
  destruct (CreateComputePSO dev _) as [pso |]; [| reflexivity]. cbn.
  destruct (IsValid pso); [| reflexivity]. cbn.
  destruct (has (m_flags p) _); reflexivity.
Qed.

(** The early returns of Compile, over the results of its three blocks. *)
Lemma Compile_run (p : CComputeRenderPass) :
  Compile h dev p =
  match Compile_resourceSet h dev (workingMask h p) (onEntry p) with
  | None => None
  | Some (updated, p1, t1) =>
      if updated then
        match Compile_resourceLayout h dev (workingMask h p) p1 with
        | None => None
        | Some (layoutCreated, p2, t2) =>
            if layoutCreated then
              match Compile_pipelineState h dev (workingMask h p) p2 with
              | None => None
              | Some (psoCreated, p3, t3) =>
                  if psoCreated
                  then Some (eDirty_None, set_m_bCompiled true p3, t1 ++ t2 ++ t3)
                  else Some (workingMask h p, p3, t1 ++ t2 ++ t3)
              end
            else Some (workingMask h p, p2, t1 ++ t2)
        end
      else Some (workingMask h p, p1, t1)
  end.
Proof.
  unfold Compile, onEntry. unfold bind at 1 2 3 4. unfold this, assign. cbn [app].
  destruct (Compile_resourceSet h dev (workingMask h p) _) as [[[updated p1] t1] |];
    [| reflexivity].
  destruct updated; cbn [negb]; [| unfold ret; rewrite app_nil_r; reflexivity].
  unfold bind at 1.
  destruct (Compile_resourceLayout h dev (workingMask h p) p1) as [[[created p2] t2] |];
    [| reflexivity].
  destruct created; cbn [negb]; [| unfold ret; rewrite app_nil_r; reflexivity].
  unfold bind at 1.
  destruct (Compile_pipelineState h dev (workingMask h p) p2) as [[[ok p3] t3] |];
    [| reflexivity].
  destruct ok; cbn [negb]; unfold bind, ret, assign; cbn [app];
    rewrite ?app_nil_r; reflexivity.
Qed.

End CompileBlocks.

(** ** Compile, exit by exit *)

(** What the blocks of Compile read is not touched by the assignments made
    before them. *)
Lemma reflectedManager_onEntry h dev p :
  reflectedManager h dev (onEntry p) = reflectedManager h dev p.
Proof. reflexivity. Qed.

Lemma reflectedManager_set_m_pResourceSet h dev x p :
  reflectedManager h dev (set_m_pResourceSet x p) = reflectedManager h dev p.
Proof. reflexivity. Qed.

Lemma reflectionCalls_onEntry h p : reflectionCalls h (onEntry p) = reflectionCalls h p.
Proof. reflexivity. Qed.

Lemma reflectionCalls_set_m_pResourceSet h x p :
  reflectionCalls h (set_m_pResourceSet x p) = reflectionCalls h p.
Proof. reflexivity. Qed.

Lemma layoutDescOf_onEntry h dev p : layoutDescOf h dev (onEntry p) = layoutDescOf h dev p.
Proof. reflexivity. Qed.

Lemma layoutDescOf_set_m_pResourceSet h dev x p :
  layoutDescOf h dev (set_m_pResourceSet x p) = layoutDescOf h dev p.
Proof. reflexivity. Qed.

Lemma psoDescOf_after_layout created cm x p :
  psoDescOf (set_m_pResourceLayout created (set_m_constantManager cm (set_m_pResourceSet x (onEntry p))))
  = psoDescOf (set_m_pResourceLayout created p).
Proof. reflexivity. Qed.

Lemma psoDescOf_after_layout_only created cm p :
  psoDescOf (set_m_pResourceLayout created (set_m_constantManager cm (onEntry p)))
  = psoDescOf (set_m_pResourceLayout created p).
Proof. reflexivity. Qed.

Lemma m_resourceDesc_onEntry p : m_resourceDesc (onEntry p) = m_resourceDesc p.
Proof. reflexivity. Qed.

Create Rewrite HintDb pass_reads.
#[local] Hint Rewrite reflectedManager_onEntry reflectedManager_set_m_pResourceSet
  reflectionCalls_onEntry reflectionCalls_set_m_pResourceSet
  layoutDescOf_onEntry layoutDescOf_set_m_pResourceSet
  psoDescOf_after_layout psoDescOf_after_layout_only m_resourceDesc_onEntry : pass_reads.

(** Follow a computation in program order: the branch point that is evaluated
    first is the innermost scrutinee in head position. *)
Ltac head_scrutinee T :=
  match T with
  | negb ?x => head_scrutinee x
  | match ?x with _ => _ end => head_scrutinee x
  | ?f _ => applied_scrutinee f
  | _ => T
  end
with applied_scrutinee f :=
  lazymatch f with
  | match ?x with _ => _ end => head_scrutinee x
  | ?g _ => applied_scrutinee g
  end.

Ltac branch_step H :=
  lazymatch type of H with
  | ?L = _ =>
      lazymatch L with
      | Some _ => fail
      | None => fail
      | _ => let s := head_scrutinee L in destruct s eqn:?
      end
  end.

(** Walk through Compile: unfold a block when it is reached, decide its branch
    points one at a time, and stop at the [Some] or [None] of each exit.  The
    pass stays a chain of assignments over the initial pass. *)
Ltac compile_walk H :=
  rewrite Compile_run in H;
  repeat first
    [ rewrite Compile_resourceSet_run in H
    | rewrite Compile_resourceLayout_run in H
    | rewrite Compile_pipelineState_run in H
    | progress change (m_pResourceSet (onEntry ?q)) with (m_pResourceSet q) in H
    | progress autorewrite with pass_reads in H
    | progress cbv beta iota zeta in H
    | progress cbn [m_flags set_m_pResourceLayout set_m_constantManager
                    set_m_pResourceSet onEntry set_m_bCompiled
                    set_m_bResourcesInvalidated] in H
    | branch_step H ].

Ltac compile_exits H :=
  compile_walk H;
  try discriminate H;
  try (injection H as <- <- <-).



(** At an exit: replay the branch decisions in the goal, decide what the
    walk left open, and compute. *)
Ltac replay_decisions :=
  repeat match goal with
         | Hd : ?s = _ |- context [?s] =>
             lazymatch s with
             | has _ _ => rewrite Hd
             | snd _ => rewrite Hd
             | IsValid _ => rewrite Hd
             | CreateResourceLayout _ _ => rewrite Hd
             | CreateComputePSO _ _ => rewrite Hd
             end
         end.

Ltac at_exit :=
  repeat (replay_decisions;
          try match goal with
              | |- context [if has ?a ?b then _ else _] => destruct (has a b) eqn:?
              end;
          progress cbn).

Lemma Compile_faults_iff h dev p :
  Compile h dev p = None <-> resourceSetReady h p = false.
Proof.
  unfold resourceSetReady. split.
  - intros H. compile_exits H. reflexivity.
  - intros Hr. destruct (Compile h dev p) as [[[r p'] t]|] eqn:H; [| reflexivity].
    exfalso. compile_walk H;
      repeat match goal with
             | Hh : has _ _ = _ |- _ => rewrite Hh in Hr
             | Hp : m_pResourceSet _ = _ |- _ => rewrite Hp in Hr
             end; discriminate.
Qed.

Lemma Compile_returns h dev p :
  resourceSetReady h p = true -> exists r p' t, Compile h dev p = Some (r, p', t).
Proof.
  intros Hr. destruct (Compile h dev p) as [[[r p'] t]|] eqn:H.
  - eauto.
  - apply Compile_faults_iff in H. congruence.
Qed.

(** Either a call failed and Compile returned the mask it worked from, or no
    call failed and it returned None; the member [m_dirtyMask] is not written
    and the asynchronous flag is cleared. *)
Lemma Compile_result h dev p r p' t :
  Compile h dev p = Some (r, p', t) ->
  m_dirtyMask p' = m_dirtyMask p /\
  m_bResourcesInvalidated p' = false /\
  ((existsb call_failed t = true /\ r = workingMask h p /\ r <> eDirty_None
    /\ m_bCompiled p' = false)
   \/ (existsb call_failed t = false /\ r = eDirty_None /\ m_bCompiled p' = true)).
Proof.
  intros H. compile_exits H; at_exit; (split; [reflexivity |]); (split; [reflexivity |]);
    try first [ right; repeat split; reflexivity
          | left; repeat split; try reflexivity; eapply has_true_nonzero; eassumption ].
Qed.

Lemma workingMask_subset h p : mask_subset (m_dirtyMask p) (workingMask h p).
Proof. apply mask_subset_lor_l. Qed.

Lemma workingMask_flag_clear h p :
  m_bResourcesInvalidated p = false -> workingMask h p = m_dirtyMask p.
Proof. unfold workingMask. intros ->. apply N.lor_0_r. Qed.

Lemma workingMask_resources_dirty h p :
  mask_subset (eDirty_Resources h) (m_dirtyMask p) -> workingMask h p = m_dirtyMask p.
Proof.
  unfold workingMask. intros Hs. destruct (m_bResourcesInvalidated p).
  - apply mask_subset_lor_absorb. exact Hs.
  - apply N.lor_0_r.
Qed.

(** Concrete runs on the mock devices. *)
Example Compile_fresh_pass :
  exists p' t,
    Compile header0 deviceOk pass0 = Some (eDirty_None, p', t) /\
    length t = 6%nat /\ m_bCompiled p' = true /\ m_pResourceLayout p' = Some 7.
Proof. eexists _, _. split; [vm_compute; reflexivity |]. repeat split. Qed.

Example Compile_pso_null :
  exists p' t,
    Compile header0 devicePsoFails pass0 = Some (7, p', t) /\
    m_pResourceLayout p' = Some 7 /\ m_pPipelineState p' = None /\
    m_bCompiled p' = false.
Proof. eexists _, _. split; [vm_compute; reflexivity |]. repeat split. Qed.

Example Compile_pso_invalid :
  exists p' t,
    Compile header0 devicePsoInvalid passLayoutDirty = Some (1, p', t) /\
    m_pPipelineState passLayoutDirty = Some validPSO /\
    m_pPipelineState p' = Some invalidPSO /\
    m_currentPsoUpdateCount p' = m_currentPsoUpdateCount passLayoutDirty.
Proof. eexists _, _. split; [vm_compute; reflexivity |]. repeat split. Qed.

Example Compile_without_resource_set :
  exists pReset t,
    Reset header0 deviceOk passCompiled = Some (tt, pReset, t) /\
    resourceSetReady header0 pReset = false /\
    Compile header0 deviceOk pReset = None.
Proof. eexists _, _. split; [vm_compute; reflexivity |]. split; reflexivity. Qed.

(** ** Dispatch in closed form *)

Lemma Dispatch_closed p :
  Dispatch p =
  Some (tt, p,
        if m_dirtyMask p =? eDirty_None then
          [Cmd_SetResourceLayout (m_pResourceLayout p);
           Cmd_SetPipelineState (m_pPipelineState p);
           Cmd_SetResources 0 (m_pResourceSet p)]
          ++ numbered (fun slot cb =>
                         Cmd_SetInlineConstantBuffer slot (pBuffer cb) (shaderSlot cb))
               (GetBuffers (m_constantManager p)) 1%Z
          ++ [Cmd_Dispatch (m_dispatchSizeX p) (m_dispatchSizeY p) (m_dispatchSizeZ p)]
        else []).
Proof.
  unfold Dispatch. unfold bind at 1. cbn [this].
  destruct (m_dirtyMask p =? eDirty_None).
  - unfold bind, call, ret.
    rewrite (for_each_call
               (fun slot cb => Cmd_SetInlineConstantBuffer slot (pBuffer cb) (shaderSlot cb))).
    cbn. reflexivity.
  - reflexivity.
Qed.

Lemma land_single_bit (flags k : N) :
  N.land flags (2 ^ k) = 0 <-> N.testbit flags k = false.
Proof.
  split.
  - intros H.
    assert (Hk : N.testbit (N.land flags (2 ^ k)) k = false) by (rewrite H; apply N.bits_0).
    rewrite N.land_spec, N.pow2_bits_true, andb_true_r in Hk. exact Hk.
  - intros H. apply N.bits_inj. intros n.
    rewrite N.land_spec, N.bits_0, N.pow2_bits_eqb.
    destruct (N.eqb_spec k n) as [<- |].
    + rewrite H. reflexivity.
    + apply andb_false_r.
Qed.

(** ** Dispatch, Compile, Reset and the invalidation callback *)

(** C3: Dispatch emits backend commands if and only if the dirty mask is None.
    When it emits, the trace holds exactly one dispatch call, with the
    configured dimensions, as its last command.  When the mask is not None
    nothing is emitted.  In both cases the pass is returned unchanged and no
    call of the compile pipeline is made. *)
Theorem Dispatch_emits_iff_mask_none (p : CComputeRenderPass) :
  exists t,
    Dispatch p = Some (tt, p, t) /\
    forallb is_backend_call t = true /\
    filter is_compile_call t = [] /\
    (t <> [] <-> m_dirtyMask p = eDirty_None) /\
    (m_dirtyMask p = eDirty_None ->
     filter is_dispatch_call t
     = [Cmd_Dispatch (m_dispatchSizeX p) (m_dispatchSizeY p) (m_dispatchSizeZ p)]) /\
    (m_dirtyMask p <> eDirty_None -> t = []).
Proof.
  eexists. split; [apply Dispatch_closed |].
  destruct (N.eqb_spec (m_dirtyMask p) eDirty_None) as [E | E].
  - repeat split.
    + cbn [app forallb is_backend_call andb]. rewrite forallb_app.
      rewrite numbered_all by reflexivity. reflexivity.
    + cbn [app filter is_compile_call]. rewrite filter_app.
      rewrite numbered_none by reflexivity. reflexivity.
    + intros _. exact E.
    + intros _. discriminate.
    + intros _. cbn [app filter is_dispatch_call]. rewrite filter_app.
      rewrite numbered_none by reflexivity. reflexivity.
    + intros Hne. contradiction.
  - repeat split; try reflexivity.
    + intros Hne. contradiction.
    + intros Hm. contradiction.
    + intros Hm. contradiction.
Qed.

Lemma Dispatch_emits_iff_mask_none_witness :
  exists t,
    Dispatch passCompiled = Some (tt, passCompiled, t) /\
    filter is_dispatch_call t = [Cmd_Dispatch 1 1 1].
Proof.
  destruct (Dispatch_emits_iff_mask_none passCompiled)
    as (t & Hrun & _ & _ & _ & Hone & _).
  exists t. split; [exact Hrun |]. apply Hone. reflexivity.
Defined.

(** C4: when no call made by Compile reports failure, Compile returns exactly
    None and leaves the compiled flag true.  Compile returns on every pass whose
    resource set is there to be updated. *)
Theorem Compile_success_returns_none (h : Header) (dev : Device) (p : CComputeRenderPass) :
  resourceSetReady h p = true ->
  exists r p' t,
    Compile h dev p = Some (r, p', t) /\
    (existsb call_failed t = false -> r = eDirty_None /\ m_bCompiled p' = true).
Proof.
  intros Hready.
  destruct (Compile_returns h dev p Hready) as (r & p' & t & H).
  exists r, p', t. split; [exact H |].
  intros Hok. destruct (Compile_result h dev p r p' t H) as (_ & _ & [(Hf & _) | (_ & Hr & Hc)]).
  - congruence.
  - split; assumption.
Qed.

Lemma Compile_success_returns_none_witness :
  exists r p' t,
    Compile header0 deviceOk pass0 = Some (r, p', t) /\
    (existsb call_failed t = false -> r = eDirty_None /\ m_bCompiled p' = true).
Proof.
  apply (Compile_success_returns_none header0 deviceOk pass0). reflexivity.
Defined.

(** C6: from every pass state Reset returns a pass whose dirty mask is All,
    whose three dispatch dimensions are zero and whose resource set, resource
    layout and pipeline state pointers are null. *)
Theorem Reset_returns_to_uncompiled (h : Header) (dev : Device) (p : CComputeRenderPass) :
  exists p' t,
    Reset h dev p = Some (tt, p', t) /\
    m_dirtyMask p' = eDirty_All h /\
    m_dispatchSizeX p' = 0 /\ m_dispatchSizeY p' = 0 /\ m_dispatchSizeZ p' = 0 /\
    m_pResourceSet p' = None /\ m_pResourceLayout p' = None /\
    m_pPipelineState p' = None.
Proof.
  eexists _, _. split; [reflexivity |]. cbn. repeat split.
Qed.

(** C7: the invalidation callback ORs the Resources bit into the dirty mask,
    so a mask of None becomes exactly Resources; it changes no other member and
    calls no collaborator; and it returns false exactly when the flags carry
    the resource-destroyed bit. *)
Theorem OnResourceInvalidated_marks_resources (h : Header) (p : CComputeRenderPass)
    (flags k : N) :
  eResourceDestroyed h = 2 ^ k ->
  exists keep p',
    OnResourceInvalidated h flags p = Some (keep, p', []) /\
    p' = set_m_dirtyMask (N.lor (m_dirtyMask p) (eDirty_Resources h)) p /\
    mask_subset (eDirty_Resources h) (m_dirtyMask p') /\
    (m_dirtyMask p = eDirty_None -> m_dirtyMask p' = eDirty_Resources h) /\
    (keep = false <-> N.testbit flags k = true).
Proof.
  intros Hbit. eexists _, _. split; [reflexivity |]. cbn. repeat split.
  - apply mask_subset_lor_r.
  - intros ->. reflexivity.
  - unfold has. rewrite Hbit, negb_involutive. intros H.
    apply N.eqb_neq in H. destruct (N.testbit flags k) eqn:Hk; [reflexivity |].
    apply land_single_bit in Hk. contradiction.
  - unfold has. rewrite Hbit, negb_involutive. intros Hk. apply N.eqb_neq.
    intros H0. apply land_single_bit in H0. congruence.
Qed.

Lemma OnResourceInvalidated_marks_resources_witness :
  exists keep p',
    OnResourceInvalidated header0 4 passCompiled = Some (keep, p', []) /\
    p' = set_m_dirtyMask (N.lor (m_dirtyMask passCompiled) (eDirty_Resources header0))
           passCompiled /\
    mask_subset (eDirty_Resources header0) (m_dirtyMask p') /\
    (m_dirtyMask passCompiled = eDirty_None -> m_dirtyMask p' = eDirty_Resources header0) /\
    (keep = false <-> N.testbit 4 2 = true).
Proof.
  apply (OnResourceInvalidated_marks_resources header0 passCompiled 4 2). reflexivity.
Defined.

Lemma Dispatch_dirty (p : CComputeRenderPass) :
  m_dirtyMask p <> eDirty_None -> Dispatch p = Some (tt, p, []).
Proof.
  intros Hd. rewrite Dispatch_closed.
  destruct (N.eqb_spec (m_dirtyMask p) eDirty_None); [contradiction | reflexivity].
Qed.

Lemma has_lor_self (mask bits : N) : bits <> 0 -> has (N.lor mask bits) bits = true.
Proof.
  intros Hb. unfold has.
  replace (N.land (N.lor mask bits) bits) with bits.
  - apply N.eqb_neq in Hb. rewrite Hb. reflexivity.
  - apply N.bits_inj. intros n. rewrite N.land_spec, N.lor_spec.
    destruct (N.testbit mask n), (N.testbit bits n); reflexivity.
Qed.

(** When the Resources bit is in the mask Compile works from, its first call
    is the Update of the resource set. *)
Lemma Compile_first_call h dev p r p' t :
  Compile h dev p = Some (r, p', t) ->
  has (workingMask h p) (eDirty_Resources h) = true ->
  exists ok rest,
    t = Call_Update (N.land (workingMask h p)
                       (N.lor (eDirty_Resources h) (eDirty_ResourceLayout h))) ok
        :: rest.
Proof.
  intros H Hhas. compile_exits H; try congruence; at_exit; eexists _, _; reflexivity.
Qed.

(** Compile overwrites the compiled flag before it reads anything: its outcome
    does not depend on the value the flag had. *)
Lemma Compile_ignores_compiled_flag h dev p (b : bool) :
  Compile h dev (set_m_bCompiled b p) = Compile h dev p.
Proof.
  rewrite !Compile_run.
  change (workingMask h (set_m_bCompiled b p)) with (workingMask h p).
  change (onEntry (set_m_bCompiled b p)) with (onEntry p).
  reflexivity.
Qed.

(** C10: every Compile that returns has cleared the asynchronous
    resources-invalidated flag and has overwritten the compiled flag on entry
    (its outcome is the same whatever the flag was, and the flag is false at
    every failing exit).  If the asynchronous flag was set on entry, the mask
    Compile works from is the dirty mask with Resources added, its first call
    is the Update of the resource set, and that mask is what a failing Compile
    returns.  On exit the compiled flag is true exactly when the returned mask
    is None. *)
Theorem Compile_resets_flags (h : Header) (dev : Device) (p : CComputeRenderPass) :
  resourceSetReady h p = true ->
  exists r p' t,
    Compile h dev p = Some (r, p', t) /\
    m_bResourcesInvalidated p' = false /\
    (forall b, Compile h dev (set_m_bCompiled b p) = Some (r, p', t)) /\
    (m_bCompiled p' = true <-> r = eDirty_None) /\
    (existsb call_failed t = true -> r = workingMask h p /\ m_bCompiled p' = false) /\
    (m_bResourcesInvalidated p = true ->
     workingMask h p = N.lor (m_dirtyMask p) (eDirty_Resources h) /\
     mask_subset (eDirty_Resources h) (workingMask h p) /\
     (eDirty_Resources h <> 0 ->
      exists ok rest,
        t = Call_Update (N.land (workingMask h p)
                           (N.lor (eDirty_Resources h) (eDirty_ResourceLayout h))) ok
            :: rest)).
Proof.
  intros Hready.
  destruct (Compile_returns h dev p Hready) as (r & p' & t & H).
  exists r, p', t. split; [exact H |].
  destruct (Compile_result h dev p r p' t H) as (_ & Hflag & Hexit).
  split; [exact Hflag |].
  split; [intros b; rewrite Compile_ignores_compiled_flag; exact H |].
  split; [| split].
  - destruct Hexit as [(_ & _ & Hnz & Hc) | (_ & Hr & Hc)].
    + split; intros; congruence.
    + split; intros; assumption.
  - intros Hfail. destruct Hexit as [(_ & Hr & _ & Hc) | (Hok & _)].
    + split; assumption.
    + congruence.
  - intros Hset.
    assert (Hwm : workingMask h p = N.lor (m_dirtyMask p) (eDirty_Resources h))
      by (unfold workingMask; rewrite Hset; reflexivity).
    split; [exact Hwm |]. split; [rewrite Hwm; apply mask_subset_lor_r |].
    intros Hnz. apply (Compile_first_call h dev p r p' t H).
    rewrite Hwm. apply has_lor_self. exact Hnz.
Qed.

Lemma Compile_resets_flags_witness :
  exists r p' t,
    Compile header0 deviceUpdateFails passFlagOnly = Some (r, p', t) /\
    m_bResourcesInvalidated p' = false /\
    (forall b, Compile header0 deviceUpdateFails (set_m_bCompiled b passFlagOnly)
               = Some (r, p', t)) /\
    (m_bCompiled p' = true <-> r = eDirty_None) /\
    (existsb call_failed t = true ->
     r = workingMask header0 passFlagOnly /\ m_bCompiled p' = false) /\
    (m_bResourcesInvalidated passFlagOnly = true ->
     workingMask header0 passFlagOnly
     = N.lor (m_dirtyMask passFlagOnly) (eDirty_Resources header0) /\
     mask_subset (eDirty_Resources header0) (workingMask header0 passFlagOnly) /\
     (eDirty_Resources header0 <> 0 ->
      exists ok rest,
        t = Call_Update (N.land (workingMask header0 passFlagOnly)
                           (N.lor (eDirty_Resources header0)
                                  (eDirty_ResourceLayout header0))) ok
            :: rest)).
Proof.
  apply (Compile_resets_flags header0 deviceUpdateFails passFlagOnly). reflexivity.
Defined.

(** C1 (as amended): when a call made by Compile fails, Compile returns right
    after it: the failing call is the last of the trace and no call of a later
    block is made.  The returned mask is the mask Compile worked from; it holds
    every bit of the dirty mask and is not None, and the member [m_dirtyMask]
    is untouched.  What was compiled before is kept only by the blocks that
    were not reached: a failed Update leaves layout, pipeline state and
    constant manager as they were (and the resource set too when Update honours
    its contract); a failed layout creation leaves the pipeline state and its
    update count as they were but has already stored the null layout; a failed
    PSO creation has already stored the null or invalid pipeline state, and
    leaves the update count as it was.  The blocks that succeeded before the
    failure stay applied: the pass holds the resource set as Update left it,
    from the layout block on the constant manager has had its reflection
    released and, when the pass reflects its constant buffers, allocated again,
    and at a failed PSO creation the pass holds the non-null layout just
    created, which is the layout of the failing description. *)
Theorem Compile_failure_returns_at_once (h : Header) (dev : Device)
    (p : CComputeRenderPass) :
  resourceSetReady h p = true ->
  exists r p' t,
    Compile h dev p = Some (r, p', t) /\
    (existsb call_failed t = true ->
     r = workingMask h p /\ mask_subset (m_dirtyMask p) r /\ r <> eDirty_None /\
     m_dirtyMask p' = m_dirtyMask p /\
     exists before failing,
       t = before ++ [failing] /\ call_failed failing = true /\
       existsb call_failed before = false /\
       forallb (fun c => (call_block c <=? call_block failing)%nat) t = true /\
       match failing with
       | Call_Update _ _ =>
           before = [] /\
           m_pResourceLayout p' = m_pResourceLayout p /\
           m_pPipelineState p' = m_pPipelineState p /\
           m_constantManager p' = m_constantManager p /\
           (update_failure_keeps_state dev -> m_pResourceSet p' = m_pResourceSet p) /\
           m_currentPsoUpdateCount p' = m_currentPsoUpdateCount p /\
           m_pResourceSet p' = updatedResourceSet h dev p
       | Call_CreateResourceLayout _ _ =>
           m_pResourceLayout p' = None /\
           m_pPipelineState p' = m_pPipelineState p /\
           m_currentPsoUpdateCount p' = m_currentPsoUpdateCount p /\
           m_pResourceSet p' = updatedResourceSet h dev p /\
           m_constantManager p' = reflectedManager h dev p
       | Call_CreateComputePSO desc result =>
           m_pPipelineState p' = result /\
           m_currentPsoUpdateCount p' = m_currentPsoUpdateCount p /\
           m_pResourceSet p' = updatedResourceSet h dev p /\
           m_constantManager p' = reflectedManager h dev p /\
           m_pResourceLayout p' = CreateResourceLayout dev (layoutDescOf h dev p) /\
           m_pResourceLayout p' <> None /\
           pso_pResourceLayout desc = m_pResourceLayout p'
       | _ => False
       end).
Proof.
  intros Hready.
  destruct (Compile_returns h dev p Hready) as (r & p' & t & H).
  exists r, p', t. split; [exact H |].
  intros Hfail.
  destruct (Compile_result h dev p r p' t H) as (Hmask & _ & [(_ & Hr & Hnz & _) | (Hok & _)]);
    [| congruence].
  split; [exact Hr |]. split; [rewrite Hr; apply workingMask_subset |].
  split; [exact Hnz |]. split; [exact Hmask |].
  clear Hr Hnz Hmask Hready. revert Hfail. unfold updatedResourceSet.
  compile_exits H; at_exit; intros Hfail; try discriminate Hfail.
  all: match goal with
       | |- exists before failing, ?t = _ /\ _ =>
           exists (removelast t), (last t Call_AddPass)
       end; cbn; repeat split;
    try (match goal with Hv : IsValid _ = false |- _ => rewrite Hv end; reflexivity);
    try (symmetry; assumption); try discriminate.
  intros Hkeep. f_equal. apply Hkeep. assumption.
Qed.

Lemma Compile_failure_returns_at_once_witness :
  exists r p' t,
    Compile header0 deviceLayoutFails passLayoutDirty = Some (r, p', t) /\
    existsb call_failed t = true /\
    r = workingMask header0 passLayoutDirty /\
    m_dirtyMask p' = m_dirtyMask passLayoutDirty /\
    m_pPipelineState p' = m_pPipelineState passLayoutDirty.
Proof.
  destruct (Compile_failure_returns_at_once header0 deviceLayoutFails passLayoutDirty
              eq_refl) as (r & p' & t & Hrun & Hfail).
  exists r, p', t. split; [exact Hrun |].
  assert (Hf : existsb call_failed t = true).
  { vm_compute in Hrun. injection Hrun as <- <- <-. reflexivity. }
  split; [exact Hf |].
  destruct (Hfail Hf) as (Hr & _ & _ & Hmask & before & failing & Ht & _ & _ & _ & Hcase).
  split; [exact Hr |]. split; [exact Hmask |].
  vm_compute in Hrun. injection Hrun as <- <- <-. reflexivity.
Defined.

(** C1, the claim as stated, fails: with the layout marked dirty and layout
    creation returning null, Compile fails and the previously compiled resource
    layout has been replaced by null. *)
Lemma Compile_failure_overwrites_layout :
  exists r p' t,
    Compile header0 deviceLayoutFails passLayoutDirty = Some (r, p', t) /\
    existsb call_failed t = true /\
    m_pResourceLayout passLayoutDirty = Some 7 /\
    m_pResourceLayout p' = None /\
    m_pResourceLayout p' <> m_pResourceLayout passLayoutDirty.
Proof.
  eexists _, _, _. split; [vm_compute; reflexivity |].
  repeat split. discriminate.
Qed.

(** ** The layout description and the prepare calls *)

Lemma Compile_layout_call h dev p r p' t desc result :
  Compile h dev p = Some (r, p', t) ->
  In (Call_CreateResourceLayout desc result) t ->
  desc = layoutDescOf h dev p.
Proof.
  intros H. compile_exits H; at_exit; intros Hin;
    repeat match goal with
           | Hor : _ \/ _ |- _ => destruct Hor as [Hor | Hor]
           | Heq : _ = Call_CreateResourceLayout _ _ |- _ =>
               first [discriminate Heq | injection Heq as <- _]
           | Hf : False |- _ => destruct Hf
           end; reflexivity.
Qed.

Lemma Compile_layout_call_made h dev p r p' t :
  Compile h dev p = Some (r, p', t) ->
  has (workingMask h p) (N.lor (eDirty_Technique h) (eDirty_ResourceLayout h)) = true ->
  (forall flags, ~ In (Call_Update flags false) t) ->
  exists result, In (Call_CreateResourceLayout (layoutDescOf h dev p) result) t.
Proof.
  intros H Hdirty. compile_exits H; try congruence; at_exit; intros Hupdate;
    try (exfalso; eapply Hupdate; left; reflexivity);
    eexists; cbn; tauto.
Qed.

Lemma Compile_no_backend_call h dev p r p' t :
  Compile h dev p = Some (r, p', t) -> filter is_backend_call t = [].
Proof.
  intros H. compile_exits H; at_exit; reflexivity.
Qed.

Lemma PrepareResourcesForUse_refresh_run h dev p :
  PrepareResourcesForUse_refresh h dev p =
  if m_bPendingConstantUpdate p then
    Some (tt,
          set_m_bPendingConstantUpdate false
            (set_m_constantManager (EndNamedConstantUpdate dev (m_constantManager p)) p),
          [Call_EndNamedConstantUpdate])
  else if IsDirty dev p then
    match Compile h dev p with
    | None => None
    | Some (r, q, t) => Some (tt, set_m_dirtyMask r q, t)
    end
  else Some (tt, p, []).
Proof.
  unfold PrepareResourcesForUse_refresh. unfold bind at 1. cbn [this].
  destruct (m_bPendingConstantUpdate p); [reflexivity |].
  destruct (IsDirty dev p); [| reflexivity].
  unfold bind, assign. destruct (Compile h dev p) as [[[r q] t] |]; [| reflexivity].
  rewrite app_nil_r. reflexivity.
Qed.

Lemma PrepareResourcesForUse_prepare_run h p :
  PrepareResourcesForUse_prepare h p =
  Some (tt, p,
        if m_dirtyMask p =? eDirty_None then
          Cmd_PrepareResourcesForUse 0 (m_pResourceSet p)
          :: numbered (fun slot cb =>
                         Cmd_PrepareInlineConstantBufferForUse slot (pBuffer cb)
                           (shaderSlot cb) (EShaderStage_Compute h))
               (GetBuffers (m_constantManager p)) 1%Z
        else []).
Proof.
  unfold PrepareResourcesForUse_prepare. unfold bind at 1. cbn [this].
  destruct (m_dirtyMask p =? eDirty_None); [| reflexivity].
  unfold bind, call, ret.
  rewrite (for_each_call
             (fun slot cb =>
                Cmd_PrepareInlineConstantBufferForUse slot (pBuffer cb)
                  (shaderSlot cb) (EShaderStage_Compute h))).
  cbn. rewrite app_nil_r. reflexivity.
Qed.

Lemma PrepareResourcesForUse_run h dev p :
  PrepareResourcesForUse h dev p =
  match PrepareResourcesForUse_refresh h dev p with
  | None => None
  | Some (_, p1, t1) =>
      Some (tt, p1,
            t1 ++
            if m_dirtyMask p1 =? eDirty_None then
              Cmd_PrepareResourcesForUse 0 (m_pResourceSet p1)
              :: numbered (fun slot cb =>
                             Cmd_PrepareInlineConstantBufferForUse slot (pBuffer cb)
                               (shaderSlot cb) (EShaderStage_Compute h))
                   (GetBuffers (m_constantManager p1)) 1%Z
            else [])
  end.
Proof.
  unfold PrepareResourcesForUse. unfold bind.
  destruct (PrepareResourcesForUse_refresh h dev p) as [[[u p1] t1] |]; [| reflexivity].
  rewrite PrepareResourcesForUse_prepare_run. reflexivity.
Qed.

Lemma PrepareResourcesForUse_refresh_no_backend_call h dev p u p1 t1 :
  PrepareResourcesForUse_refresh h dev p = Some (u, p1, t1) ->
  filter is_backend_call t1 = [].
Proof.
  rewrite PrepareResourcesForUse_refresh_run.
  destruct (m_bPendingConstantUpdate p).
  - intros H. injection H as _ _ <-. reflexivity.
  - destruct (IsDirty dev p).
    + destruct (Compile h dev p) as [[[r q] t] |] eqn:Hc; [| discriminate].
      intros H. injection H as _ _ <-. eapply Compile_no_backend_call. exact Hc.
    + intros H. injection H as _ _ <-. reflexivity.
Qed.

Lemma PrepareResourcesForUse_refresh_returns h dev p :
  resourceSetReady h p = true ->
  exists p1 t1, PrepareResourcesForUse_refresh h dev p = Some (tt, p1, t1).
Proof.
  intros Hready. rewrite PrepareResourcesForUse_refresh_run.
  destruct (m_bPendingConstantUpdate p); [eauto |].
  destruct (IsDirty dev p); [| eauto].
  destruct (Compile_returns h dev p Hready) as (r & q & t & ->). eauto.
Qed.

(** C5: every layout description Compile hands to the factory has the
    resource set alone at bind slot 0 and the reflected inline constant buffers,
    in the order of [GetBuffers()], at slots 1, 2, ...; and Compile does build
    one whenever Technique or ResourceLayout is dirty and Update did not fail.
    PrepareResourcesForUse, when the dirty mask is None after its first part,
    prepares the resource set at slot 0 and then each inline constant buffer, in
    the same order, at slots 1, 2, ...; otherwise it issues no backend call. *)
Theorem layout_and_prepare_use_incrementing_slots (h : Header) (dev : Device)
    (p : CComputeRenderPass) :
  resourceSetReady h p = true ->
  (exists r p' t,
     Compile h dev p = Some (r, p', t) /\
     (forall desc result,
        In (Call_CreateResourceLayout desc result) t ->
        m_resourceSetBindings desc = [(0%Z, m_resourceDesc p)] /\
        length (m_constantBufferBindings desc)
        = length (GetBuffers (reflectedManager h dev p)) /\
        forall (i : nat) cb,
          nth_error (GetBuffers (reflectedManager h dev p)) i = Some cb ->
          nth_error (m_constantBufferBindings desc) i
          = Some ((1 + Z.of_nat i)%Z, shaderSlot cb, shaderStages cb)) /\
     (has (workingMask h p) (N.lor (eDirty_Technique h) (eDirty_ResourceLayout h)) = true ->
      (forall flags, ~ In (Call_Update flags false) t) ->
      exists desc result, In (Call_CreateResourceLayout desc result) t)) /\
  (exists p' t,
     PrepareResourcesForUse h dev p = Some (tt, p', t) /\
     (m_dirtyMask p' = eDirty_None ->
      exists cmds,
        filter is_backend_call t
        = Cmd_PrepareResourcesForUse 0 (m_pResourceSet p') :: cmds /\
        length cmds = length (GetBuffers (m_constantManager p')) /\
        forall (i : nat) cb,
          nth_error (GetBuffers (m_constantManager p')) i = Some cb ->
          nth_error cmds i
          = Some (Cmd_PrepareInlineConstantBufferForUse (1 + Z.of_nat i)%Z
                    (pBuffer cb) (shaderSlot cb) (EShaderStage_Compute h))) /\
     (m_dirtyMask p' <> eDirty_None -> filter is_backend_call t = [])).
Proof.
  intros Hready. split.
  - destruct (Compile_returns h dev p Hready) as (r & p' & t & H).
    exists r, p', t. split; [exact H |]. split.
    + intros desc result Hin.
      rewrite (Compile_layout_call h dev p r p' t desc result H Hin).
      unfold layoutDescOf. rewrite buildResourceLayoutDesc_closed.
      cbn [m_resourceSetBindings m_constantBufferBindings].
      split; [reflexivity |]. split; [apply numbered_length |].
      intros i cb Hcb.
      apply (numbered_nth (fun slot cb => (slot, shaderSlot cb, shaderStages cb))).
      exact Hcb.
    + intros Hdirty Hupdate.
      destruct (Compile_layout_call_made h dev p r p' t H Hdirty Hupdate) as (result & Hin).
      eauto.
  - destruct (PrepareResourcesForUse_refresh_returns h dev p Hready) as (p1 & t1 & Hrefresh).
    pose proof (PrepareResourcesForUse_refresh_no_backend_call h dev p tt p1 t1 Hrefresh)
      as Hquiet.
    rewrite PrepareResourcesForUse_run, Hrefresh.
    eexists _, _. split; [reflexivity |].
    rewrite filter_app, Hquiet. cbn [app]. split.
    + intros Hclean. apply N.eqb_eq in Hclean. rewrite Hclean.
      cbn [filter is_backend_call].
      rewrite forallb_filter_id by (apply numbered_all; reflexivity).
      eexists. split; [reflexivity |].
      split; [apply numbered_length |].
      * intros i cb Hcb.
        apply (numbered_nth
                 (fun slot cb =>
                    Cmd_PrepareInlineConstantBufferForUse slot (pBuffer cb)
                      (shaderSlot cb) (EShaderStage_Compute h))).
        exact Hcb.
    + intros Hdirty. apply N.eqb_neq in Hdirty. rewrite Hdirty. reflexivity.
Qed.

Lemma layout_and_prepare_use_incrementing_slots_witness :
  exists t,
    PrepareResourcesForUse header0 deviceOk pass0 = Some (tt, passCompiled, t) /\
    In (Call_CreateResourceLayout
          {| m_resourceSetBindings := [(0%Z, m_resourceDesc pass0)];
             m_constantBufferBindings := [(1%Z, 3, 32); (2%Z, 5, 32)] |}
          (Some 7)) t /\
    filter is_backend_call t
    = [Cmd_PrepareResourcesForUse 0 (m_pResourceSet passCompiled);
       Cmd_PrepareInlineConstantBufferForUse 1 100 3 32;
       Cmd_PrepareInlineConstantBufferForUse 2 101 5 32].
Proof.
  destruct (layout_and_prepare_use_incrementing_slots header0 deviceOk pass0 eq_refl)
    as (_ & p' & t & Hrun & _).
  exists t.
  vm_compute in Hrun. injection Hrun as <- <-.
  split; [vm_compute; reflexivity |]. split; [| vm_compute; reflexivity].
  vm_compute. tauto.
Defined.

(** ** Reset, BeginConstantUpdate and Execute in closed form *)

Lemma Reset_run h dev p :
  exists p',
    Reset h dev p
    = Some (tt, p', [Call_ResourceSetDesc_Clear; Call_ConstantManager_Reset;
                     Call_ProfilingStats_Reset]) /\
    m_dirtyMask p' = eDirty_All h /\
    m_bPendingConstantUpdate p' = true /\
    m_bResourcesInvalidated p' = true /\
    m_bCompiled p' = false /\
    m_pResourceSet p' = None.
Proof. eexists. split; [reflexivity |]. repeat split. Qed.

Lemma BeginConstantUpdate_run h dev p :
  BeginConstantUpdate h dev p =
  if has (m_flags p) (eFlags_ReflectConstantBuffersFromShader h) then
    if IsDirty dev p then
      match Compile h dev p with
      | None => None
      | Some (r, q, t) =>
          Some (tt,
                set_m_constantManager (BeginNamedConstantUpdate dev (m_constantManager q))
                  (set_m_bPendingConstantUpdate true (set_m_dirtyMask r q)),
                t ++ [Call_BeginNamedConstantUpdate])
      end
    else
      Some (tt,
            set_m_constantManager (BeginNamedConstantUpdate dev (m_constantManager p))
              (set_m_bPendingConstantUpdate true p),
            [Call_BeginNamedConstantUpdate])
  else Some (tt, p, []).
Proof.
  unfold BeginConstantUpdate. unfold bind at 1. cbn [this].
  destruct (has (m_flags p) _); [| reflexivity].
  destruct (IsDirty dev p); [| reflexivity].
  unfold bind, assign, call. destruct (Compile h dev p) as [[[r q] t] |]; [| reflexivity].
  cbn. rewrite app_nil_r. reflexivity.
Qed.

Lemma Execute_keeps_mask h dev p u p' t :
  Execute h dev p = Some (u, p', t) -> m_dirtyMask p' = m_dirtyMask p.
Proof.
  unfold Execute. destruct (Scheduler_IsActive dev).
  - intros H. injection H as _ <- _. reflexivity.
  - unfold BeginRenderPass, EndRenderPass.
    destruct (ENABLE_PROFILING_CODE h); unfold bind, call, ret, assign;
      cbv beta iota; rewrite Dispatch_closed;
      intros H; injection H as _ <- _; reflexivity.
Qed.

(** C9: right after Reset the pending-constant-update flag is set, so the
    first PrepareResourcesForUse takes its first branch: its only call is the
    one that closes the constant update; it neither compiles nor prepares
    anything, clears the pending flag, and leaves the dirty mask at All. *)
Theorem first_prepare_after_Reset_only_closes_update (h : Header) (devReset dev : Device)
    (p : CComputeRenderPass) :
  eDirty_All h <> eDirty_None ->
  exists p1 t1 p2 t2,
    Reset h devReset p = Some (tt, p1, t1) /\
    m_bPendingConstantUpdate p1 = true /\
    PrepareResourcesForUse h dev p1 = Some (tt, p2, t2) /\
    t2 = [Call_EndNamedConstantUpdate] /\
    p2 = set_m_bPendingConstantUpdate false
           (set_m_constantManager (EndNamedConstantUpdate dev (m_constantManager p1)) p1) /\
    m_bPendingConstantUpdate p2 = false /\
    m_dirtyMask p2 = eDirty_All h.
Proof.
  intros Hall.
  destruct (Reset_run h devReset p) as (p1 & Hreset & Hmask & Hpending & _).
  exists p1. eexists. eexists. eexists.
  split; [exact Hreset |]. split; [exact Hpending |].
  rewrite PrepareResourcesForUse_run, PrepareResourcesForUse_refresh_run, Hpending.
  cbn [m_dirtyMask set_m_bPendingConstantUpdate set_m_constantManager].
  rewrite Hmask. apply N.eqb_neq in Hall. rewrite Hall.
  split; [reflexivity |]. split; [reflexivity |]. split; [reflexivity |].
  split; [reflexivity | exact Hmask].
Qed.

Lemma first_prepare_after_Reset_only_closes_update_witness :
  exists p1 t1 p2 t2,
    Reset header0 deviceOk passCompiled = Some (tt, p1, t1) /\
    m_bPendingConstantUpdate p1 = true /\
    PrepareResourcesForUse header0 deviceOk p1 = Some (tt, p2, t2) /\
    t2 = [Call_EndNamedConstantUpdate] /\
    p2 = set_m_bPendingConstantUpdate false
           (set_m_constantManager
              (EndNamedConstantUpdate deviceOk (m_constantManager p1)) p1) /\
    m_bPendingConstantUpdate p2 = false /\
    m_dirtyMask p2 = eDirty_All header0.
Proof.
  apply (first_prepare_after_Reset_only_closes_update header0 deviceOk deviceOk passCompiled).
  discriminate.
Defined.

(** ** The dirty mask along a sequence of operations *)

Lemma Resources_within_All h : mask_subset (eDirty_Resources h) (eDirty_All h).
Proof. apply mask_subset_lor_l. Qed.

Lemma Technique_within_All h : mask_subset (eDirty_Technique h) (eDirty_All h).
Proof.
  unfold eDirty_All.
  eapply mask_subset_trans; [apply mask_subset_lor_l | apply mask_subset_lor_r].
Qed.

Lemma workingMask_within_All h p :
  mask_subset (m_dirtyMask p) (eDirty_All h) -> mask_subset (workingMask h p) (eDirty_All h).
Proof.
  intros Hp. unfold workingMask. apply mask_subset_lor_lub; [exact Hp |].
  destruct (m_bResourcesInvalidated p);
    [apply Resources_within_All | apply mask_subset_0_l].
Qed.

(** What a caller that stores the result of Compile does to the dirty mask. *)
Lemma Compile_stored_mask h dev p r q t :
  Compile h dev p = Some (r, q, t) ->
  mask_subset (m_dirtyMask p) (eDirty_All h) ->
  mask_subset r (eDirty_All h) /\
  (mask_subset (m_dirtyMask p) r \/ (r = eDirty_None /\ existsb call_failed t = false)).
Proof.
  intros H Hp.
  destruct (Compile_result h dev p r q t H) as (_ & _ & [(_ & Hr & _) | (Hok & Hr & _)]).
  - rewrite Hr. split; [apply workingMask_within_All; exact Hp |].
    left. apply workingMask_subset.
  - rewrite Hr. split; [apply mask_subset_0_l |]. right. split; [reflexivity | exact Hok].
Qed.

Lemma queueBinding_run (r : CDeviceResourceSetDesc * N) (p : CComputeRenderPass) :
  exists p',
    queueBinding r p = Some (tt, p', []) /\
    m_dirtyMask p' = N.lor (m_dirtyMask p) (snd r).
Proof. destruct r as [desc delta]. eexists. split; reflexivity. Qed.

(** A binding setter of the pass: the delta reported by the description is
    ORed into the dirty mask. *)
Ltac binding_case H Hp Hdelta :=
  match type of H with
  | context [queueBinding ?r ?p] =>
      let q := fresh "q" in
      let Hq := fresh "Hq" in
      let Hm := fresh "Hm" in
      destruct (queueBinding_run r p) as (q & Hq & Hm);
      rewrite Hq in H; injection H as <-; rewrite Hm;
      split; [apply mask_subset_lor_lub; [exact Hp | apply Hdelta]
             | left; apply mask_subset_lor_l]
  end.

(** One operation: the dirty mask keeps all of its bits, unless the operation
    ran a Compile that succeeded, and it stays within All. *)
Lemma step_mask h op p p' :
  after h op p = Some p' ->
  mask_subset (m_dirtyMask p) (eDirty_All h) ->
  op_deltas_within h op ->
  mask_subset (m_dirtyMask p') (eDirty_All h) /\
  (mask_subset (m_dirtyMask p) (m_dirtyMask p')
   \/ (compiled_by h op p /\ m_dirtyMask p' = eDirty_None)).
Proof.
  unfold after. destruct op; cbn [perform op_deltas_within]; intros H Hp Hdelta.
  - (* SetConstantBuffer *)
    unfold SetConstantBuffer, bind, this in H. binding_case H Hp Hdelta.
  - (* SetTexture *)
    unfold SetTexture, bind, this in H. binding_case H Hp Hdelta.
  - (* SetSampler *)
    unfold SetSampler, bind, this in H. binding_case H Hp Hdelta.
  - (* SetBuffer *)
    unfold SetBuffer, bind, this in H. binding_case H Hp Hdelta.
  - (* SetTechnique *)
    unfold SetTechnique, bind, this, assign, ret in H.
    destruct (negb (option_N_eqb (m_pShader p) pShader)
              || negb (m_techniqueName p =? techName) || negb (m_rtMask p =? rtMask));
      injection H as <-; cbn [m_dirtyMask set_m_dirtyMask].
    + split; [| left; apply mask_subset_lor_l].
      apply mask_subset_lor_lub; [exact Hp | apply Technique_within_All].
    + split; [exact Hp | left; apply mask_subset_refl].
  - (* SetDispatchSize *)
    injection H as <-. cbn [m_dirtyMask]. split; [exact Hp | left; apply mask_subset_refl].
  - (* OnResourceInvalidated *)
    injection H as <-. cbn [m_dirtyMask set_m_dirtyMask].
    split; [| left; apply mask_subset_lor_l].
    apply mask_subset_lor_lub; [exact Hp | apply Resources_within_All].
  - (* Reset *)
    destruct (Reset_run h dev p) as (q & Hq & Hmask & _). rewrite Hq in H.
    injection H as <-. rewrite Hmask. split; [apply mask_subset_refl | left; exact Hp].
  - (* BeginConstantUpdate *)
    rewrite BeginConstantUpdate_run in H.
    destruct (has (m_flags p) _).
    + destruct (IsDirty dev p).
      * destruct (Compile h dev p) as [[[r q] t] |] eqn:Hc; [| discriminate].
        injection H as <-.
        cbn [m_dirtyMask set_m_constantManager set_m_bPendingConstantUpdate set_m_dirtyMask].
        destruct (Compile_stored_mask h dev p r q t Hc Hp) as (Hall & [Hsub | (Hr & Hok)]).
        -- auto.
        -- split; [exact Hall |]. right. subst r. split; [| reflexivity].
           exists dev, q, t. auto.
      * injection H as <-. cbn [m_dirtyMask set_m_constantManager set_m_bPendingConstantUpdate].
        split; [exact Hp | left; apply mask_subset_refl].
    + injection H as <-. split; [exact Hp | left; apply mask_subset_refl].
  - (* PrepareResourcesForUse *)
    rewrite PrepareResourcesForUse_run, PrepareResourcesForUse_refresh_run in H.
    destruct (m_bPendingConstantUpdate p).
    + injection H as <-.
      cbn [m_dirtyMask set_m_constantManager set_m_bPendingConstantUpdate].
      split; [exact Hp | left; apply mask_subset_refl].
    + destruct (IsDirty dev p).
      * destruct (Compile h dev p) as [[[r q] t] |] eqn:Hc; [| discriminate].
        injection H as <-. cbn [m_dirtyMask set_m_dirtyMask].
        destruct (Compile_stored_mask h dev p r q t Hc Hp) as (Hall & [Hsub | (Hr & Hok)]).
        -- auto.
        -- split; [exact Hall |]. right. subst r. split; [| reflexivity].
           exists dev, q, t. auto.
      * injection H as <-. split; [exact Hp | left; apply mask_subset_refl].
  - (* Dispatch *)
    rewrite Dispatch_closed in H. injection H as <-.
    split; [exact Hp | left; apply mask_subset_refl].
  - (* Execute *)
    destruct (Execute h dev p) as [[[u q] t] |] eqn:He; [| discriminate].
    injection H as <-. rewrite (Execute_keeps_mask h dev p u q t He).
    split; [exact Hp | left; apply mask_subset_refl].
Qed.

Lemma states_head h ops p sts :
  states h ops p = Some sts -> exists rest, sts = p :: rest.
Proof.
  destruct ops as [| op ops]; cbn.
  - intros H. injection H as <-. eauto.
  - destruct (after h op p) as [p1 |]; [| discriminate].
    destruct (states h ops p1) as [l |]; [| discriminate].
    intros H. injection H as <-. eauto.
Qed.

(** C8: along every sequence of operations on a pass (binding mutations,
    technique and dispatch-size setters, invalidation callbacks, Reset,
    BeginConstantUpdate, PrepareResourcesForUse, Dispatch, Execute) that starts
    from a dirty mask made of the enumerated bits, each operation leaves every
    bit of the dirty mask set, except an operation whose Compile succeeded,
    after which the mask is None. *)
Theorem dirty_mask_only_cleared_by_successful_Compile (h : Header) (ops : list Op)
    (p0 : CComputeRenderPass) (sts : list CComputeRenderPass) :
  mask_subset (m_dirtyMask p0) (eDirty_All h) ->
  Forall (op_deltas_within h) ops ->
  states h ops p0 = Some sts ->
  forall (i : nat) op p q,
    nth_error ops i = Some op ->
    nth_error sts i = Some p ->
    nth_error sts (S i) = Some q ->
    after h op p = Some q /\
    (mask_subset (m_dirtyMask p) (m_dirtyMask q)
     \/ (compiled_by h op p /\ m_dirtyMask q = eDirty_None)).
Proof.
  intros Hp Hdeltas. revert p0 sts Hp.
  induction Hdeltas as [| op0 ops Hop0 Hrest IH]; intros p0 sts Hp Hsts i op p q Hop Hi Hsi.
  - destruct i; discriminate.
  - cbn [states] in Hsts.
    destruct (after h op0 p0) as [p1 |] eqn:Hstep; [| discriminate].
    destruct (states h ops p1) as [l |] eqn:Hl; [| discriminate].
    injection Hsts as <-.
    destruct (step_mask h op0 p0 p1 Hstep Hp Hop0) as (Hp1 & Hmono).
    destruct (states_head h ops p1 l Hl) as (rest & ->).
    destruct i as [| i].
    + cbn in Hop, Hi, Hsi. injection Hop as <-. injection Hi as <-. injection Hsi as <-.
      split; assumption.
    + cbn [nth_error] in Hop, Hi, Hsi.
      exact (IH p1 (p1 :: rest) Hp1 Hl i op p q Hop Hi Hsi).
Qed.

Lemma dirty_mask_only_cleared_by_successful_Compile_witness :
  (forall (i : nat) op p q,
     nth_error demoOps i = Some op ->
     nth_error demoStates i = Some p ->
     nth_error demoStates (S i) = Some q ->
     after header0 op p = Some q /\
     (mask_subset (m_dirtyMask p) (m_dirtyMask q)
      \/ (compiled_by header0 op p /\ m_dirtyMask q = eDirty_None))) /\
  map m_dirtyMask demoStates = [7; 7; 0; 2; 2; 7; 7].
Proof.
  split.
  - apply (dirty_mask_only_cleared_by_successful_Compile header0 demoOps pass0 demoStates).
    + vm_compute. reflexivity.
    + unfold demoOps. repeat constructor; intros ty d bp r; vm_compute; reflexivity.
    + vm_compute. reflexivity.
  - vm_compute. reflexivity.
Defined.

(** ** The dirty mask across a failing Compile *)

Lemma covered_same h p p' :
  invalidationCovered h p ->
  m_bResourcesInvalidated p' = m_bResourcesInvalidated p ->
  m_dirtyMask p' = m_dirtyMask p ->
  invalidationCovered h p'.
Proof. unfold invalidationCovered. intros Hp -> ->. exact Hp. Qed.

Lemma covered_grow h p p' more :
  invalidationCovered h p ->
  m_bResourcesInvalidated p' = m_bResourcesInvalidated p ->
  m_dirtyMask p' = N.lor (m_dirtyMask p) more ->
  invalidationCovered h p'.
Proof.
  unfold invalidationCovered. intros Hp -> -> Hflag.
  eapply mask_subset_trans; [exact (Hp Hflag) | apply mask_subset_lor_l].
Qed.

Lemma covered_flag_clear h p : m_bResourcesInvalidated p = false -> invalidationCovered h p.
Proof. unfold invalidationCovered. congruence. Qed.

Lemma Execute_keeps_flag h dev p u p' t :
  Execute h dev p = Some (u, p', t) ->
  m_bResourcesInvalidated p' = m_bResourcesInvalidated p.
Proof.
  unfold Execute. destruct (Scheduler_IsActive dev).
  - intros H. injection H as _ <- _. reflexivity.
  - unfold BeginRenderPass, EndRenderPass.
    destruct (ENABLE_PROFILING_CODE h); unfold bind, call, ret, assign;
      cbv beta iota; rewrite Dispatch_closed;
      intros H; injection H as _ <- _; reflexivity.
Qed.

(** A setter of the pass that queues a binding leaves the flag alone and only
    adds bits to the mask. *)
Ltac binding_covered H Hp :=
  match type of H with
  | context [queueBinding ?r ?p] =>
      let desc := fresh "desc" in
      let delta := fresh "delta" in
      destruct r as [desc delta]; cbn in H; injection H as <-;
      apply (covered_grow _ p _ delta Hp); reflexivity
  end.

(** Every operation keeps Resources in the dirty mask while the flag is set:
    only Reset sets the flag, together with every bit of the mask, and a
    Compile has cleared the flag before its result is stored. *)
Lemma step_covers_invalidation h op p p' :
  after h op p = Some p' ->
  invalidationCovered h p ->
  invalidationCovered h p'.
Proof.
  unfold after. destruct op; cbn [perform]; intros H Hp.
  - unfold SetConstantBuffer, bind, this in H. binding_covered H Hp.
  - unfold SetTexture, bind, this in H. binding_covered H Hp.
  - unfold SetSampler, bind, this in H. binding_covered H Hp.
  - unfold SetBuffer, bind, this in H. binding_covered H Hp.
  - unfold SetTechnique, bind, this, assign, ret in H.
    destruct (negb (option_N_eqb (m_pShader p) pShader)
              || negb (m_techniqueName p =? techName) || negb (m_rtMask p =? rtMask));
      injection H as <-.
    + apply (covered_grow _ p _ (eDirty_Technique h) Hp); reflexivity.
    + apply (covered_same _ p _ Hp); reflexivity.
  - injection H as <-. apply (covered_same _ p _ Hp); reflexivity.
  - injection H as <-. apply (covered_grow _ p _ (eDirty_Resources h) Hp); reflexivity.
  - destruct (Reset_run h dev p) as (q & Hq & Hmask & _). rewrite Hq in H.
    injection H as <-. intros _. rewrite Hmask. apply Resources_within_All.
  - rewrite BeginConstantUpdate_run in H.
    destruct (has (m_flags p) _).
    + destruct (IsDirty dev p).
      * destruct (Compile h dev p) as [[[r q] t] |] eqn:Hc; [| discriminate].
        injection H as <-. apply covered_flag_clear.
        destruct (Compile_result h dev p r q t Hc) as (_ & Hflag & _). exact Hflag.
      * injection H as <-. apply (covered_same _ p _ Hp); reflexivity.
    + injection H as <-. exact Hp.
  - rewrite PrepareResourcesForUse_run, PrepareResourcesForUse_refresh_run in H.
    destruct (m_bPendingConstantUpdate p).
    + injection H as <-. apply (covered_same _ p _ Hp); reflexivity.
    + destruct (IsDirty dev p).
      * destruct (Compile h dev p) as [[[r q] t] |] eqn:Hc; [| discriminate].
        injection H as <-. apply covered_flag_clear.
        destruct (Compile_result h dev p r q t Hc) as (_ & Hflag & _). exact Hflag.
      * injection H as <-. exact Hp.
  - rewrite Dispatch_closed in H. injection H as <-. exact Hp.
  - destruct (Execute h dev p) as [[[u q] t] |] eqn:He; [| discriminate].
    injection H as <-. apply (covered_same _ p _ Hp).
    + exact (Execute_keeps_flag h dev p u q t He).
    + exact (Execute_keeps_mask h dev p u q t He).
Qed.

Lemma states_cover_invalidation h ops :
  forall p0 sts,
    invalidationCovered h p0 ->
    states h ops p0 = Some sts ->
    forall p, In p sts -> invalidationCovered h p.
Proof.
  induction ops as [| op ops IH]; intros p0 sts Hp0 Hsts p Hin.
  - injection Hsts as <-. destruct Hin as [<- | []]. exact Hp0.
  - cbn [states] in Hsts.
    destruct (after h op p0) as [p1 |] eqn:Hstep; [| discriminate].
    destruct (states h ops p1) as [l |] eqn:Hl; [| discriminate].
    injection Hsts as <-. destruct Hin as [<- | Hin]; [exact Hp0 |].
    exact (IH p1 l (step_covers_invalidation h op p0 p1 Hstep Hp0) Hl p Hin).
Qed.

Lemma reachable_covers_invalidation h p : reachable h p -> invalidationCovered h p.
Proof.
  intros (dev & self & callback & flags & ops & sts & Hsts & Hin).
  apply (states_cover_invalidation h ops (newComputeRenderPass h dev self callback flags)
           sts); [| exact Hsts | exact Hin].
  apply covered_flag_clear. reflexivity.
Qed.

(** C2: in every state a pass can be in (a constructed pass after any
    sequence of operations) in which Compile does not dereference a null
    resource set, Compile returns, and when one of its calls fails (in
    particular when the Update of the resource set returns false) the dirty
    mask of the pass is what it was before the call, the mask Compile returns
    is that same mask, and it is not None; so the Dispatch that follows issues
    no backend call, whether or not the caller has stored the returned mask. *)
Theorem failed_Compile_leaves_dirty_mask_unchanged (h : Header) (dev : Device)
    (p : CComputeRenderPass) :
  reachable h p ->
  resourceSetReady h p = true ->
  exists r p' t,
    Compile h dev p = Some (r, p', t) /\
    ((exists flags, In (Call_Update flags false) t) -> existsb call_failed t = true) /\
    (existsb call_failed t = true ->
     m_dirtyMask p' = m_dirtyMask p /\
     r = m_dirtyMask p /\
     m_dirtyMask p <> eDirty_None /\
     Dispatch p' = Some (tt, p', []) /\
     Dispatch (set_m_dirtyMask r p') = Some (tt, set_m_dirtyMask r p', [])).
Proof.
  intros Hreach Hready.
  pose proof (reachable_covers_invalidation h p Hreach) as Hcovered.
  destruct (Compile_returns h dev p Hready) as (r & p' & t & H).
  exists r, p', t. split; [exact H |]. split.
  { intros (flags & Hin). apply existsb_exists.
    exists (Call_Update flags false). split; [exact Hin | reflexivity]. }
  intros Hfail.
  destruct (Compile_result h dev p r p' t H)
    as (Hmask & _ & [(_ & Hr & Hnz & _) | (Hok & _)]); [| congruence].
  assert (Hsame : r = m_dirtyMask p).
  { rewrite Hr. destruct (m_bResourcesInvalidated p) eqn:Hflag.
    - apply workingMask_resources_dirty. apply Hcovered. exact Hflag.
    - apply workingMask_flag_clear. exact Hflag. }
  split; [exact Hmask |]. split; [exact Hsame |].
  split; [rewrite <- Hsame; exact Hnz |].
  split.
  - apply Dispatch_dirty. rewrite Hmask, <- Hsame. exact Hnz.
  - apply Dispatch_dirty. exact Hnz.
Qed.

Lemma failed_Compile_leaves_dirty_mask_unchanged_witness :
  exists r p' t,
    Compile header0 deviceUpdateFails passInvalidated = Some (r, p', t) /\
    existsb call_failed t = true /\
    m_dirtyMask passInvalidated = eDirty_Resources header0 /\
    m_dirtyMask p' = m_dirtyMask passInvalidated /\
    r = m_dirtyMask passInvalidated /\
    Dispatch p' = Some (tt, p', []).
Proof.
  assert (Hreach : reachable header0 passInvalidated).
  { exists deviceOk, 1, 2, 1,
      [Op_PrepareResourcesForUse deviceOk; Op_OnResourceInvalidated 0],
      [pass0; passCompiled; passInvalidated].
    split; [vm_compute; reflexivity | vm_compute; tauto]. }
  destruct (failed_Compile_leaves_dirty_mask_unchanged header0 deviceUpdateFails
              passInvalidated Hreach eq_refl)
    as (r & p' & t & Hrun & _ & Hfail).
  exists r, p', t. split; [exact Hrun |].
  assert (Hf : existsb call_failed t = true).
  { vm_compute in Hrun. injection Hrun as <- <- <-. reflexivity. }
  split; [exact Hf |]. split; [reflexivity |].
  destruct (Hfail Hf) as (Hmask & Hr & _ & Hdispatch & _).
  split; [exact Hmask |]. split; [exact Hr | exact Hdispatch].
Defined.

(** * Further properties *)

(** ** Compile: what each dirty bit rebuilds *)

Lemma has_lor_mono (mask more bits : N) :
  has mask bits = true -> has (N.lor mask more) bits = true.
Proof.
  unfold has. intros H. apply negb_true_iff in H. apply N.eqb_neq in H.
  apply negb_true_iff. apply N.eqb_neq. intros H0. apply H.
  apply N.bits_inj. intros n. rewrite N.bits_0, N.land_spec.
  assert (Hn : N.testbit (N.land (N.lor mask more) bits) n = false)
    by (rewrite H0; apply N.bits_0).
  rewrite N.land_spec, N.lor_spec in Hn.
  destruct (N.testbit mask n), (N.testbit bits n); try reflexivity; discriminate.
Qed.

Lemma has_workingMask h p bits :
  has (m_dirtyMask p) bits = true -> has (workingMask h p) bits = true.
Proof. apply has_lor_mono. Qed.

(** When Resources is the only dirty bit Compile works from, Compile makes one
    call, the Update of the resource set with the Resources and ResourceLayout
    bits of that mask, and rebuilds nothing else: layout, pipeline state, its
    update counter and the constant manager are the ones the pass had.  It
    returns None exactly when Update succeeded. *)
Theorem Compile_with_only_Resources_dirty_only_updates (h : Header) (dev : Device)
    (p : CComputeRenderPass) (rs : CDeviceResourceSet) :
  has (workingMask h p) (eDirty_Resources h) = true ->
  has (workingMask h p) (N.lor (eDirty_Technique h) (eDirty_ResourceLayout h)) = false ->
  m_pResourceSet p = Some rs ->
  let flags :=
    N.land (workingMask h p) (N.lor (eDirty_Resources h) (eDirty_ResourceLayout h)) in
  let updated := ResourceSet_Update dev rs (m_resourceDesc p) flags in
  exists p',
    Compile h dev p
    = Some (if snd updated then eDirty_None else workingMask h p, p',
            [Call_Update flags (snd updated)]) /\
    m_pResourceSet p' = Some (fst updated) /\
    m_pResourceLayout p' = m_pResourceLayout p /\
    m_pPipelineState p' = m_pPipelineState p /\
    m_currentPsoUpdateCount p' = m_currentPsoUpdateCount p /\
    m_constantManager p' = m_constantManager p /\
    m_bCompiled p' = snd updated.
Proof.
  intros Hres Hrest Hrs flags updated. subst flags updated.
  destruct (Compile h dev p) as [[[r p'] t] |] eqn:H.
  - compile_exits H; try congruence; injection Hrs as <-;
      match goal with
      | Hu : snd _ = _ |- _ => rewrite Hu
      end;
      (eexists; split; [reflexivity |]); repeat split.
  - apply Compile_faults_iff in H. unfold resourceSetReady in H.
    rewrite Hrs, orb_true_r in H. discriminate.
Qed.

Lemma Compile_with_only_Resources_dirty_only_updates_witness :
  exists p',
    Compile header0 deviceOk passInvalidated
    = Some (eDirty_None, p', [Call_Update 2 true]) /\
    m_pResourceLayout p' = m_pResourceLayout passInvalidated /\
    m_pPipelineState p' = m_pPipelineState passInvalidated.
Proof.
  destruct (Compile_with_only_Resources_dirty_only_updates header0 deviceOk
              passInvalidated {| rs_flags := 1; rs_contents := 1 |}
              eq_refl eq_refl eq_refl)
    as (p' & Hrun & _ & Hlayout & Hpso & _).
  exists p'. split; [exact Hrun |]. split; assumption.
Defined.

Lemma has_none (bits : N) : has eDirty_None bits = false.
Proof. reflexivity. Qed.

(** On a pass with nothing dirty Compile reaches none of its blocks: it makes
    no call and only sets the compiled flag, also when the resource set
    pointer is null. *)
Lemma Compile_clean_run h dev p :
  m_dirtyMask p = eDirty_None ->
  m_bResourcesInvalidated p = false ->
  Compile h dev p = Some (eDirty_None, set_m_bCompiled true (onEntry p), []).
Proof.
  intros Hmask Hflag.
  assert (Hwm : workingMask h p = eDirty_None)
    by (unfold workingMask; rewrite Hmask, Hflag; reflexivity).
  rewrite Compile_run, Hwm, Compile_resourceSet_run, has_none.
  rewrite Compile_resourceLayout_run, has_none.
  rewrite Compile_pipelineState_run, has_none.
  reflexivity.
Qed.

Lemma onEntry_compiled_pass p :
  m_bCompiled p = true ->
  m_bResourcesInvalidated p = false ->
  set_m_bCompiled true (onEntry p) = p.
Proof.
  destruct p. cbn. intros -> ->. reflexivity.
Qed.

(** Compile is idempotent: once a Compile has succeeded and its result has
    been stored in the dirty mask, a second Compile, on any device, makes no
    call and leaves the pass exactly as it is. *)
Theorem Compile_after_successful_Compile_is_noop (h : Header) (dev dev' : Device)
    (p p1 : CComputeRenderPass) (t : list Call) :
  Compile h dev p = Some (eDirty_None, p1, t) ->
  Compile h dev' (set_m_dirtyMask eDirty_None p1)
  = Some (eDirty_None, set_m_dirtyMask eDirty_None p1, []).
Proof.
  intros H.
  destruct (Compile_result h dev p _ p1 t H)
    as (_ & Hflag & [(_ & _ & Hnz & _) | (_ & _ & Hcompiled)]); [congruence |].
  rewrite Compile_clean_run by (try reflexivity; exact Hflag).
  rewrite onEntry_compiled_pass; [reflexivity | exact Hcompiled | exact Hflag].
Qed.

Lemma Compile_after_successful_Compile_is_noop_witness :
  Compile header0 deviceLayoutFails passCompiled = Some (eDirty_None, passCompiled, []).
Proof.
  assert (Hfirst : exists t, Compile header0 deviceOk pass0
                             = Some (eDirty_None, set_m_dirtyMask 7 passCompiled, t)).
  { eexists. vm_compute. reflexivity. }
  destruct Hfirst as (t & Hfirst).
  exact (Compile_after_successful_Compile_is_noop header0 deviceOk deviceLayoutFails
           pass0 (set_m_dirtyMask 7 passCompiled) t Hfirst).
Defined.

(** Compile never creates a pipeline state against a stale or null layout:
    every PSO description it hands to the factory carries the layout that the
    same Compile has just created, together with the shader, technique and
    render-target mask of the pass, and the pass ends up holding that layout
    and the answer of the factory. *)
Theorem Compile_creates_PSO_from_fresh_layout (h : Header) (dev : Device)
    (p : CComputeRenderPass) :
  resourceSetReady h p = true ->
  exists r p' t,
    Compile h dev p = Some (r, p', t) /\
    forall desc result,
      In (Call_CreateComputePSO desc result) t ->
      exists layout,
        In (Call_CreateResourceLayout (layoutDescOf h dev p) (Some layout)) t /\
        CreateResourceLayout dev (layoutDescOf h dev p) = Some layout /\
        pso_pResourceLayout desc = Some layout /\
        pso_pShader desc = m_pShader p /\
        pso_technique desc = m_techniqueName p /\
        pso_rtFlags desc = m_rtMask p /\
        result = CreateComputePSO dev desc /\
        m_pResourceLayout p' = Some layout /\
        m_pPipelineState p' = result.
Proof.
  intros Hready.
  destruct (Compile_returns h dev p Hready) as (r & p' & t & H).
  exists r, p', t. split; [exact H |].
  intros desc result.
  compile_exits H; try congruence; at_exit; intros Hin;
    repeat match goal with
           | Hor : _ \/ _ |- _ => destruct Hor as [Hor | Hor]
           | Heq : _ = Call_CreateComputePSO _ _ |- _ =>
               first [discriminate Heq | injection Heq as <- <-]
           | Hf : False |- _ => destruct Hf
           end;
    match goal with
    | Hl : CreateResourceLayout _ _ = Some ?c |- _ =>
        exists c; repeat split; try reflexivity; try assumption;
        try (symmetry; assumption); cbn; tauto
    end.
Qed.

Lemma Compile_creates_PSO_from_fresh_layout_witness :
  exists r p' t desc,
    Compile header0 deviceOk pass0 = Some (r, p', t) /\
    In (Call_CreateComputePSO desc (Some validPSO)) t /\
    pso_pResourceLayout desc = Some 7 /\
    m_pResourceLayout p' = Some 7.
Proof.
  destruct (Compile_creates_PSO_from_fresh_layout header0 deviceOk pass0 eq_refl)
    as (r & p' & t & Hrun & Hpso).
  exists r, p', t, (psoDescOf (set_m_pResourceLayout (Some 7) pass0)).
  split; [exact Hrun |].
  assert (Hin : In (Call_CreateComputePSO
                      (psoDescOf (set_m_pResourceLayout (Some 7) pass0))
                      (Some validPSO)) t).
  { vm_compute in Hrun. injection Hrun as _ _ <-. vm_compute. tauto. }
  split; [exact Hin |].
  destruct (Hpso _ _ Hin) as (layout & _ & _ & Hlayout & _ & _ & _ & _ & Hheld & _).
  split; [reflexivity |].
  rewrite Hheld. rewrite <- Hlayout. reflexivity.
Defined.

(** ** No dispatch against a missing artifact *)

Lemma tracked_same h p p' :
  artifactsTracked h p ->
  m_dirtyMask p' = m_dirtyMask p ->
  m_pResourceSet p' = m_pResourceSet p ->
  m_pResourceLayout p' = m_pResourceLayout p ->
  m_pPipelineState p' = m_pPipelineState p ->
  artifactsTracked h p'.
Proof.
  unfold artifactsTracked. intros (Hrs & Hlayout & Hpso) -> -> -> ->. auto.
Qed.

Lemma tracked_grow h p p' more :
  artifactsTracked h p ->
  m_dirtyMask p' = N.lor (m_dirtyMask p) more ->
  m_pResourceSet p' = m_pResourceSet p ->
  m_pResourceLayout p' = m_pResourceLayout p ->
  m_pPipelineState p' = m_pPipelineState p ->
  artifactsTracked h p'.
Proof.
  unfold artifactsTracked. intros (Hrs & Hlayout & Hpso) -> -> -> ->.
  repeat split; intros Hmissing; apply has_lor_mono; auto.
Qed.

(** Compile followed by the store of its result, as both callers do it, keeps
    every missing artifact covered by a dirty bit. *)
Lemma Compile_tracks_artifacts h dev p r q t :
  Compile h dev p = Some (r, q, t) ->
  artifactsTracked h p ->
  artifactsTracked h (set_m_dirtyMask r q).
Proof.
  intros H (Hrs & Hlayout & Hpso).
  assert (Hrs' : m_pResourceSet p = None ->
                 has (workingMask h p) (eDirty_Resources h) = true)
    by (intros Hm; apply has_workingMask; auto).
  assert (Hlayout' : m_pResourceLayout p = None ->
                     has (workingMask h p)
                       (N.lor (eDirty_Technique h) (eDirty_ResourceLayout h)) = true)
    by (intros Hm; apply has_workingMask; auto).
  assert (Hpso' : psoUsable (m_pPipelineState p) = false ->
                  has (workingMask h p)
                    (N.lor (eDirty_Technique h) (eDirty_ResourceLayout h)) = true)
    by (intros Hm; apply has_workingMask; auto).
  clear Hrs Hlayout Hpso. unfold artifactsTracked.
  compile_exits H; try congruence;
    cbn [m_dirtyMask m_pResourceSet m_pResourceLayout m_pPipelineState
         set_m_dirtyMask set_m_bCompiled set_m_constantManager
         set_m_currentPsoUpdateCount set_m_pPipelineState set_m_pResourceLayout
         set_m_pResourceSet set_m_bResourcesInvalidated onEntry psoUsable];
    repeat split; intros Hmissing;
    try discriminate Hmissing;
    auto;
    try (exfalso;
         first [ specialize (Hrs' Hmissing) | specialize (Hlayout' Hmissing)
               | specialize (Hpso' Hmissing) ];
         congruence);
    try congruence.
Qed.

Lemma tracked_clean h p :
  artifactsTracked h p ->
  m_dirtyMask p = eDirty_None ->
  exists rs layout pso,
    m_pResourceSet p = Some rs /\ m_pResourceLayout p = Some layout /\
    m_pPipelineState p = Some pso /\ IsValid pso = true.
Proof.
  intros (Hrs & Hlayout & Hpso) Hmask. rewrite Hmask, !has_none in *.
  destruct (m_pResourceSet p) as [rs |]; [| specialize (Hrs eq_refl); discriminate].
  destruct (m_pResourceLayout p) as [layout |];
    [| specialize (Hlayout eq_refl); discriminate].
  destruct (m_pPipelineState p) as [pso |]; [| specialize (Hpso eq_refl); discriminate].
  cbn in Hpso. destruct (IsValid pso) eqn:Hvalid;
    [| specialize (Hpso eq_refl); discriminate].
  exists rs, layout, pso. repeat split. exact Hvalid.
Qed.

Lemma Execute_keeps_artifacts h dev p u p' t :
  Execute h dev p = Some (u, p', t) ->
  m_pResourceSet p' = m_pResourceSet p /\
  m_pResourceLayout p' = m_pResourceLayout p /\
  m_pPipelineState p' = m_pPipelineState p.
Proof.
  unfold Execute. destruct (Scheduler_IsActive dev).
  - intros H. injection H as _ <- _. auto.
  - unfold BeginRenderPass, EndRenderPass.
    destruct (ENABLE_PROFILING_CODE h); unfold bind, call, ret, assign;
      cbv beta iota; rewrite Dispatch_closed;
      intros H; injection H as _ <- _; auto.
Qed.

Lemma All_has_Resources h :
  eDirty_Resources h <> 0 -> has (eDirty_All h) (eDirty_Resources h) = true.
Proof.
  intros Hr. unfold eDirty_All. rewrite N.lor_comm. apply has_lor_self. exact Hr.
Qed.

Lemma All_has_Technique_or_Layout h :
  N.lor (eDirty_Technique h) (eDirty_ResourceLayout h) <> 0 ->
  has (eDirty_All h) (N.lor (eDirty_Technique h) (eDirty_ResourceLayout h)) = true.
Proof. intros Hr. unfold eDirty_All. apply has_lor_self. exact Hr. Qed.

Lemma step_tracks_artifacts h op p p' :
  eDirty_Resources h <> 0 ->
  N.lor (eDirty_Technique h) (eDirty_ResourceLayout h) <> 0 ->
  defined_in_source op = true ->
  after h op p = Some p' ->
  artifactsTracked h p ->
  artifactsTracked h p'.
Proof.
  intros HR HTL. unfold after.
  destruct op; cbn [perform defined_in_source]; intros Hop H Htracked;
    try discriminate Hop.
  - injection H as <-.
    apply (tracked_grow _ p _ (eDirty_Resources h) Htracked); reflexivity.
  - destruct (Reset_run h dev p) as (q & Hq & Hmask & _). rewrite Hq in H.
    injection H as <-. unfold artifactsTracked. rewrite Hmask.
    auto using All_has_Resources, All_has_Technique_or_Layout.
  - rewrite BeginConstantUpdate_run in H.
    destruct (has (m_flags p) _).
    + destruct (IsDirty dev p).
      * destruct (Compile h dev p) as [[[r q] t] |] eqn:Hc; [| discriminate].
        injection H as <-.
        apply (tracked_same _ (set_m_dirtyMask r q));
          [exact (Compile_tracks_artifacts h dev p r q t Hc Htracked) | reflexivity ..].
      * injection H as <-. apply (tracked_same _ p _ Htracked); reflexivity.
    + injection H as <-. exact Htracked.
  - rewrite PrepareResourcesForUse_run, PrepareResourcesForUse_refresh_run in H.
    destruct (m_bPendingConstantUpdate p).
    + injection H as <-. apply (tracked_same _ p _ Htracked); reflexivity.
    + destruct (IsDirty dev p).
      * destruct (Compile h dev p) as [[[r q] t] |] eqn:Hc; [| discriminate].
        injection H as <-. exact (Compile_tracks_artifacts h dev p r q t Hc Htracked).
      * injection H as <-. exact Htracked.
  - rewrite Dispatch_closed in H. injection H as <-. exact Htracked.
  - destruct (Execute h dev p) as [[[u q] t] |] eqn:He; [| discriminate].
    injection H as <-.
    destruct (Execute_keeps_artifacts h dev p u q t He) as (Hrs & Hlayout & Hpso).
    apply (tracked_same _ p _ Htracked); try assumption.
    exact (Execute_keeps_mask h dev p u q t He).
Qed.

Lemma states_track_artifacts h ops :
  eDirty_Resources h <> 0 ->
  N.lor (eDirty_Technique h) (eDirty_ResourceLayout h) <> 0 ->
  forallb defined_in_source ops = true ->
  forall p0 sts,
    artifactsTracked h p0 ->
    states h ops p0 = Some sts ->
    forall p, In p sts -> artifactsTracked h p.
Proof.
  intros HR HTL. induction ops as [| op ops IH]; intros Hops p0 sts Htracked Hsts p Hin.
  - injection Hsts as <-. destruct Hin as [<- | []]. exact Htracked.
  - cbn [states] in Hsts. cbn [forallb] in Hops.
    apply andb_true_iff in Hops. destruct Hops as (Hop & Hops).
    destruct (after h op p0) as [p1 |] eqn:Hstep; [| discriminate].
    destruct (states h ops p1) as [l |] eqn:Hl; [| discriminate].
    injection Hsts as <-. destruct Hin as [<- | Hin]; [exact Htracked |].
    exact (IH Hops p1 l (step_tracks_artifacts h op p0 p1 HR HTL Hop Hstep Htracked)
             Hl p Hin).
Qed.

(** A constructed pass has every missing artifact covered by a dirty bit, and
    every operation of ComputeRenderPass.cpp keeps it so.  Hence along any
    sequence of these operations on a constructed pass, whenever the dirty
    mask is None (the only case in which Dispatch emits) the resource set and
    the resource layout are non-null and the pipeline state is a valid object,
    and these are what Dispatch binds. *)
Theorem Dispatch_only_binds_compiled_artifacts (h : Header) :
  eDirty_Resources h <> 0 ->
  N.lor (eDirty_Technique h) (eDirty_ResourceLayout h) <> 0 ->
  (forall dev self callback flags,
     artifactsTracked h (newComputeRenderPass h dev self callback flags)) /\
  (forall ops p0 sts,
     forallb defined_in_source ops = true ->
     artifactsTracked h p0 ->
     states h ops p0 = Some sts ->
     forall p,
       In p sts ->
       m_dirtyMask p = eDirty_None ->
       exists rs layout pso rest,
         IsValid pso = true /\
         Dispatch p
         = Some (tt, p,
                 Cmd_SetResourceLayout (Some layout)
                 :: Cmd_SetPipelineState (Some pso)
                 :: Cmd_SetResources 0 (Some rs) :: rest)).
Proof.
  intros HR HTL. split.
  - intros dev self callback flags. unfold artifactsTracked.
    cbn [m_dirtyMask newComputeRenderPass].
    auto using All_has_Resources, All_has_Technique_or_Layout.
  - intros ops p0 sts Hops Htracked Hsts p Hin Hclean.
    pose proof (states_track_artifacts h ops HR HTL Hops p0 sts Htracked Hsts p Hin) as Hp.
    destruct (tracked_clean h p Hp Hclean) as (rs & layout & pso & Hrs & Hlayout & Hpso & Hvalid).
    exists rs, layout, pso. eexists. split; [exact Hvalid |].
    rewrite Dispatch_closed, Hclean, Hrs, Hlayout, Hpso. reflexivity.
Qed.

Lemma Dispatch_only_binds_compiled_artifacts_witness :
  exists p rs layout pso rest,
    In p sessionStates /\
    m_dirtyMask p = eDirty_None /\
    IsValid pso = true /\
    Dispatch p
    = Some (tt, p,
            Cmd_SetResourceLayout (Some layout)
            :: Cmd_SetPipelineState (Some pso)
            :: Cmd_SetResources 0 (Some rs) :: rest).
Proof.
  assert (HR : eDirty_Resources header0 <> 0) by discriminate.
  assert (HTL : N.lor (eDirty_Technique header0) (eDirty_ResourceLayout header0) <> 0)
    by discriminate.
  destruct (Dispatch_only_binds_compiled_artifacts header0 HR HTL) as (Hfresh & Hruns).
  assert (Hin : In passCompiled sessionStates).
  { vm_compute. tauto. }
  assert (Hstates : states header0 sessionOps pass0 = Some sessionStates).
  { vm_compute. reflexivity. }
  destruct (Hruns sessionOps pass0 sessionStates eq_refl (Hfresh deviceOk 1 2 1) Hstates
              passCompiled Hin eq_refl)
    as (rs & layout & pso & rest & Hvalid & Hdispatch).
  exists passCompiled, rs, layout, pso, rest.
  split; [exact Hin |]. split; [reflexivity |]. split; assumption.
Defined.

(** ** BeginConstantUpdate, PrepareResourcesForUse and Execute together *)

Lemma Compile_only_compile_calls h dev p r p' t :
  Compile h dev p = Some (r, p', t) -> forallb is_compile_call t = true.
Proof.
  intros H. compile_exits H; try congruence; at_exit; reflexivity.
Qed.

Lemma filter_disjoint (P Q : Call -> bool) (t : list Call) :
  forallb P t = true ->
  (forall c, P c = true -> Q c = false) ->
  filter Q t = [].
Proof.
  intros Hall Hdisjoint. induction t as [| c t IH]; [reflexivity |].
  cbn in Hall. apply andb_true_iff in Hall. destruct Hall as (Hc & Ht).
  cbn. rewrite (Hdisjoint c Hc). auto.
Qed.

Lemma compile_call_not_begin_update c : is_compile_call c = true -> is_begin_update c = false.
Proof. destruct c; cbn; congruence. Qed.

Lemma backend_call_not_compile_call c : is_backend_call c = true -> is_compile_call c = false.
Proof. destruct c; cbn; congruence. Qed.

(** BeginConstantUpdate on a pass that reflects its constant buffers, followed
    by PrepareResourcesForUse: the first ends with the one call that opens the
    constant update and leaves it pending; the second starts with the one call
    that closes it, clears the pending flag and never compiles, whatever
    IsDirty says, so it leaves the dirty mask as BeginConstantUpdate left it
    (a Compile that failed there is not retried here) and issues prepare calls
    exactly when that mask is None. *)
Theorem BeginConstantUpdate_then_Prepare_brackets_one_update (h : Header)
    (dev dev' : Device) (p : CComputeRenderPass) :
  has (m_flags p) (eFlags_ReflectConstantBuffersFromShader h) = true ->
  resourceSetReady h p = true ->
  exists p1 t1 p2 t2,
    BeginConstantUpdate h dev p = Some (tt, p1, t1) /\
    m_bPendingConstantUpdate p1 = true /\
    (exists before,
       t1 = before ++ [Call_BeginNamedConstantUpdate] /\
       filter is_begin_update before = []) /\
    filter is_backend_call t1 = [] /\
    PrepareResourcesForUse h dev' p1 = Some (tt, p2, t2) /\
    m_bPendingConstantUpdate p2 = false /\
    m_dirtyMask p2 = m_dirtyMask p1 /\
    filter is_compile_call t2 = [] /\
    exists cmds,
      t2 = Call_EndNamedConstantUpdate :: cmds /\
      forallb is_backend_call cmds = true /\
      (cmds <> [] <-> m_dirtyMask p1 = eDirty_None).
Proof.
  intros Hflag Hready.
  assert (Hbegin : exists q before,
            BeginConstantUpdate h dev p
            = Some (tt,
                    set_m_constantManager
                      (BeginNamedConstantUpdate dev (m_constantManager q))
                      (set_m_bPendingConstantUpdate true q),
                    before ++ [Call_BeginNamedConstantUpdate]) /\
            forallb is_compile_call before = true).
  { rewrite BeginConstantUpdate_run, Hflag. destruct (IsDirty dev p).
    - destruct (Compile_returns h dev p Hready) as (r & q & t & Hc). rewrite Hc.
      exists (set_m_dirtyMask r q), t. split; [reflexivity |].
      exact (Compile_only_compile_calls h dev p r q t Hc).
    - exists p, []. split; reflexivity. }
  destruct Hbegin as (q & before & Hbegin & Hbefore).
  eexists _, _, _, _. split; [exact Hbegin |].
  split; [reflexivity |]. split.
  { exists before. split; [reflexivity |].
    apply (filter_disjoint is_compile_call); [exact Hbefore |].
    exact compile_call_not_begin_update. }
  split.
  { rewrite filter_app.
    rewrite (filter_disjoint is_compile_call is_backend_call before Hbefore).
    - reflexivity.
    - intros c Hc. destruct c; cbn in *; congruence. }
  rewrite PrepareResourcesForUse_run, PrepareResourcesForUse_refresh_run.
  cbn [m_bPendingConstantUpdate set_m_constantManager set_m_bPendingConstantUpdate
       m_dirtyMask app].
  split; [reflexivity |]. split; [reflexivity |]. split; [reflexivity |].
  destruct (N.eqb_spec (m_dirtyMask q) eDirty_None) as [Hclean | Hdirty].
  - split.
    + cbn [filter is_compile_call].
      apply (filter_disjoint is_backend_call).
      * cbn [forallb is_backend_call andb]. apply numbered_all. reflexivity.
      * exact backend_call_not_compile_call.
    + eexists. split; [reflexivity |]. split.
      * cbn [forallb is_backend_call andb]. apply numbered_all. reflexivity.
      * split; [intros _; exact Hclean | intros _; discriminate].
  - split; [reflexivity |]. exists []. split; [reflexivity |]. split; [reflexivity |].
    split; [intros Hne; contradiction | intros Hclean; contradiction].
Qed.

Lemma BeginConstantUpdate_then_Prepare_brackets_one_update_witness :
  exists p1 t1 p2 t2,
    BeginConstantUpdate header0 deviceLayoutFails pass0 = Some (tt, p1, t1) /\
    m_dirtyMask p1 = 7 /\
    PrepareResourcesForUse header0 deviceOk p1 = Some (tt, p2, t2) /\
    IsDirty deviceOk p1 = true /\
    t2 = [Call_EndNamedConstantUpdate] /\
    m_dirtyMask p2 = 7.
Proof.
  destruct (BeginConstantUpdate_then_Prepare_brackets_one_update header0
              deviceLayoutFails deviceOk pass0 eq_refl eq_refl)
    as (p1 & t1 & p2 & t2 & Hbegin & _ & _ & _ & Hprepare & _ & Hmask & _ & cmds & Ht2
        & _ & Hcmds).
  exists p1, t1, p2, t2.
  assert (Hp1 : m_dirtyMask p1 = 7).
  { vm_compute in Hbegin. injection Hbegin as <- _. reflexivity. }
  split; [exact Hbegin |]. split; [exact Hp1 |]. split; [exact Hprepare |].
  split; [vm_compute in Hbegin; injection Hbegin as <- _; reflexivity |].
  split; [| rewrite Hmask; exact Hp1].
  rewrite Ht2. f_equal. destruct cmds as [| c cmds]; [reflexivity |].
  assert (Hnone : m_dirtyMask p1 = eDirty_None) by (apply Hcmds; discriminate).
  rewrite Hp1 in Hnone. discriminate.
Defined.

Lemma Dispatch_commands p :
  exists cmds,
    Dispatch p = Some (tt, p, cmds) /\
    forallb is_backend_call cmds = true /\
    filter is_begin_profiling cmds = [] /\
    filter is_end_profiling cmds = [].
Proof.
  eexists. split; [apply Dispatch_closed |].
  destruct (m_dirtyMask p =? eDirty_None); [| repeat split].
  split; [| split].
  - rewrite !forallb_app, numbered_all by reflexivity. reflexivity.
  - rewrite !filter_app, numbered_none by reflexivity. reflexivity.
  - rewrite !filter_app, numbered_none by reflexivity. reflexivity.
Qed.

(** Execute hands the pass to an active scheduler and touches neither the pass
    nor the command list, even when the pass is compiled.  Otherwise its
    commands are exactly those of Dispatch, inside one profiling section when
    profiling is compiled in.  It never compiles and never writes the dirty
    mask. *)
Theorem Execute_defers_or_dispatches (h : Header) (dev : Device) (p : CComputeRenderPass) :
  exists p' t cmds,
    Execute h dev p = Some (tt, p', t) /\
    Dispatch p = Some (tt, p, cmds) /\
    filter is_compile_call t = [] /\
    m_dirtyMask p' = m_dirtyMask p /\
    (Scheduler_IsActive dev = true -> p' = p /\ t = [Call_AddPass]) /\
    (Scheduler_IsActive dev = false ->
     length (filter is_begin_profiling t) = length (filter is_end_profiling t) /\
     (ENABLE_PROFILING_CODE h = false -> p' = p /\ t = cmds) /\
     (ENABLE_PROFILING_CODE h = true ->
      t = Cmd_BeginProfilingSection :: cmds
          ++ [Cmd_EndProfilingSection; Call_ProfilingStats_Merge])).
Proof.
  destruct (Dispatch_commands p) as (cmds & Hdispatch & Hbackend & Hnobegin & Hnoend).
  assert (Hquiet : filter is_compile_call cmds = [])
    by (apply (filter_disjoint is_backend_call);
        [exact Hbackend | exact backend_call_not_compile_call]).
  unfold Execute, BeginRenderPass, EndRenderPass.
  destruct (Scheduler_IsActive dev).
  - exists p, [Call_AddPass], cmds. split; [reflexivity |].
    split; [exact Hdispatch |]. split; [reflexivity |]. split; [reflexivity |].
    split; [auto | discriminate].
  - destruct (ENABLE_PROFILING_CODE h); unfold bind, call, ret, assign;
      cbv beta iota; rewrite Hdispatch.
    + eexists _, _, cmds. split; [reflexivity |]. split; [reflexivity |].
      cbn [app]. split.
      { cbn [filter is_compile_call]. rewrite filter_app, Hquiet. reflexivity. }
      split; [reflexivity |]. split; [discriminate |]. intros _. split.
      { cbn [filter is_begin_profiling is_end_profiling].
        rewrite !filter_app, Hnobegin, Hnoend. reflexivity. }
      split; [discriminate | reflexivity].
    + exists p, cmds, cmds. cbn [app]. rewrite app_nil_r.
      split; [reflexivity |]. split; [reflexivity |]. split; [exact Hquiet |].
      split; [reflexivity |]. split; [discriminate |]. intros _.
      split; [rewrite Hnobegin, Hnoend; reflexivity |].
      split; [auto | discriminate].
Qed.

(** ** Null resource set: where it comes from and where it cannot *)

Lemma Reset_leaves_empty_pass h dev p :
  exists p',
    Reset h dev p
    = Some (tt, p', [Call_ResourceSetDesc_Clear; Call_ConstantManager_Reset;
                     Call_ProfilingStats_Reset]) /\
    m_flags p' = eFlags_None /\
    m_dirtyMask p' = eDirty_All h /\
    m_bPendingConstantUpdate p' = true /\
    m_pResourceSet p' = None.
Proof. eexists. split; [reflexivity |]. repeat split. Qed.

(** Reset releases the resource set and marks everything dirty, and nothing
    in the pass creates a resource set again: after Reset, Compile dereferences
    the null [m_pResourceSet] on any device.  BeginConstantUpdate does not get
    there (Reset cleared the pass flags, so it does nothing), and the first
    PrepareResourcesForUse only closes the pending update; the next
    PrepareResourcesForUse for which IsDirty holds does get there. *)
Theorem Compile_after_Reset_dereferences_null (h : Header) (devReset dev dev' : Device)
    (p : CComputeRenderPass) :
  eDirty_Resources h <> 0 ->
  exists p1 t1 p2 t2,
    Reset h devReset p = Some (tt, p1, t1) /\
    Compile h dev p1 = None /\
    BeginConstantUpdate h dev p1 = Some (tt, p1, []) /\
    PrepareResourcesForUse h dev p1 = Some (tt, p2, t2) /\
    Compile h dev' p2 = None /\
    BeginConstantUpdate h dev' p2 = Some (tt, p2, []) /\
    (IsDirty dev' p2 = true -> PrepareResourcesForUse h dev' p2 = None).
Proof.
  intros HR.
  assert (Hfault : forall d q,
            m_dirtyMask q = eDirty_All h -> m_pResourceSet q = None ->
            Compile h d q = None).
  { intros d q Hmask Hrs. apply Compile_faults_iff.
    unfold resourceSetReady. rewrite Hrs.
    rewrite has_workingMask; [reflexivity |].
    rewrite Hmask. apply All_has_Resources. exact HR. }
  destruct (Reset_leaves_empty_pass h devReset p)
    as (p1 & Hreset & Hflags & Hmask & Hpending & Hrs).
  exists p1, [Call_ResourceSetDesc_Clear; Call_ConstantManager_Reset;
              Call_ProfilingStats_Reset],
         (set_m_bPendingConstantUpdate false
            (set_m_constantManager (EndNamedConstantUpdate dev (m_constantManager p1)) p1)),
         [Call_EndNamedConstantUpdate].
  split; [exact Hreset |].
  split; [apply Hfault; assumption |].
  split; [rewrite BeginConstantUpdate_run, Hflags; reflexivity |].
  split.
  { rewrite PrepareResourcesForUse_run, PrepareResourcesForUse_refresh_run, Hpending.
    cbn [m_dirtyMask set_m_bPendingConstantUpdate set_m_constantManager].
    rewrite Hmask.
    destruct (eDirty_All h =? eDirty_None) eqn:Hall; [| reflexivity].
    apply N.eqb_eq in Hall. unfold eDirty_All, eDirty_None in Hall.
    apply N.lor_eq_0_iff in Hall. tauto. }
  assert (Hp2 : Compile h dev'
                  (set_m_bPendingConstantUpdate false
                     (set_m_constantManager
                        (EndNamedConstantUpdate dev (m_constantManager p1)) p1))
                = None)
    by (apply Hfault; assumption).
  split; [exact Hp2 |].
  split; [rewrite BeginConstantUpdate_run; cbn [m_flags set_m_bPendingConstantUpdate
            set_m_constantManager]; rewrite Hflags; reflexivity |].
  intros Hdirty.
  rewrite PrepareResourcesForUse_run, PrepareResourcesForUse_refresh_run.
  cbn [m_bPendingConstantUpdate set_m_bPendingConstantUpdate]. rewrite Hdirty, Hp2.
  reflexivity.
Qed.

Lemma Compile_after_Reset_dereferences_null_witness :
  exists p1 t1 p2 t2,
    Reset header0 deviceOk passCompiled = Some (tt, p1, t1) /\
    Compile header0 deviceOk p1 = None /\
    BeginConstantUpdate header0 deviceOk p1 = Some (tt, p1, []) /\
    PrepareResourcesForUse header0 deviceOk p1 = Some (tt, p2, t2) /\
    Compile header0 deviceOk p2 = None /\
    BeginConstantUpdate header0 deviceOk p2 = Some (tt, p2, []) /\
    (IsDirty deviceOk p2 = true -> PrepareResourcesForUse header0 deviceOk p2 = None).
Proof.
  apply (Compile_after_Reset_dereferences_null header0 deviceOk deviceOk deviceOk
           passCompiled).
  discriminate.
Defined.

Lemma Compile_keeps_resource_set h dev p r q t :
  Compile h dev p = Some (r, q, t) ->
  m_pResourceSet p <> None ->
  m_pResourceSet q <> None.
Proof.
  intros H Hrs. compile_exits H; try congruence;
    cbn [m_pResourceSet set_m_bCompiled set_m_constantManager
         set_m_currentPsoUpdateCount set_m_pPipelineState set_m_pResourceLayout
         set_m_pResourceSet set_m_bResourcesInvalidated onEntry];
    first [exact Hrs | discriminate].
Qed.

Lemma ready_with_resource_set h p : m_pResourceSet p <> None -> resourceSetReady h p = true.
Proof.
  unfold resourceSetReady. destruct (m_pResourceSet p); [intros _ | congruence].
  apply orb_true_r.
Qed.


Lemma Execute_defers_or_runs h dev p :
  exists q t,
    Execute h dev p = Some (tt, q, t) /\ m_pResourceSet q = m_pResourceSet p.
Proof.
  unfold Execute, BeginRenderPass, EndRenderPass.
  destruct (Scheduler_IsActive dev); [eexists _, _; split; reflexivity |].
  destruct (ENABLE_PROFILING_CODE h); unfold bind, call, ret, assign;
    cbv beta iota; rewrite Dispatch_closed; eexists _, _; split; reflexivity.
Qed.

Lemma step_keeps_resource_set h op p :
  defined_in_source op = true ->
  is_Reset op = false ->
  m_pResourceSet p <> None ->
  exists p', after h op p = Some p' /\ m_pResourceSet p' <> None.
Proof.
  unfold after.
  destruct op; cbn [perform is_Reset defined_in_source]; intros Hsrc Hop Hrs;
    try discriminate.
  - eexists. split; [reflexivity | exact Hrs].
  - rewrite BeginConstantUpdate_run.
    destruct (has (m_flags p) _); [| eexists; split; [reflexivity | exact Hrs]].
    destruct (IsDirty dev p); [| eexists; split; [reflexivity | exact Hrs]].
    destruct (Compile_returns h dev p (ready_with_resource_set h p Hrs))
      as (r & q & t & Hc).
    rewrite Hc. eexists. split; [reflexivity |].
    exact (Compile_keeps_resource_set h dev p r q t Hc Hrs).
  - rewrite PrepareResourcesForUse_run, PrepareResourcesForUse_refresh_run.
    destruct (m_bPendingConstantUpdate p); [eexists; split; [reflexivity | exact Hrs] |].
    destruct (IsDirty dev p); [| eexists; split; [reflexivity | exact Hrs]].
    destruct (Compile_returns h dev p (ready_with_resource_set h p Hrs))
      as (r & q & t & Hc).
    rewrite Hc. eexists. split; [reflexivity |].
    exact (Compile_keeps_resource_set h dev p r q t Hc Hrs).
  - rewrite Dispatch_closed. eexists. split; [reflexivity | exact Hrs].
  - destruct (Execute_defers_or_runs h dev p) as (q & t & He & Hq).
    rewrite He. eexists. split; [reflexivity |]. rewrite Hq. exact Hrs.
Qed.

(** Reset is the only operation of ComputeRenderPass.cpp that can lead to a
    null dereference: on a pass that holds a resource set (as a constructed
    pass does when the factory returned one), every sequence of the other
    operations (the invalidation callback, BeginConstantUpdate,
    PrepareResourcesForUse, Dispatch, Execute) runs to its end on any devices,
    and the pass holds a resource set all along. *)
Theorem operations_other_than_Reset_never_fault (h : Header) (ops : list Op)
    (p0 : CComputeRenderPass) :
  m_pResourceSet p0 <> None ->
  forallb (fun op => defined_in_source op && negb (is_Reset op)) ops = true ->
  exists sts,
    states h ops p0 = Some sts /\
    length sts = S (length ops) /\
    forall p, In p sts -> m_pResourceSet p <> None.
Proof.
  revert p0. induction ops as [| op ops IH]; intros p0 Hrs Hops.
  - exists [p0]. split; [reflexivity |]. split; [reflexivity |].
    intros p [<- | []]. exact Hrs.
  - cbn in Hops. apply andb_true_iff in Hops. destruct Hops as (Hop & Hops).
    apply andb_true_iff in Hop. destruct Hop as (Hsrc & Hop).
    apply negb_true_iff in Hop.
    destruct (step_keeps_resource_set h op p0 Hsrc Hop Hrs) as (p1 & Hstep & Hrs1).
    destruct (IH p1 Hrs1 Hops) as (l & Hl & Hlen & Hall).
    exists (p0 :: l). cbn [states]. rewrite Hstep, Hl.
    split; [reflexivity |]. split; [cbn; rewrite Hlen; reflexivity |].
    intros p [<- | Hin]; [exact Hrs | exact (Hall p Hin)].
Qed.

Lemma operations_other_than_Reset_never_fault_witness :
  exists sts,
    states header0 sessionOps pass0 = Some sts /\
    length sts = 6%nat /\
    forall p, In p sts -> m_pResourceSet p <> None.
Proof.
  apply (operations_other_than_Reset_never_fault header0 sessionOps pass0).
  - discriminate.
  - reflexivity.
Defined.

(** ** A device on which nothing fails *)

Lemma Compile_quiet_on_reliable_device h dev p r q t :
  factory_never_fails dev ->
  Compile h dev p = Some (r, q, t) ->
  existsb call_failed t = false.
Proof.
  intros (Hupdate & Hlayout & Hpso) Hc.
  pose proof Hc as H. compile_exits H; try congruence;
    try match goal with
        | E : snd (ResourceSet_Update _ ?rs ?d ?f) = false |- _ =>
            rewrite Hupdate in E; discriminate E
        | E : CreateResourceLayout _ ?d = None |- _ =>
            exfalso; exact (Hlayout d E)
        | E : CreateComputePSO _ ?d = None |- _ =>
            let U := fresh "U" in
            pose proof (Hpso d) as U; rewrite E in U; discriminate U
        | E : CreateComputePSO _ ?d = Some ?c, V : IsValid ?c = false |- _ =>
            let U := fresh "U" in
            pose proof (Hpso d) as U; rewrite E in U; cbn in U; congruence
        end;
    at_exit; reflexivity.
Qed.

Lemma Compile_keeps_dispatch_size h dev p r q t :
  Compile h dev p = Some (r, q, t) ->
  m_dispatchSizeX q = m_dispatchSizeX p /\
  m_dispatchSizeY q = m_dispatchSizeY p /\
  m_dispatchSizeZ q = m_dispatchSizeZ p.
Proof.
  intros H. compile_exits H; try congruence; repeat split.
Qed.

Lemma Compile_on_reliable_device h dev p :
  factory_never_fails dev ->
  m_pResourceSet p <> None ->
  exists q t,
    Compile h dev p = Some (eDirty_None, q, t) /\
    m_bCompiled q = true /\
    m_pResourceSet q <> None /\
    filter is_backend_call t = [] /\
    existsb call_failed t = false.
Proof.
  intros Hdev Hrs.
  destruct (Compile_returns h dev p (ready_with_resource_set h p Hrs)) as (r & q & t & Hc).
  pose proof (Compile_quiet_on_reliable_device h dev p r q t Hdev Hc) as Hquiet.
  destruct (Compile_result h dev p r q t Hc)
    as (_ & _ & [(Hf & _) | (_ & -> & Hcompiled)]); [congruence |].
  exists q, t. split; [exact Hc |]. split; [exact Hcompiled |].
  split; [exact (Compile_keeps_resource_set h dev p _ q t Hc Hrs) |].
  split; [exact (Compile_no_backend_call h dev p _ q t Hc) | exact Hquiet].
Qed.

(** Whatever earlier failures left in the dirty mask, one
    PrepareResourcesForUse that finds the pass dirty, on a device where no
    call of the compile pipeline fails, brings a pass that holds a resource
    set to a clean, compiled state: no call in its compile part fails, the
    prepare commands follow it, starting with the resource set at slot 0, and
    the Dispatch after it ends with a dispatch call of the configured size. *)
Theorem PrepareResourcesForUse_recovers_on_reliable_device (h : Header) (dev : Device)
    (p : CComputeRenderPass) :
  factory_never_fails dev ->
  m_pResourceSet p <> None ->
  m_bPendingConstantUpdate p = false ->
  IsDirty dev p = true ->
  exists p' t cmds cmds',
    PrepareResourcesForUse h dev p
    = Some (tt, p', t ++ Cmd_PrepareResourcesForUse 0 (m_pResourceSet p') :: cmds) /\
    filter is_backend_call t = [] /\
    existsb call_failed t = false /\
    forallb is_backend_call cmds = true /\
    m_dirtyMask p' = eDirty_None /\
    m_bCompiled p' = true /\
    m_pResourceSet p' <> None /\
    Dispatch p'
    = Some (tt, p',
            cmds' ++ [Cmd_Dispatch (m_dispatchSizeX p) (m_dispatchSizeY p)
                        (m_dispatchSizeZ p)]).
Proof.
  intros Hdev Hrs Hpending Hdirty.
  destruct (Compile_on_reliable_device h dev p Hdev Hrs)
    as (q & t & Hc & Hcompiled & Hrsq & Hnb & Hquiet).
  destruct (Compile_keeps_dispatch_size h dev p _ q t Hc) as (Hx & Hy & Hz).
  exists (set_m_dirtyMask eDirty_None q), t. eexists _, _.
  rewrite PrepareResourcesForUse_run, PrepareResourcesForUse_refresh_run.
  rewrite Hpending, Hdirty, Hc, Dispatch_closed.
  cbn [m_dirtyMask set_m_dirtyMask N.eqb eDirty_None].
  split; [reflexivity |]. split; [exact Hnb |]. split; [exact Hquiet |].
  split; [apply numbered_all; reflexivity |].
  split; [reflexivity |]. split; [exact Hcompiled |]. split; [exact Hrsq |].
  cbn [m_dispatchSizeX m_dispatchSizeY m_dispatchSizeZ set_m_dirtyMask].
  rewrite Hx, Hy, Hz, app_assoc. reflexivity.
Qed.

Lemma PrepareResourcesForUse_recovers_on_reliable_device_witness :
  exists p' t cmds cmds',
    PrepareResourcesForUse header0 deviceOk passLayoutDirty
    = Some (tt, p', t ++ Cmd_PrepareResourcesForUse 0 (m_pResourceSet p') :: cmds) /\
    filter is_backend_call t = [] /\
    existsb call_failed t = false /\
    forallb is_backend_call cmds = true /\
    m_dirtyMask p' = eDirty_None /\
    m_bCompiled p' = true /\
    m_pResourceSet p' <> None /\
    Dispatch p'
    = Some (tt, p',
            cmds' ++ [Cmd_Dispatch (m_dispatchSizeX passLayoutDirty)
                        (m_dispatchSizeY passLayoutDirty)
                        (m_dispatchSizeZ passLayoutDirty)]).
Proof.
  apply (PrepareResourcesForUse_recovers_on_reliable_device header0 deviceOk
           passLayoutDirty).
  - repeat split; intros; discriminate.
  - vm_compute. discriminate.
  - reflexivity.
  - vm_compute. reflexivity.
Defined.

(** ** Prepare and Dispatch bind the same things at the same slots *)

Lemma bindings_app t1 t2 : bindings (t1 ++ t2) = bindings t1 ++ bindings t2.
Proof. unfold bindings. apply flat_map_app. Qed.

Lemma bindings_cons c t :
  bindings (c :: t)
  = (match binding_of c with Some b => [b] | None => [] end) ++ bindings t.
Proof. reflexivity. Qed.

Lemma bindings_numbered (mk : Z -> SConstantBufferBindInfo -> Call)
    (f : Z -> SConstantBufferBindInfo -> SlotBinding) buffers :
  (forall slot cb, binding_of (mk slot cb) = Some (f slot cb)) ->
  forall bindSlot, bindings (numbered mk buffers bindSlot) = numbered f buffers bindSlot.
Proof.
  intros Hmk. induction buffers as [| cb rest IH]; intros bindSlot; [reflexivity |].
  cbn [numbered]. change (bindings (mk bindSlot cb :: ?l))
    with ((match binding_of (mk bindSlot cb) with Some b => [b] | None => [] end)
          ++ bindings l).
  rewrite Hmk, IH. reflexivity.
Qed.

Lemma bindings_none t :
  filter is_backend_call t = [] -> bindings t = [].
Proof.
  induction t as [| c t IH]; [reflexivity |].
  cbn [filter]. destruct (is_backend_call c) eqn:Hc; [discriminate |].
  intros Ht. change (bindings (c :: t))
    with ((match binding_of c with Some b => [b] | None => [] end) ++ bindings t).
  rewrite (IH Ht). destruct c; try discriminate Hc; reflexivity.
Qed.

(** The Dispatch that follows a PrepareResourcesForUse sets exactly what was
    prepared: the same resource set and the same inline constant buffers, each
    at the same bind slot and in the same order (nothing in both when the pass
    is still dirty), whether or not the prepare call compiled the pass. *)
Theorem Dispatch_binds_what_PrepareResourcesForUse_prepared (h : Header) (dev : Device)
    (p p1 : CComputeRenderPass) (t1 : list Call) :
  PrepareResourcesForUse h dev p = Some (tt, p1, t1) ->
  exists t2,
    Dispatch p1 = Some (tt, p1, t2) /\
    bindings t2 = bindings t1 /\
    bindings t1
    = (if m_dirtyMask p1 =? eDirty_None then
         ResourceSetAt 0 (m_pResourceSet p1)
         :: numbered (fun slot cb => InlineBufferAt slot (pBuffer cb) (shaderSlot cb))
              (GetBuffers (m_constantManager p1)) 1%Z
       else []).
Proof.
  rewrite PrepareResourcesForUse_run.
  destruct (PrepareResourcesForUse_refresh h dev p) as [[[u q] t] |] eqn:Hrefresh;
    [| discriminate].
  intros H. injection H as <- <-.
  pose proof (PrepareResourcesForUse_refresh_no_backend_call h dev p u q t Hrefresh) as Hnb.
  eexists. split; [apply Dispatch_closed |].
  rewrite bindings_app, (bindings_none t Hnb).
  destruct (m_dirtyMask q =? eDirty_None).
  - repeat first [rewrite bindings_app | rewrite bindings_cons].
    rewrite !(bindings_numbered _
                (fun slot cb => InlineBufferAt slot (pBuffer cb) (shaderSlot cb)))
      by reflexivity.
    cbn [binding_of app bindings flat_map]. rewrite app_nil_r. split; reflexivity.
  - split; reflexivity.
Qed.

Lemma Dispatch_binds_what_PrepareResourcesForUse_prepared_witness :
  exists t2,
    Dispatch passCompiled = Some (tt, passCompiled, t2) /\
    bindings t2
    = bindings (snd (match PrepareResourcesForUse header0 deviceOk pass0 with
                     | Some r => r
                     | None => (tt, pass0, [])
                     end)) /\
    bindings (snd (match PrepareResourcesForUse header0 deviceOk pass0 with
                   | Some r => r
                   | None => (tt, pass0, [])
                   end))
    = (if m_dirtyMask passCompiled =? eDirty_None then
         ResourceSetAt 0 (m_pResourceSet passCompiled)
         :: numbered (fun slot cb => InlineBufferAt slot (pBuffer cb) (shaderSlot cb))
              (GetBuffers (m_constantManager passCompiled)) 1%Z
       else []).
Proof.
  apply (Dispatch_binds_what_PrepareResourcesForUse_prepared header0 deviceOk pass0
           passCompiled).
  vm_compute. reflexivity.
Defined.

(** ** The calls of a full rebuild *)

(** A Compile that works from a mask with a Technique or ResourceLayout bit
    and succeeds has made its calls in this order: the Update of the resource
    set (only when a Resources bit is set, and then it succeeded), the release
    of the shader reflection, its allocation (only when the pass reflects its
    constant buffers), the creation of the layout, the creation of the
    pipeline state from that layout, and the initialisation of the reflection
    from the new pipeline state (again only when the pass reflects).  The pass
    holds the new layout and the new, valid pipeline state, and has recorded
    its update count; without the reflect flag the constant manager is left
    with its reflection released. *)
Theorem Compile_rebuild_call_sequence (h : Header) (dev : Device)
    (p p' : CComputeRenderPass) (t : list Call) :
  has (workingMask h p) (N.lor (eDirty_Technique h) (eDirty_ResourceLayout h)) = true ->
  Compile h dev p = Some (eDirty_None, p', t) ->
  exists layout pso update,
    m_pResourceLayout p' = Some layout /\
    m_pPipelineState p' = Some pso /\
    IsValid pso = true /\
    m_currentPsoUpdateCount p' = GetUpdateCount pso /\
    m_constantManager p'
    = (if has (m_flags p) (eFlags_ReflectConstantBuffersFromShader h)
       then InitShaderReflection dev (reflectedManager h dev p) pso
       else ReleaseShaderReflection dev (m_constantManager p)) /\
    update
    = (if has (workingMask h p) (eDirty_Resources h)
       then [Call_Update
               (N.land (workingMask h p)
                  (N.lor (eDirty_Resources h) (eDirty_ResourceLayout h))) true]
       else []) /\
    t = update
        ++ reflectionCalls h p
        ++ [Call_CreateResourceLayout (layoutDescOf h dev p) (Some layout);
            Call_CreateComputePSO (psoDescOf (set_m_pResourceLayout (Some layout) p))
              (Some pso)]
        ++ (if has (m_flags p) (eFlags_ReflectConstantBuffersFromShader h)
            then [Call_InitShaderReflection pso]
            else []).
Proof.
  intros Hdirty H.
  remember eDirty_None as r eqn:Hr in H.
  compile_exits H; try congruence;
    try match goal with
        | Hw : workingMask _ _ = eDirty_None, E : has (workingMask _ _) _ = true |- _ =>
            rewrite Hw, has_none in E; discriminate E
        end;
    match goal with
    | Hl : CreateResourceLayout _ _ = Some ?layout,
      Hp : CreateComputePSO _ _ = Some ?pso |- _ =>
        exists layout, pso
    end;
    eexists; unfold reflectionCalls, reflectedManager; at_exit;
    repeat split; try assumption; try reflexivity.
Qed.

Lemma Compile_rebuild_call_sequence_witness :
  exists layout pso update,
    m_pResourceLayout (set_m_dirtyMask 7 passCompiled) = Some layout /\
    m_pPipelineState (set_m_dirtyMask 7 passCompiled) = Some pso /\
    IsValid pso = true /\
    m_currentPsoUpdateCount (set_m_dirtyMask 7 passCompiled) = GetUpdateCount pso /\
    m_constantManager (set_m_dirtyMask 7 passCompiled)
    = (if has (m_flags pass0) (eFlags_ReflectConstantBuffersFromShader header0)
       then InitShaderReflection deviceOk (reflectedManager header0 deviceOk pass0) pso
       else ReleaseShaderReflection deviceOk (m_constantManager pass0)) /\
    update
    = (if has (workingMask header0 pass0) (eDirty_Resources header0)
       then [Call_Update
               (N.land (workingMask header0 pass0)
                  (N.lor (eDirty_Resources header0) (eDirty_ResourceLayout header0))) true]
       else []) /\
    [Call_Update 3 true; Call_ReleaseShaderReflection;
     Call_AllocateShaderReflection None 0 0 32;
     Call_CreateResourceLayout (layoutDescOf header0 deviceOk pass0) (Some 7);
     Call_CreateComputePSO (psoDescOf (set_m_pResourceLayout (Some 7) pass0))
       (Some validPSO);
     Call_InitShaderReflection validPSO]
    = update
      ++ reflectionCalls header0 pass0
      ++ [Call_CreateResourceLayout (layoutDescOf header0 deviceOk pass0) (Some layout);
          Call_CreateComputePSO (psoDescOf (set_m_pResourceLayout (Some layout) pass0))
            (Some pso)]
      ++ (if has (m_flags pass0) (eFlags_ReflectConstantBuffersFromShader header0)
          then [Call_InitShaderReflection pso]
          else []).
Proof.
  apply (Compile_rebuild_call_sequence header0 deviceOk pass0
           (set_m_dirtyMask 7 passCompiled)).
  - reflexivity.
  - vm_compute. reflexivity.
Defined.

(** * DeviceObjects.inl *)

(** ** Ordering of layout bind points *)

(** [operator==] holds exactly for bind points with both members equal, and
    [operator<] is the lexicographic order on (slotType, layoutSlot): it is
    irreflexive and transitive, and of two bind points exactly one is smaller
    unless they are equal, so the pair can key an ordered container. *)
Theorem SLayoutBindPoint_order_is_strict_and_total
    (a b c : LayoutBindPoint.SLayoutBindPoint) :
  (LayoutBindPoint.operator_eq a b = true <-> a = b) /\
  LayoutBindPoint.operator_lt a a = false /\
  (LayoutBindPoint.operator_lt a b = true -> LayoutBindPoint.operator_lt b c = true ->
   LayoutBindPoint.operator_lt a c = true) /\
  (LayoutBindPoint.operator_lt a b = true ->
   LayoutBindPoint.operator_lt b a = false /\ LayoutBindPoint.operator_eq a b = false) /\
  (LayoutBindPoint.operator_lt a b = false -> LayoutBindPoint.operator_lt b a = false ->
   LayoutBindPoint.operator_eq a b = true).
Proof.
  destruct a as [ta sa], b as [tb sb], c as [tc sc].
  unfold LayoutBindPoint.operator_eq, LayoutBindPoint.operator_lt.
  cbn [LayoutBindPoint.slotType LayoutBindPoint.layoutSlot].
  split; [| split; [| split; [| split]]].
  - rewrite andb_true_iff, !Z.eqb_eq. split.
    + intros (-> & ->). reflexivity.
    + intros E. injection E as -> ->. split; reflexivity.
  - rewrite Z.eqb_refl. cbn. apply Z.ltb_irrefl.
  - destruct (Z.eqb_spec ta tb), (Z.eqb_spec tb tc), (Z.eqb_spec ta tc); cbn;
      rewrite ?Z.ltb_lt; lia.
  - destruct (Z.eqb_spec ta tb), (Z.eqb_spec tb ta), (Z.eqb_spec sa sb); cbn;
      rewrite ?Z.ltb_lt, ?Z.ltb_ge; try lia; intros; split; (reflexivity || lia).
  - destruct (Z.eqb_spec ta tb), (Z.eqb_spec tb ta), (Z.eqb_spec sa sb); cbn;
      rewrite ?Z.ltb_ge; try lia; try reflexivity.
Qed.

Lemma SLayoutBindPoint_order_is_strict_and_total_witness :
  LayoutBindPoint.operator_lt
    {| LayoutBindPoint.slotType := 0; LayoutBindPoint.layoutSlot := 7 |}
    {| LayoutBindPoint.slotType := 2; LayoutBindPoint.layoutSlot := 0 |} = true.
Proof.
  apply (SLayoutBindPoint_order_is_strict_and_total
           {| LayoutBindPoint.slotType := 0; LayoutBindPoint.layoutSlot := 7 |}
           {| LayoutBindPoint.slotType := 1; LayoutBindPoint.layoutSlot := 3 |}
           {| LayoutBindPoint.slotType := 2; LayoutBindPoint.layoutSlot := 0 |});
    reflexivity.
Defined.

(** ** Marking ranges and base pointers *)

Lemma uint8_small n : n < 256 -> BufferAccess.uint8 n = n.
Proof. intros H. unfold BufferAccess.uint8. apply N.mod_small. exact H. Qed.

(** On a Direct3D 12 build, marking a range for reading and then for writing
    with the same READ or WRITE mode maps and unmaps the range at the given
    offset and hands the size over exactly once: to Map when the mode is READ,
    to Unmap when it is WRITE, and 0 to the other.  Both calls return the mode
    unchanged. *)
Theorem MarkReadRange_and_MarkWriteRange_pass_size_once (cfg : BufferAccess.BuildConfig)
    (pf : BufferAccess.Platform) (buffer : Handle) (offset size mode : N) :
  120 <= BufferAccess.CRY_RENDERER_DIRECT3D cfg ->
  BufferAccess.D3D11_MAP_READ pf <> 0 ->
  BufferAccess.D3D11_MAP_WRITE pf <> 0 ->
  N.land (BufferAccess.D3D11_MAP_READ pf) (BufferAccess.D3D11_MAP_WRITE pf) = 0 ->
  BufferAccess.D3D11_MAP_READ pf < 256 ->
  BufferAccess.D3D11_MAP_WRITE pf < 256 ->
  mode = BufferAccess.D3D11_MAP_READ pf \/ mode = BufferAccess.D3D11_MAP_WRITE pf ->
  exists sizeMapped sizeUnmapped,
    BufferAccess.MarkReadRange cfg pf buffer offset size mode
    = Some (mode, [BufferAccess.Call_Factory_Map buffer 0 offset sizeMapped 0]) /\
    BufferAccess.MarkWriteRange cfg pf buffer offset size mode
    = Some (mode, [BufferAccess.Call_Factory_Unmap buffer 0 offset sizeUnmapped 0]) /\
    (mode = BufferAccess.D3D11_MAP_READ pf -> sizeMapped = size /\ sizeUnmapped = 0) /\
    (mode = BufferAccess.D3D11_MAP_WRITE pf -> sizeMapped = 0 /\ sizeUnmapped = size).
Proof.
  intros Hd3d Hr Hw Hdisjoint Hr8 Hw8 Hmode.
  assert (Hrw : BufferAccess.D3D11_MAP_READ pf <> BufferAccess.D3D11_MAP_WRITE pf).
  { intros E. rewrite <- E, N.land_diag in Hdisjoint. contradiction. }
  unfold BufferAccess.MarkReadRange, BufferAccess.MarkWriteRange.
  apply N.leb_le in Hd3d. rewrite Hd3d.
  assert (Hsmall : mode < 256) by (destruct Hmode as [-> | ->]; assumption).
  rewrite !(uint8_small mode Hsmall).
  assert (Hok : (mode =? BufferAccess.D3D11_MAP_READ pf)
                || (mode =? BufferAccess.D3D11_MAP_WRITE pf) = true).
  { destruct Hmode as [-> | ->]; rewrite N.eqb_refl; [reflexivity | apply orb_true_r]. }
  rewrite Hok, andb_false_r.
  eexists _, _. split; [reflexivity |]. split; [reflexivity |].
  unfold has. split; intros ->.
  - rewrite N.land_diag, Hdisjoint.
    apply N.eqb_neq in Hr. rewrite Hr. split; reflexivity.
  - rewrite N.land_diag, N.land_comm, Hdisjoint.
    apply N.eqb_neq in Hw. rewrite Hw. split; reflexivity.
Qed.

Lemma MarkReadRange_and_MarkWriteRange_pass_size_once_witness :
  exists sizeMapped sizeUnmapped,
    BufferAccess.MarkReadRange BufferAccess.d3d12 BufferAccess.windows 5 64 16 2
    = Some (2, [BufferAccess.Call_Factory_Map 5 0 64 sizeMapped 0]) /\
    BufferAccess.MarkWriteRange BufferAccess.d3d12 BufferAccess.windows 5 64 16 2
    = Some (2, [BufferAccess.Call_Factory_Unmap 5 0 64 sizeUnmapped 0]) /\
    (2 = BufferAccess.D3D11_MAP_READ BufferAccess.windows ->
     sizeMapped = 16 /\ sizeUnmapped = 0) /\
    (2 = BufferAccess.D3D11_MAP_WRITE BufferAccess.windows ->
     sizeMapped = 0 /\ sizeUnmapped = 16).
Proof.
  apply (MarkReadRange_and_MarkWriteRange_pass_size_once BufferAccess.d3d12
           BufferAccess.windows 5 64 16 2).
  - vm_compute. discriminate.
  - discriminate.
  - discriminate.
  - reflexivity.
  - reflexivity.
  - reflexivity.
  - right. reflexivity.
Defined.

(** When the Vulkan symbol is either undefined or non-zero, and is not defined
    on a Durango Direct3D 11 build, ReleaseBasePointer issues exactly the unmap
    calls that undo the map calls of ExtractBasePointer: the factory's Unmap of
    the buffer's subresource 0 after the factory's Map, the buffer's own Unmap
    after its own Map, and nothing where the pointer was fetched without
    mapping.  Without direct access the pointer is NULL and neither function
    makes a call. *)
Theorem ReleaseBasePointer_undoes_ExtractBasePointer (cfg : BufferAccess.BuildConfig)
    (pf : BufferAccess.Platform) (bufs : BufferAccess.Buffers) (buffer : Handle)
    (mode : N) (base_ptr ptr : BufferAccess.Pointer) (t : list BufferAccess.BufferCall) :
  BufferAccess.CRY_RENDERER_VULKAN cfg <> Some 0 ->
  (BufferAccess.CRY_PLATFORM_DURANGO cfg = true ->
   110 <= BufferAccess.CRY_RENDERER_DIRECT3D cfg < 120 ->
   BufferAccess.CRY_RENDERER_VULKAN cfg = None) ->
  BufferAccess.ExtractBasePointer cfg pf bufs buffer mode base_ptr = Some (ptr, t) ->
  BufferAccess.unmaps_for t = BufferAccess.ReleaseBasePointer cfg buffer /\
  length (filter BufferAccess.is_map t)
  = length (filter BufferAccess.is_unmap (BufferAccess.ReleaseBasePointer cfg buffer)) /\
  (BufferAccess.BUFFER_ENABLE_DIRECT_ACCESS cfg = false -> ptr = BufferAccess.NULL /\ t = []).
Proof.
  intros Hvk Hdurango.
  unfold BufferAccess.ExtractBasePointer, BufferAccess.ReleaseBasePointer,
    BufferAccess.vulkan_nonzero, BufferAccess.vulkan_defined.
  destruct (BufferAccess.BUFFER_ENABLE_DIRECT_ACCESS cfg).
  2: { intros H. injection H as <- <-. repeat split. }
  destruct (BufferAccess.CRY_PLATFORM_DURANGO cfg) eqn:Hd;
    destruct (N.leb_spec 110 (BufferAccess.CRY_RENDERER_DIRECT3D cfg)) as [H110 | H110];
    destruct (N.ltb_spec (BufferAccess.CRY_RENDERER_DIRECT3D cfg) 120) as [H120 | H120];
    destruct (N.leb_spec 120 (BufferAccess.CRY_RENDERER_DIRECT3D cfg)) as [G120 | G120];
    try lia;
    try (rewrite (Hdurango eq_refl (conj H110 H120)));
    destruct (BufferAccess.CRY_RENDERER_GNM cfg), (BufferAccess.CRY_PLATFORM_ORBIS cfg);
    cbn [andb];
    try destruct (BufferAccess.GetPrivateData bufs buffer) as [hr data];
    try destruct (BufferAccess.ASSERT_ENABLED cfg && negb (hr =? BufferAccess.S_OK pf)%Z);
    try destruct (BufferAccess.CRY_RENDERER_VULKAN cfg) as [v |] eqn:Hv;
    try (destruct (N.eqb_spec v 0) as [-> | Hv0]; [contradiction Hvk; reflexivity |]);
    cbn [negb];
    intros H; try discriminate H; injection H as <- <-;
    (split; [reflexivity | split; [reflexivity | discriminate]]).
Qed.

Lemma ReleaseBasePointer_undoes_ExtractBasePointer_witness :
  BufferAccess.unmaps_for [BufferAccess.Call_Buffer_Map 5]
  = BufferAccess.ReleaseBasePointer BufferAccess.vulkan 5 /\
  length (filter BufferAccess.is_map [BufferAccess.Call_Buffer_Map 5])
  = length (filter BufferAccess.is_unmap
              (BufferAccess.ReleaseBasePointer BufferAccess.vulkan 5)) /\
  (BufferAccess.BUFFER_ENABLE_DIRECT_ACCESS BufferAccess.vulkan = false ->
   5005 = BufferAccess.NULL /\ [BufferAccess.Call_Buffer_Map 5] = []).
Proof.
  apply (ReleaseBasePointer_undoes_ExtractBasePointer BufferAccess.vulkan
           BufferAccess.windows BufferAccess.buffers0 5 1 0 5005
           [BufferAccess.Call_Buffer_Map 5]).
  - discriminate.
  - discriminate.
  - reflexivity.
Defined.
